(** * The workflow concurrency controller of hatchet

    A shallow embedding of [internal/services/controllers/workflows]
    (the files [controller.go] and [queue.go]) together with the
    properties its specification states about it.

    The controller talks to three collaborators through Go interfaces:
    the repository (the store), the message queue (the bus) and the
    gocron scheduler.  Their implementations are not part of the
    package, so each one is a type class here, and the controller is
    written once for every instance.  The controller itself is a
    state-and-error computation over a [World] that carries the state
    of the three collaborators, the wall clock, and the list of the
    calls made so far.

    Goroutines launched through an [errgroup.Group] run concurrently
    in Go.  Here each of them runs to completion without being
    interleaved with the others, and the order in which the goroutines
    of a group complete is not fixed by the program: it is given by a
    [Goroutines] instance, a parameter like the collaborators.  [Wait]
    returns the error of the goroutine that failed first in that
    order. *)

From Stdlib Require Import String ZArith List Bool Lia.
From stdpp Require Import base option list gmap strings.
Import ListNotations.

Local Open Scope string_scope.
Local Open Scope Z_scope.
Local Open Scope list_scope.

(** ** Errors and results *)

(** Go [error] values.  [ErrNoWorkerAvailable] is the repository's
    sentinel, [ErrNew] an error made from a message alone,
    [ErrWrap msg e] is [fmt.Errorf("msg: %w", e)], and
    [ErrAppend e1 e2] is [multierror.Append(e1, e2)]. *)
Inductive error : Type :=
  | ErrNoWorkerAvailable
  | ErrNew (msg : string)
  | ErrWrap (msg : string) (cause : error)
  | ErrAppend (e1 e2 : error).

(** [errors.Is(err, repository.ErrNoWorkerAvailable)]: walks the chain
    of wrapped errors. *)
Fixpoint errors_Is_NoWorkerAvailable (err : error) : bool :=
  match err with
  | ErrNoWorkerAvailable => true
  | ErrNew _ => false
  | ErrWrap _ cause => errors_Is_NoWorkerAvailable cause
  | ErrAppend e1 e2 =>
      errors_Is_NoWorkerAvailable e1 || errors_Is_NoWorkerAvailable e2
  end.

(** What a Go call of type [(A, error)] comes back with: a value and
    a nil error, or a non-nil error. *)
Inductive result (A : Type) : Type :=
  | Ok (a : A)
  | Err (e : error).
Arguments Ok {A} a.
Arguments Err {A} e.

(** How a piece of the controller ends: it returns, or it panics (a
    nil pointer dereference). *)
Inductive outcome (A : Type) : Type :=
  | Return (r : result A)
  | Panic (msg : string).
Arguments Return {A} r.
Arguments Panic {A} msg.

Definition is_Ok {A} (o : outcome A) : bool :=
  match o with Return (Ok _) => true | _ => false end.

(** ** Time *)

(** A [time.Time] is the number of nanoseconds since Go's zero time;
    a [time.Duration] is a number of nanoseconds. *)
Definition Time := Z.
Definition Duration := Z.

Definition time_Second : Duration := 1000000000.
Definition time_IsZero (t : Time) : bool := Z.eqb t 0.
Definition time_Before (t u : Time) : bool := Z.ltb t u.
Definition time_Add (t : Time) (d : Duration) : Time := t + d.

(** The parts of package [time] that turn strings into times and back,
    and the configured default timeout. *)
Class GoTime := {
  time_ParseRFC3339 : string -> option Time;
  time_FormatRFC3339 : Time -> string;
  time_ParseDuration : string -> option Duration
}.

(** The constant [defaults.DefaultStepRunTimeout], a duration string
    (section 6.3).  Package [defaults] is not among the sources of the package,
    so the constant is a parameter. *)
Class Defaults := {
  DefaultStepRunTimeout : string
}.

(** ** The data model *)

(** Modelled from the spec: the generated packages [db] and [dbsqlc]
    and the option structs of package [repository] are not among the
    sources of the package.  The records below have the entities of section 3
    with the fields and accessors the controller uses. *)

Module db.

(** [db.StepRunStatus]; group-key runs use the same status type. *)
Inductive StepRunStatus : Type :=
  | StepRunStatusPending
  | StepRunStatusPendingAssignment
  | StepRunStatusAssigned
  | StepRunStatusRunning
  | StepRunStatusSucceeded
  | StepRunStatusFailed
  | StepRunStatusCancelled.

Inductive WorkflowRunStatus : Type :=
  | WorkflowRunStatusQueued
  | WorkflowRunStatusRunning
  | WorkflowRunStatusSucceeded
  | WorkflowRunStatusFailed
  | WorkflowRunStatusCancelled.

(** [db.ConcurrencyLimitStrategy] is a string type in Go; the two
    constants the controller switches on, and any other value. *)
Inductive ConcurrencyLimitStrategy : Type :=
  | ConcurrencyLimitStrategyCancelInProgress
  | ConcurrencyLimitStrategyGroupRoundRobin
  | ConcurrencyLimitStrategyOther (name : string).

Record WorkflowConcurrencyModel : Type := {
  WorkflowVersionID : string;
  MaxRuns : Z;
  LimitStrategy : ConcurrencyLimitStrategy
}.

(** The relation accessors of the generated client return a pointer
    (queue.go hands the result of [WorkflowVersion()] to functions
    that take a [*db.WorkflowVersionModel]); [Concurrency()] returns a
    pointer and a flag, and the pointer is nil exactly when the flag is
    false, so an [option] holds both. *)
Record WorkflowVersionModel : Type := {
  wv_ID : string;
  Concurrency : option WorkflowConcurrencyModel
}.

Record JobModel : Type := {
  job_ID : string;
  job_TenantID : string
}.

Record JobRunModel : Type := {
  jr_ID : string;
  Job : JobModel
}.

Record GetGroupKeyRunModel : Type := {
  ggkr_ID : string
}.

Record WorkflowRunModel : Type := {
  wr_ID : string;
  WorkflowVersion : WorkflowVersionModel;
  JobRuns : list JobRunModel;
  GetGroupKeyRun : option GetGroupKeyRunModel
}.

Record StepRunModel : Type := {
  sr_ID : string
}.

Record TenantModel : Type := {
  tenant_ID : string
}.

End db.

Module dbsqlc.

(** A row of table GetGroupKeyRun.  Identifiers are kept as the
    strings [sqlchelpers.UUIDToStr] gives; a timestamp column that
    is NULL reads as the zero time. *)
Record GetGroupKeyRun : Type := {
  ID : string;
  TenantId : string;
  WorkerId : option string;
  TickerId : string;
  Status : db.StepRunStatus;
  StartedAt : option Time;
  FinishedAt : option Time;
  Output : option string;
  Error : option string;
  RequeueAfter : option Time;
  ScheduleTimeoutAt : Time;
  CancelledAt : option Time;
  CancelledReason : option string
}.

Record GetGroupKeyRunForEngineRow : Type := {
  GetGroupKeyRun_ : GetGroupKeyRun;
  WorkflowRunId : string;
  WorkflowVersionId : string
}.

(** The rows [ListWorkflowRuns] and [PopWorkflowRunsRoundRobin]
    return; the controller reads only the identifier. *)
Record WorkflowRun : Type := {
  wr_ID : string;
  wr_CreatedAt : Time
}.

End dbsqlc.

Module repository.

Record UpdateGetGroupKeyRunOpts : Type := {
  RequeueAfter : option Time;
  StartedAt : option Time;
  FinishedAt : option Time;
  Status : option db.StepRunStatus;
  Output : option string;
  Error : option string;
  CancelledAt : option Time;
  CancelledReason : option string
}.

Record ListWorkflowRunsOpts : Type := {
  lw_WorkflowVersionId : option string;
  lw_GroupKey : option string;
  lw_Status : option db.WorkflowRunStatus;
  lw_OrderBy : option string;
  lw_OrderDirection : option string;
  lw_Limit : option Z
}.

Record ListStepRunsOpts : Type := {
  ls_WorkflowRunId : option string;
  ls_Status : option db.StepRunStatus
}.

End repository.

Module msgqueue.

(** Modelled from the spec: package [msgqueue] is not among the
    sources of the package.  The queues are those of section 6.1: the two static ones
    and the queues derived from a dispatcher id or from a ticker id. *)
Inductive Queue : Type :=
  | JOB_PROCESSING_QUEUE
  | WORKFLOW_PROCESSING_QUEUE
  | QueueTypeFromDispatcherID (dispatcherId : string)
  | QueueTypeFromTickerID (tickerId : string).

(** A message (section 4.1).  The payload and the metadata are JSON
    objects; every field the controller reads or writes is a string. *)
Record Message : Type := {
  ID : string;
  Payload : gmap string string;
  Metadata : gmap string string;
  Retries : Z
}.

End msgqueue.

(** ** The collaborators *)

(** [repository.Repository], flattened: one field per method the
    controller calls.  Queries read the store; the other operations
    also return the new store. *)
Class Repository := {
  Store : Type;
  GetWorkflowRunById :
    string -> string -> Store -> result db.WorkflowRunModel;
  ListWorkflowRuns :
    string -> repository.ListWorkflowRunsOpts -> Store ->
    result (list dbsqlc.WorkflowRun);
  PopWorkflowRunsRoundRobin :
    string -> string -> Z -> Store ->
    result (list dbsqlc.WorkflowRun) * Store;
  GetGroupKeyRunForEngine :
    string -> string -> Store -> result dbsqlc.GetGroupKeyRunForEngineRow;
  UpdateGetGroupKeyRun :
    string -> string -> repository.UpdateGetGroupKeyRunOpts -> Store ->
    result dbsqlc.GetGroupKeyRunForEngineRow * Store;
  AssignGetGroupKeyRunToWorker :
    string -> string -> Store -> result (string * string) * Store;
  AssignGetGroupKeyRunToTicker :
    string -> string -> Store -> result string * Store;
  ListGetGroupKeyRunsToRequeue :
    string -> Store -> result (list dbsqlc.GetGroupKeyRun);
  ListGetGroupKeyRunsToReassign :
    string -> Store -> result (list dbsqlc.GetGroupKeyRun);
  ListStepRuns :
    string -> repository.ListStepRunsOpts -> Store ->
    result (list db.StepRunModel);
  ListTenants : Store -> result (list db.TenantModel);
  GetWorkflowVersionById :
    string -> string -> Store -> result db.WorkflowVersionModel
}.

(** [msgqueue.MessageQueue].  [Subscribe] hands back the function that
    undoes the subscription; [CleanupQueue] is that function. *)
Class MessageQueue := {
  Bus : Type;
  AddMessage : msgqueue.Queue -> msgqueue.Message -> Bus -> result unit * Bus;
  Subscribe : msgqueue.Queue -> Bus -> result unit * Bus;
  CleanupQueue : Bus -> result unit * Bus
}.

(** [gocron.Scheduler]. *)
Class Scheduler := {
  Cron : Type;
  NewJob : Duration -> string -> Cron -> result unit * Cron;
  SchedulerStart : Cron -> Cron;
  Shutdown : Cron -> result unit * Cron
}.

(** [tasktypes.JobRunQueuedToTask], the constructor of the message that
    queues a job run.  It is not among the sources of the package, so it is a
    parameter. *)
Class TaskTypes := {
  JobRunQueuedToTask : db.JobModel -> db.JobRunModel -> msgqueue.Message
}.

(** ** The world and the controller's computations *)

(** One entry per call the controller makes on a collaborator, with
    the arguments of the call. *)
Inductive Event : Type :=
  | EvGetWorkflowRunById (tenantId id : string)
  | EvListWorkflowRuns (tenantId : string) (opts : repository.ListWorkflowRunsOpts)
  | EvPopWorkflowRunsRoundRobin (tenantId workflowVersionId : string) (maxRuns : Z)
  | EvGetGroupKeyRunForEngine (tenantId id : string)
  | EvUpdateGetGroupKeyRun (tenantId id : string)
      (opts : repository.UpdateGetGroupKeyRunOpts)
  | EvAssignGetGroupKeyRunToWorker (tenantId id : string)
  | EvAssignGetGroupKeyRunToTicker (tenantId id : string)
  | EvListGetGroupKeyRunsToRequeue (tenantId : string)
  | EvListGetGroupKeyRunsToReassign (tenantId : string)
  | EvListStepRuns (tenantId : string) (opts : repository.ListStepRunsOpts)
  | EvListTenants
  | EvGetWorkflowVersionById (tenantId id : string)
  | EvAddMessage (q : msgqueue.Queue) (m : msgqueue.Message)
  | EvSubscribe (q : msgqueue.Queue)
  | EvCleanupQueue
  | EvNewJob (every : Duration) (job : string)
  | EvSchedulerStart
  | EvSchedulerShutdown
  | EvCancel
  | EvWaitGroupWait.

(** The Go runtime decides in which order the goroutines of an
    [errgroup.Group] complete.  [completion history g] is that order
    for the group [g] waited for after the calls in [history]: some
    arrangement of [g], chosen without looking at the goroutines
    themselves. *)
Class Goroutines := {
  completion : forall {A}, list Event -> list A -> list A;
  completion_Permutation :
    forall A (history : list Event) (g : list A),
      Permutation (completion history g) g;
  completion_map :
    forall A B (f : A -> B) (history : list Event) (g : list A),
      completion history (map f g) = map f (completion history g)
}.

(** Every goroutine completes before the next one launched. *)
Definition launchOrder : Goroutines := {|
  completion := fun _ _ g => g;
  completion_Permutation := fun _ _ g => Permutation_refl g;
  completion_map := fun _ _ _ _ _ => eq_refl
|}.

(** The goroutine launched last completes first. *)
Definition lastFirst : Goroutines := {|
  completion := fun _ _ g => rev g;
  completion_Permutation := fun _ _ g => Permutation_sym (Permutation_rev g);
  completion_map := fun _ _ f _ g => eq_sym (map_rev f g)
|}.

Section Computations.

Context {R : Repository} {Q : MessageQueue} {G : Scheduler}.

(** [WorkflowsControllerImpl] holds the collaborators ([repo], [mq],
    [s]); the world holds their states.  [clock] gives the successive
    readings of [time.Now()], [ticks] counts the readings taken. *)
Record World : Type := {
  repo : Store;
  mq : Bus;
  s : Cron;
  clock : nat -> Time;
  ticks : nat;
  trace : list Event
}.

Definition M (A : Type) : Type := World -> outcome A * World.

Definition ret {A} (a : A) : M A := fun w => (Return (Ok a), w).

Definition bind {A B} (m : M A) (f : A -> M B) : M B :=
  fun w =>
    match m w with
    | (Return (Ok a), w') => f a w'
    | (Return (Err e), w') => (Return (Err e), w')
    | (Panic msg, w') => (Panic msg, w')
    end.

(** [return err] *)
Definition throw {A} (e : error) : M A := fun w => (Return (Err e), w).

(** A nil pointer dereference. *)
Definition panic {A} (msg : string) : M A := fun w => (Panic msg, w).

(** [v, err := m] without the usual early return: the error becomes
    a value the caller inspects. *)
Definition attempt {A} (m : M A) : M (A + error) :=
  fun w =>
    match m w with
    | (Return (Ok a), w') => (Return (Ok (inl a)), w')
    | (Return (Err e), w') => (Return (Ok (inr e)), w')
    | (Panic msg, w') => (Panic msg, w')
    end.

(** [if err != nil { return fmt.Errorf("msg: %w", err) }] *)
Definition wrap {A} (msg : string) (m : M A) : M A :=
  fun w =>
    match m w with
    | (Return (Err e), w') => (Return (Err (ErrWrap msg e)), w')
    | other => other
    end.

Definition log (ev : Event) (w : World) : World :=
  {| repo := repo w; mq := mq w; s := s w; clock := clock w;
     ticks := ticks w; trace := trace w ++ [ev] |}.

Definition setRepo (st : Store) (w : World) : World :=
  {| repo := st; mq := mq w; s := s w; clock := clock w;
     ticks := ticks w; trace := trace w |}.

Definition setMq (b : Bus) (w : World) : World :=
  {| repo := repo w; mq := b; s := s w; clock := clock w;
     ticks := ticks w; trace := trace w |}.

Definition setCron (c : Cron) (w : World) : World :=
  {| repo := repo w; mq := mq w; s := c; clock := clock w;
     ticks := ticks w; trace := trace w |}.

(** A query on the store. *)
Definition query {A} (ev : Event) (f : Store -> result A) : M A :=
  fun w => (Return (f (repo w)), log ev w).

(** An operation that may change the store. *)
Definition update {A} (ev : Event) (f : Store -> result A * Store) : M A :=
  fun w => let (r, st) := f (repo w) in (Return r, setRepo st (log ev w)).

Definition onBus {A} (ev : Event) (f : Bus -> result A * Bus) : M A :=
  fun w => let (r, b) := f (mq w) in (Return r, setMq b (log ev w)).

Definition onCron {A} (ev : Event) (f : Cron -> result A * Cron) : M A :=
  fun w => let (r, c) := f (s w) in (Return r, setCron c (log ev w)).

(** A computation that touches nothing (decoding, parsing). *)
Definition lift {A} (r : result A) : M A := fun w => (Return r, w).

(** An effect with no result of its own ([cancel()], [wg.Wait()]). *)
Definition mark (ev : Event) : M unit :=
  fun w => (Return (Ok tt), log ev w).

(** [time.Now().UTC()] *)
Definition time_Now : M Time :=
  fun w =>
    (Return (Ok (clock w (ticks w))),
     {| repo := repo w; mq := mq w; s := s w; clock := clock w;
        ticks := S (ticks w); trace := trace w |}).

End Computations.


Notation "'let*' x ':=' c 'in' k" := (bind c (fun x => k))
  (at level 10, x binder, c at level 100, k at level 200, only parsing).

(** ** Message payloads *)

Module tasktypes.

(** Modelled from the spec: the payload and metadata structs of
    package [tasktypes] and the decoder of package [datautils] are
    not among the sources of the package.  Section 6.1 names the fields of each
    message; a field that is absent from the JSON object makes the
    decoding fail. *)
Definition field (m : gmap string string) (key : string) : result string :=
  match m !! key with
  | Some v => Ok v
  | None => Err (ErrNew ("missing field " +:+ key))
  end.

Record WorkflowRunFinishedTask : Type := {
  wrf_WorkflowRunId : string
}.

Record GetGroupKeyRunStartedTaskPayload : Type := {
  gs_GetGroupKeyRunId : string;
  gs_StartedAt : string
}.

Record GetGroupKeyRunFinishedTaskPayload : Type := {
  gf_GetGroupKeyRunId : string;
  gf_FinishedAt : string;
  gf_GroupKey : string
}.

Record GetGroupKeyRunFailedTaskPayload : Type := {
  gx_GetGroupKeyRunId : string;
  gx_FailedAt : string;
  gx_Error : string
}.

Definition andThen {A B} (r : result A) (f : A -> result B) : result B :=
  match r with
  | Ok a => f a
  | Err e => Err e
  end.

Definition decodeWorkflowRunId (m : gmap string string)
  : result WorkflowRunFinishedTask :=
  andThen (field m "workflow_run_id") (fun v =>
  Ok {| wrf_WorkflowRunId := v |}).

Definition decodeTenantId (m : gmap string string) : result string :=
  field m "tenant_id".

Definition decodeStarted (m : gmap string string)
  : result GetGroupKeyRunStartedTaskPayload :=
  andThen (field m "get_group_key_run_id") (fun i =>
  andThen (field m "started_at") (fun t =>
  Ok {| gs_GetGroupKeyRunId := i; gs_StartedAt := t |})).

Definition decodeFinished (m : gmap string string)
  : result GetGroupKeyRunFinishedTaskPayload :=
  andThen (field m "get_group_key_run_id") (fun i =>
  andThen (field m "finished_at") (fun t =>
  andThen (field m "group_key") (fun k =>
  Ok {| gf_GetGroupKeyRunId := i; gf_FinishedAt := t; gf_GroupKey := k |}))).

Definition decodeFailed (m : gmap string string)
  : result GetGroupKeyRunFailedTaskPayload :=
  andThen (field m "get_group_key_run_id") (fun i =>
  andThen (field m "failed_at") (fun t =>
  andThen (field m "error") (fun e =>
  Ok {| gx_GetGroupKeyRunId := i; gx_FailedAt := t; gx_Error := e |}))).

(** [datautils.ToJSONMap] of a struct: the JSON object with one entry
    per field. *)
Definition ToJSONMap (fields : list (string * string)) : gmap string string :=
  list_to_map fields.

End tasktypes.

(** ** The controller *)

Section Controller.

Context {R : Repository} {Q : MessageQueue} {G : Scheduler}.
Context {T : GoTime} {D : Defaults} {TT : TaskTypes}.
Context {GR : Goroutines}.

(** *** errgroup *)

(** An [errgroup.Group] is the list of the functions handed to [Go],
    in launch order. *)
Definition errgroup_Group : Type := list (M unit).

Definition errgroup_Go (g : errgroup_Group) (f : M unit) : errgroup_Group :=
  g ++ [f].

(** The goroutines of [g], taken in the order in which they complete.
    Every function runs, also after one has failed (the group has no
    context to cancel); [first] is the error of the first one that
    failed so far, which is the one [Wait] returns. *)
Fixpoint errgroup_run (g : errgroup_Group) (first : option error) : M unit :=
  match g with
  | [] => match first with
          | None => ret tt
          | Some e => throw e
          end
  | f :: rest =>
      fun w =>
        match f w with
        | (Return (Ok _), w') => errgroup_run rest first w'
        | (Return (Err e), w') =>
            errgroup_run rest
              (match first with None => Some e | Some _ => first end) w'
        | (Panic msg, w') => (Panic msg, w')
        end
  end.

(** [g.Wait()]: the goroutines were started by [Go]; they complete in
    the order the runtime gives. *)
Definition errgroup_Wait (g : errgroup_Group) : M unit :=
  fun w => errgroup_run (completion (trace w) g) None w.

(** *** The calls on the collaborators, as computations *)

Definition repo_GetWorkflowRunById (tenantId id : string) :=
  query (EvGetWorkflowRunById tenantId id) (GetWorkflowRunById tenantId id).

Definition repo_ListWorkflowRuns (tenantId : string) opts :=
  query (EvListWorkflowRuns tenantId opts) (ListWorkflowRuns tenantId opts).

Definition repo_PopWorkflowRunsRoundRobin (tenantId versionId : string) (maxRuns : Z) :=
  update (EvPopWorkflowRunsRoundRobin tenantId versionId maxRuns)
         (PopWorkflowRunsRoundRobin tenantId versionId maxRuns).

Definition repo_GetGroupKeyRunForEngine (tenantId id : string) :=
  query (EvGetGroupKeyRunForEngine tenantId id)
        (GetGroupKeyRunForEngine tenantId id).

Definition repo_UpdateGetGroupKeyRun (tenantId id : string) opts :=
  update (EvUpdateGetGroupKeyRun tenantId id opts)
         (UpdateGetGroupKeyRun tenantId id opts).

Definition repo_AssignGetGroupKeyRunToWorker (tenantId id : string) :=
  update (EvAssignGetGroupKeyRunToWorker tenantId id)
         (AssignGetGroupKeyRunToWorker tenantId id).

Definition repo_AssignGetGroupKeyRunToTicker (tenantId id : string) :=
  update (EvAssignGetGroupKeyRunToTicker tenantId id)
         (AssignGetGroupKeyRunToTicker tenantId id).

Definition repo_ListGetGroupKeyRunsToRequeue (tenantId : string) :=
  query (EvListGetGroupKeyRunsToRequeue tenantId)
        (ListGetGroupKeyRunsToRequeue tenantId).


Definition repo_ListStepRuns (tenantId : string) opts :=
  query (EvListStepRuns tenantId opts) (ListStepRuns tenantId opts).


Definition repo_GetWorkflowVersionById (tenantId id : string) :=
  query (EvGetWorkflowVersionById tenantId id)
        (GetWorkflowVersionById tenantId id).

Definition mq_AddMessage (q : msgqueue.Queue) (m : msgqueue.Message) : M unit :=
  onBus (EvAddMessage q m) (AddMessage q m).

(** *** Messages the controller builds (queue.go, controller.go) *)

Definition getGroupActionTask
    (tenantId workflowRunId workerId dispatcherId : string) : msgqueue.Message :=
  let payload := tasktypes.ToJSONMap
    [("workflow_run_id", workflowRunId); ("worker_id", workerId)] in
  let metadata := tasktypes.ToJSONMap
    [("tenant_id", tenantId); ("dispatcher_id", dispatcherId)] in
  {| msgqueue.ID := "group-key-action-assigned";
     msgqueue.Payload := payload;
     msgqueue.Metadata := metadata;
     msgqueue.Retries := 3 |}.

Definition getStepRunNotifyCancelTask
    (tenantId stepRunId reason : string) : msgqueue.Message :=
  let payload := tasktypes.ToJSONMap
    [("step_run_id", stepRunId); ("cancelled_reason", reason)] in
  let metadata := tasktypes.ToJSONMap [("tenant_id", tenantId)] in
  {| msgqueue.ID := "step-run-cancelled";
     msgqueue.Payload := payload;
     msgqueue.Metadata := metadata;
     msgqueue.Retries := 3 |}.

Definition scheduleGetGroupKeyRunTimeoutTask
    (tenantId workflowRunId getGroupKeyRunId : string) : M msgqueue.Message :=
  let durationStr := DefaultStepRunTimeout in
  match time_ParseDuration durationStr with
  | None => throw (ErrWrap "could not parse duration" (ErrNew durationStr))
  | Some duration =>
      let* now := time_Now in
      let timeoutAt := time_Add now duration in
      let payload := tasktypes.ToJSONMap
        [("get_group_key_run_id", getGroupKeyRunId);
         ("workflow_run_id", workflowRunId);
         ("timeout_at", time_FormatRFC3339 timeoutAt)] in
      let metadata := tasktypes.ToJSONMap [("tenant_id", tenantId)] in
      ret {| msgqueue.ID := "schedule-get-group-key-run-timeout";
             msgqueue.Payload := payload;
             msgqueue.Metadata := metadata;
             msgqueue.Retries := 3 |}
  end.

Definition cancelGetGroupKeyRunTimeoutTask
    (getGroupKeyRun : dbsqlc.GetGroupKeyRunForEngineRow) : msgqueue.Message :=
  let payload := tasktypes.ToJSONMap
    [("get_group_key_run_id",
      dbsqlc.ID (dbsqlc.GetGroupKeyRun_ getGroupKeyRun))] in
  let metadata := tasktypes.ToJSONMap
    [("tenant_id", dbsqlc.TenantId (dbsqlc.GetGroupKeyRun_ getGroupKeyRun))] in
  {| msgqueue.ID := "cancel-get-group-key-run-timeout";
     msgqueue.Payload := payload;
     msgqueue.Metadata := metadata;
     msgqueue.Retries := 3 |}.

(** *** queue.go *)

Definition scheduleGetGroupAction
    (getGroupKeyRun : dbsqlc.GetGroupKeyRunForEngineRow) : M unit :=
  let tenantId := dbsqlc.TenantId (dbsqlc.GetGroupKeyRun_ getGroupKeyRun) in
  let getGroupKeyRunId := dbsqlc.ID (dbsqlc.GetGroupKeyRun_ getGroupKeyRun) in
  let workflowRunId := dbsqlc.WorkflowRunId getGroupKeyRun in
  let* getGroupKeyRun' :=
    wrap "could not update get group key run"
      (repo_UpdateGetGroupKeyRun tenantId getGroupKeyRunId
         {| repository.RequeueAfter := None;
            repository.StartedAt := None;
            repository.FinishedAt := None;
            repository.Status := Some db.StepRunStatusPendingAssignment;
            repository.Output := None;
            repository.Error := None;
            repository.CancelledAt := None;
            repository.CancelledReason := None |}) in
  let* assigned :=
    attempt (repo_AssignGetGroupKeyRunToWorker tenantId getGroupKeyRunId) in
  match assigned with
  | inr err =>
      if errors_Is_NoWorkerAvailable err then ret tt
      else throw (ErrWrap "could not assign get group key run to worker" err)
  | inl (selectedWorkerId, dispatcherId) =>
      let* tickerId :=
        wrap "could not assign get group key run to ticker"
          (repo_AssignGetGroupKeyRunToTicker tenantId getGroupKeyRunId) in
      let* scheduleTimeoutTask :=
        wrap "could not schedule get group key run timeout task"
          (scheduleGetGroupKeyRunTimeoutTask
             tenantId workflowRunId getGroupKeyRunId) in
      (* send a task to the dispatcher *)
      let* _ :=
        wrap "could not add job assigned task to task queue"
          (mq_AddMessage (msgqueue.QueueTypeFromDispatcherID dispatcherId)
             (getGroupActionTask
                tenantId workflowRunId selectedWorkerId dispatcherId)) in
      (* send a task to the ticker *)
      let* _ :=
        wrap "could not add schedule get group key run timeout task to task queue"
          (mq_AddMessage (msgqueue.QueueTypeFromTickerID tickerId)
             scheduleTimeoutTask) in
      ret tt
  end.

(** The loop of [queueWorkflowRunJobs].  [err] is the variable
    declared before the loop.  The [err := ...] inside the loop
    declares a second variable, and the [multierror.Append]
    assignment writes that one; it is gone when the iteration ends. *)
Fixpoint queueWorkflowRunJobs_loop
    (jobRuns : list db.JobRunModel) (err : option error) : M (option error) :=
  match jobRuns with
  | [] => ret err
  | jobRun :: rest =>
      let* sent :=
        attempt (mq_AddMessage msgqueue.JOB_PROCESSING_QUEUE
                   (JobRunQueuedToTask (db.Job jobRun) jobRun)) in
      let err_inner : option error :=
        match sent with
        | inr e =>
            Some (ErrAppend e
                    (ErrWrap "could not add job run to task queue" e))
        | inl _ => None
        end in
      queueWorkflowRunJobs_loop rest err
  end.

Definition queueWorkflowRunJobs (workflowRun : db.WorkflowRunModel) : M unit :=
  let jobRuns := db.JobRuns workflowRun in
  let* err := queueWorkflowRunJobs_loop jobRuns None in
  match err with
  | None => ret tt
  | Some e => throw e
  end.

(** The function handed to [g.Go] for one run of the requeue scan. *)
Definition requeueOne (tenantId : string)
    (getGroupKeyRunCp : dbsqlc.GetGroupKeyRun) : M unit :=
  let getGroupKeyRunId := dbsqlc.ID getGroupKeyRunCp in
  let* now := time_Now in
  let scheduleTimeoutAt := dbsqlc.ScheduleTimeoutAt getGroupKeyRunCp in
  let isTimedOut :=
    negb (time_IsZero scheduleTimeoutAt)
    && time_Before scheduleTimeoutAt now in
  if isTimedOut then
    let* innerGetGroupKeyRun :=
      wrap ("could not update get group key run " +:+ getGroupKeyRunId)
        (repo_UpdateGetGroupKeyRun tenantId getGroupKeyRunId
           {| repository.RequeueAfter := None;
              repository.StartedAt := None;
              repository.FinishedAt := None;
              repository.Status := Some db.StepRunStatusCancelled;
              repository.Output := None;
              repository.Error := None;
              repository.CancelledAt := Some now;
              repository.CancelledReason := Some "SCHEDULING_TIMED_OUT" |}) in
    ret tt
  else
    let* now' := time_Now in
    let requeueAfter := time_Add now' (time_Second * 5) in
    let* innerGetGroupKeyRun :=
      wrap ("could not update get group key run " +:+ getGroupKeyRunId)
        (repo_UpdateGetGroupKeyRun tenantId getGroupKeyRunId
           {| repository.RequeueAfter := Some requeueAfter;
              repository.StartedAt := None;
              repository.FinishedAt := None;
              repository.Status := None;
              repository.Output := None;
              repository.Error := None;
              repository.CancelledAt := None;
              repository.CancelledReason := None |}) in
    scheduleGetGroupAction innerGetGroupKeyRun.

Definition runGetGroupKeyRunRequeueTenant (tenantId : string) : M unit :=
  let* getGroupKeyRuns :=
    wrap "could not list group key runs"
      (repo_ListGetGroupKeyRunsToRequeue tenantId) in
  let g := fold_left (fun g getGroupKeyRunCp =>
             errgroup_Go g (requeueOne tenantId getGroupKeyRunCp))
           getGroupKeyRuns [] in
  errgroup_Wait g.





Definition cancelWorkflowRun (tenantId workflowRunId : string) : M unit :=
  let* workflowRun :=
    wrap "could not get workflow run"
      (repo_GetWorkflowRunById tenantId workflowRunId) in
  (* cancel all running step runs *)
  let* stepRuns :=
    wrap "could not list step runs"
      (repo_ListStepRuns tenantId
         {| repository.ls_WorkflowRunId := Some (db.wr_ID workflowRun);
            repository.ls_Status := Some db.StepRunStatusRunning |}) in
  let errGroup := fold_left (fun g stepRunCp =>
             errgroup_Go g
               (mq_AddMessage msgqueue.JOB_PROCESSING_QUEUE
                  (getStepRunNotifyCancelTask tenantId (db.sr_ID stepRunCp)
                     "CANCELLED_BY_CONCURRENCY_LIMIT")))
           stepRuns [] in
  errgroup_Wait errGroup.

(** The function handed to [errGroup.Go] for one queued or popped
    row: fetch the run, queue its job runs. *)
Definition releaseOne (tenantId : string) (row : dbsqlc.WorkflowRun) : M unit :=
  let workflowRunId := dbsqlc.wr_ID row in
  let* workflowRun :=
    wrap "could not get workflow run"
      (repo_GetWorkflowRunById tenantId workflowRunId) in
  queueWorkflowRunJobs workflowRun.

Definition cancelOne (tenantId : string) (row : dbsqlc.WorkflowRun) : M unit :=
  let workflowRunId := dbsqlc.wr_ID row in
  cancelWorkflowRun tenantId workflowRunId.

(** [for i := range runningWorkflowRuns.Rows]: [i] is the index of
    the head of [rows], [lenQueued] is [len(queuedWorkflowRuns.Rows)]. *)
Fixpoint cancelLoop (tenantId : string) (rows : list dbsqlc.WorkflowRun)
    (i lenQueued : Z) (errGroup : errgroup_Group) : errgroup_Group :=
  match rows with
  | [] => errGroup
  | row :: rest =>
      (* in this strategy we need to make room for all of the queued runs *)
      if i >=? lenQueued then errGroup
      else cancelLoop tenantId rest (i + 1) lenQueued
             (errgroup_Go errGroup (cancelOne tenantId row))
  end.

(** [for i := range queuedWorkflowRuns.Rows] *)
Fixpoint queueLoop (tenantId : string) (rows : list dbsqlc.WorkflowRun)
    (i maxToQueue : Z) (errGroup : errgroup_Group) : errgroup_Group :=
  match rows with
  | [] => errGroup
  | row :: rest =>
      if i >=? maxToQueue then errGroup
      else queueLoop tenantId rest (i + 1) maxToQueue
             (errgroup_Go errGroup (releaseOne tenantId row))
  end.

Definition listRunningOpts (concurrency : db.WorkflowConcurrencyModel)
    (groupKey : string) : repository.ListWorkflowRunsOpts :=
  {| repository.lw_WorkflowVersionId := Some (db.WorkflowVersionID concurrency);
     repository.lw_GroupKey := Some groupKey;
     repository.lw_Status := Some db.WorkflowRunStatusRunning;
     (* order from oldest to newest *)
     repository.lw_OrderBy := Some "createdAt";
     repository.lw_OrderDirection := Some "ASC";
     repository.lw_Limit := None |}.

Definition listQueuedOpts (concurrency : db.WorkflowConcurrencyModel)
    (groupKey : string) : repository.ListWorkflowRunsOpts :=
  {| repository.lw_WorkflowVersionId := Some (db.WorkflowVersionID concurrency);
     repository.lw_GroupKey := Some groupKey;
     repository.lw_Status := Some db.WorkflowRunStatusQueued;
     (* order from oldest to newest *)
     repository.lw_OrderBy := Some "createdAt";
     repository.lw_OrderDirection := Some "ASC";
     repository.lw_Limit := Some (db.MaxRuns concurrency) |}.

Definition queueByCancelInProgress (tenantId groupKey : string)
    (workflowVersion : db.WorkflowVersionModel) : M unit :=
  match db.Concurrency workflowVersion with
  | None => ret tt
  | Some concurrency =>
      (* list all workflow runs that are running for this group key *)
      let* runningWorkflowRuns :=
        wrap "could not list running workflow runs"
          (repo_ListWorkflowRuns tenantId
             (listRunningOpts concurrency groupKey)) in
      (* get workflow runs which are queued for this group key *)
      let* queuedWorkflowRuns :=
        wrap "could not list queued workflow runs"
          (repo_ListWorkflowRuns tenantId
             (listQueuedOpts concurrency groupKey)) in
      let maxRuns := db.MaxRuns concurrency in
      let maxToQueue :=
        Z.min maxRuns (Z.of_nat (length queuedWorkflowRuns)) in
      let errGroup :=
        cancelLoop tenantId runningWorkflowRuns 0
          (Z.of_nat (length queuedWorkflowRuns)) [] in
      let* _ :=
        wrap "could not cancel workflow runs" (errgroup_Wait errGroup) in
      let errGroup :=
        queueLoop tenantId queuedWorkflowRuns 0 maxToQueue [] in
      let* _ :=
        wrap "could not queue workflow runs" (errgroup_Wait errGroup) in
      ret tt
  end.

Definition queueByGroupRoundRobin (tenantId : string)
    (workflowVersion : db.WorkflowVersionModel) : M unit :=
  match db.Concurrency workflowVersion with
  | None => ret tt
  | Some concurrency =>
      let* poppedWorkflowRuns :=
        wrap "could not list queued workflow runs"
          (repo_PopWorkflowRunsRoundRobin tenantId
             (db.WorkflowVersionID concurrency) (db.MaxRuns concurrency)) in
      let errGroup := fold_left (fun g row =>
                 errgroup_Go g (releaseOne tenantId row))
               poppedWorkflowRuns [] in
      let* _ :=
        wrap "could not queue workflow runs" (errgroup_Wait errGroup) in
      ret tt
  end.

Definition handleWorkflowRunQueued (task : msgqueue.Message) : M unit :=
  let* payload :=
    wrap "could not decode job task payload"
      (lift (tasktypes.decodeWorkflowRunId (msgqueue.Payload task))) in
  let* metadata_TenantId :=
    wrap "could not decode job task metadata"
      (lift (tasktypes.decodeTenantId (msgqueue.Metadata task))) in
  (* get the workflow run in the database *)
  let* workflowRun :=
    wrap "could not get job run"
      (repo_GetWorkflowRunById metadata_TenantId
         (tasktypes.wrf_WorkflowRunId payload)) in
  match db.Concurrency (db.WorkflowVersion workflowRun) with
  | Some _ =>
      match db.GetGroupKeyRun workflowRun with
      | None => throw (ErrNew "could not get group key run")
      | Some groupKeyRun =>
          let* sqlcGroupKeyRun :=
            wrap "could not get group key run for engine"
              (repo_GetGroupKeyRunForEngine metadata_TenantId
                 (db.ggkr_ID groupKeyRun)) in
          let* _ :=
            wrap "could not trigger get group action"
              (scheduleGetGroupAction sqlcGroupKeyRun) in
          ret tt
      end
  | None =>
      let* _ :=
        wrap "could not start workflow run"
          (queueWorkflowRunJobs workflowRun) in
      ret tt
  end.

Definition handleWorkflowRunFinished (task : msgqueue.Message) : M unit :=
  let* payload :=
    wrap "could not decode job task payload"
      (lift (tasktypes.decodeWorkflowRunId (msgqueue.Payload task))) in
  let* metadata_TenantId :=
    wrap "could not decode job task metadata"
      (lift (tasktypes.decodeTenantId (msgqueue.Metadata task))) in
  (* get the workflow run in the database *)
  let* workflowRun :=
    wrap "could not get job run"
      (repo_GetWorkflowRunById metadata_TenantId
         (tasktypes.wrf_WorkflowRunId payload)) in
  (* if the workflow run has a concurrency group, then we need to
     queue any queued workflow runs *)
  match db.Concurrency (db.WorkflowVersion workflowRun) with
  | Some concurrency =>
      match db.LimitStrategy concurrency with
      | db.ConcurrencyLimitStrategyGroupRoundRobin =>
          let* _ :=
            wrap "could not queue workflow runs"
              (queueByGroupRoundRobin metadata_TenantId
                 (db.WorkflowVersion workflowRun)) in
          ret tt
      | _ => ret tt
      end
  | None => ret tt
  end.

(** *** controller.go *)

(** [time.Parse(time.RFC3339, value)] *)
Definition time_Parse (value : string) : M Time :=
  match time_ParseRFC3339 value with
  | Some t => ret t
  | None => throw (ErrNew ("cannot parse " +:+ value))
  end.

Definition handleGroupKeyRunStarted (task : msgqueue.Message) : M unit :=
  let* payload :=
    wrap "could not decode group key run started task payload"
      (lift (tasktypes.decodeStarted (msgqueue.Payload task))) in
  let* metadata_TenantId :=
    wrap "could not decode group key run started task metadata"
      (lift (tasktypes.decodeTenantId (msgqueue.Metadata task))) in
  (* update the get group key run in the database *)
  let* startedAt :=
    wrap "could not parse started at"
      (time_Parse (tasktypes.gs_StartedAt payload)) in
  let* _ :=
    repo_UpdateGetGroupKeyRun metadata_TenantId
      (tasktypes.gs_GetGroupKeyRunId payload)
      {| repository.RequeueAfter := None;
         repository.StartedAt := Some startedAt;
         repository.FinishedAt := None;
         repository.Status := Some db.StepRunStatusRunning;
         repository.Output := None;
         repository.Error := None;
         repository.CancelledAt := None;
         repository.CancelledReason := None |} in
  ret tt.

(** The first function handed to [errGroup.Go] in
    [handleGroupKeyRunFinished].  The flag of [Concurrency()] is
    dropped ([concurrency, _ := ...]) and the pointer is read at
    once. *)
Definition admission (tenantId groupKey : string)
    (groupKeyRun : dbsqlc.GetGroupKeyRunForEngineRow) : M unit :=
  let workflowVersionId := dbsqlc.WorkflowVersionId groupKeyRun in
  let* workflowVersion :=
    wrap "could not get workflow version"
      (repo_GetWorkflowVersionById tenantId workflowVersionId) in
  match db.Concurrency workflowVersion with
  | None => panic "invalid memory address or nil pointer dereference"
  | Some concurrency =>
      match db.LimitStrategy concurrency with
      | db.ConcurrencyLimitStrategyCancelInProgress =>
          queueByCancelInProgress tenantId groupKey workflowVersion
      | db.ConcurrencyLimitStrategyGroupRoundRobin =>
          queueByGroupRoundRobin tenantId workflowVersion
      | db.ConcurrencyLimitStrategyOther name =>
          throw (ErrNew ("unimplemented concurrency limit strategy: " +:+ name))
      end
  end.

(** The second one: cancel the timeout task. *)
Definition cancelTimeout
    (groupKeyRun : dbsqlc.GetGroupKeyRunForEngineRow) : M unit :=
  wrap "could not add cancel group key run timeout task to task queue"
    (mq_AddMessage
       (msgqueue.QueueTypeFromTickerID
          (dbsqlc.TickerId (dbsqlc.GetGroupKeyRun_ groupKeyRun)))
       (cancelGetGroupKeyRunTimeoutTask groupKeyRun)).

Definition handleGroupKeyRunFinished (task : msgqueue.Message) : M unit :=
  let* payload :=
    wrap "could not decode group key run finished task payload"
      (lift (tasktypes.decodeFinished (msgqueue.Payload task))) in
  let* metadata_TenantId :=
    wrap "could not decode group key run finished task metadata"
      (lift (tasktypes.decodeTenantId (msgqueue.Metadata task))) in
  (* update the group key run in the database *)
  let* finishedAt :=
    wrap "could not parse started at"
      (time_Parse (tasktypes.gf_FinishedAt payload)) in
  let* groupKeyRun :=
    wrap "could not update group key run"
      (repo_UpdateGetGroupKeyRun metadata_TenantId
         (tasktypes.gf_GetGroupKeyRunId payload)
         {| repository.RequeueAfter := None;
            repository.StartedAt := None;
            repository.FinishedAt := Some finishedAt;
            repository.Status := Some db.StepRunStatusSucceeded;
            repository.Output := Some (tasktypes.gf_GroupKey payload);
            repository.Error := None;
            repository.CancelledAt := None;
            repository.CancelledReason := None |}) in
  let errGroup : errgroup_Group := [] in
  let errGroup :=
    errgroup_Go errGroup
      (admission metadata_TenantId (tasktypes.gf_GroupKey payload) groupKeyRun) in
  let errGroup := errgroup_Go errGroup (cancelTimeout groupKeyRun) in
  errgroup_Wait errGroup.

Definition handleGroupKeyRunFailed (task : msgqueue.Message) : M unit :=
  let* payload :=
    wrap "could not decode group key run failed task payload"
      (lift (tasktypes.decodeFailed (msgqueue.Payload task))) in
  let* metadata_TenantId :=
    wrap "could not decode group key run failed task metadata"
      (lift (tasktypes.decodeTenantId (msgqueue.Metadata task))) in
  (* update the group key run in the database *)
  let* failedAt :=
    wrap "could not parse started at"
      (time_Parse (tasktypes.gx_FailedAt payload)) in
  let* groupKeyRun :=
    wrap "could not update get group key run"
      (repo_UpdateGetGroupKeyRun metadata_TenantId
         (tasktypes.gx_GetGroupKeyRunId payload)
         {| repository.RequeueAfter := None;
            repository.StartedAt := None;
            repository.FinishedAt := Some failedAt;
            repository.Status := Some db.StepRunStatusFailed;
            repository.Output := None;
            repository.Error := Some (tasktypes.gx_Error payload);
            repository.CancelledAt := None;
            repository.CancelledReason := None |}) in
  (* cancel the ticker for the group key run *)
  let* _ := cancelTimeout groupKeyRun in
  ret tt.

Definition handleTask (task : msgqueue.Message) : M unit :=
  let id := msgqueue.ID task in
  if String.eqb id "workflow-run-queued" then handleWorkflowRunQueued task
  else if String.eqb id "get-group-key-run-started" then
    handleGroupKeyRunStarted task
  else if String.eqb id "get-group-key-run-finished" then
    handleGroupKeyRunFinished task
  else if String.eqb id "get-group-key-run-failed" then
    handleGroupKeyRunFailed task
  else if String.eqb id "workflow-run-finished" then
    handleWorkflowRunFinished task
  else throw (ErrNew ("unknown task: " +:+ id)).

(** The function [Start] returns. *)
Definition cleanup : M unit :=
  let* _ := mark EvCancel in
  let* _ := wrap "could not cleanup queue" (onBus EvCleanupQueue CleanupQueue) in
  let* _ := mark EvWaitGroupWait in
  let* _ :=
    wrap "could not shutdown scheduler" (onCron EvSchedulerShutdown Shutdown) in
  ret tt.

(** [cancel(); return nil, err] *)
Definition cancelAndReturn {A} (e : error) : M A :=
  let* _ := mark EvCancel in
  throw e.

Definition newJob (every : Duration) (job : string) (msg : string) : M unit :=
  let* r := attempt (onCron (EvNewJob every job) (NewJob every job)) in
  match r with
  | inl _ => ret tt
  | inr e => cancelAndReturn (ErrWrap msg e)
  end.

Definition Start : M (M unit) :=
  let* _ :=
    newJob (time_Second * 5) "runGetGroupKeyRunRequeue"
      "could not schedule get group key run requeue" in
  let* _ :=
    newJob (time_Second * 5) "runGetGroupKeyRunReassign"
      "could not schedule get group key run reassign" in
  let* _ :=
    onCron EvSchedulerStart (fun c => (Ok tt, SchedulerStart c)) in
  let* r :=
    attempt (onBus (EvSubscribe msgqueue.WORKFLOW_PROCESSING_QUEUE)
               (Subscribe msgqueue.WORKFLOW_PROCESSING_QUEUE)) in
  match r with
  | inr e => cancelAndReturn e
  | inl _ => ret cleanup
  end.

End Controller.

(** ** The store of the specification *)

#[global] Instance StepRunStatus_eq_dec : EqDecision db.StepRunStatus.
Proof. solve_decision. Defined.

#[global] Instance WorkflowRunStatus_eq_dec : EqDecision db.WorkflowRunStatus.
Proof. solve_decision. Defined.

Module store.

(** Modelled from the spec: the repository implementation (package
    [repository/prisma]) is not among the sources of the package.  This is the
    store of sections 3 and 6.2, one operation per entry of 6.2. *)

Record Worker : Type := {
  w_ID : string;
  w_TenantId : string;
  w_DispatcherId : string;
  w_Active : bool;
  w_Actions : list string
}.

Record WorkflowRunRow : Type := {
  r_Run : db.WorkflowRunModel;
  r_TenantId : string;
  r_Status : db.WorkflowRunStatus;
  r_CreatedAt : Time;
  r_GroupKey : option string
}.

Record StepRunRow : Type := {
  s_Run : db.StepRunModel;
  s_TenantId : string;
  s_WorkflowRunId : string;
  s_Status : db.StepRunStatus
}.

(** A group-key run with the id of the action that computes the key. *)
Record GroupKeyRunRow : Type := {
  g_Row : dbsqlc.GetGroupKeyRunForEngineRow;
  g_ActionId : string
}.

Record State : Type := {
  now : Time;
  tenants : list db.TenantModel;
  versions : list (string * db.WorkflowVersionModel);
  runs : list WorkflowRunRow;
  stepRuns : list StepRunRow;
  gkrs : gmap string GroupKeyRunRow;
  workers : list Worker;
  tickers : list string
}.

Definition setGkrs (m : gmap string GroupKeyRunRow) (st : State) : State :=
  {| now := now st; tenants := tenants st; versions := versions st;
     runs := runs st; stepRuns := stepRuns st; gkrs := m;
     workers := workers st; tickers := tickers st |}.

Definition setRuns (l : list WorkflowRunRow) (st : State) : State :=
  {| now := now st; tenants := tenants st; versions := versions st;
     runs := l; stepRuns := stepRuns st; gkrs := gkrs st;
     workers := workers st; tickers := tickers st |}.

(** Everything the store holds besides the workflow runs. *)
Definition besidesRuns (st : State) : State := setRuns [] st.

Definition NotFound : error := ErrNew "NotFound".

(** Section 3: the terminal states of a group-key run. *)
Definition terminal (status : db.StepRunStatus) : bool :=
  match status with
  | db.StepRunStatusSucceeded
  | db.StepRunStatusFailed
  | db.StepRunStatusCancelled => true
  | _ => false
  end.

(** Section 9: a field of the patch is written when it is present. *)
Definition orElse {A} (new old : option A) : option A :=
  match new with
  | Some _ => new
  | None => old
  end.

Definition setFields (p : repository.UpdateGetGroupKeyRunOpts)
    (status : db.StepRunStatus) (g : dbsqlc.GetGroupKeyRun)
  : dbsqlc.GetGroupKeyRun :=
  {| dbsqlc.ID := dbsqlc.ID g;
     dbsqlc.TenantId := dbsqlc.TenantId g;
     dbsqlc.WorkerId := dbsqlc.WorkerId g;
     dbsqlc.TickerId := dbsqlc.TickerId g;
     dbsqlc.Status := status;
     dbsqlc.StartedAt := orElse (repository.StartedAt p) (dbsqlc.StartedAt g);
     dbsqlc.FinishedAt := orElse (repository.FinishedAt p) (dbsqlc.FinishedAt g);
     dbsqlc.Output := orElse (repository.Output p) (dbsqlc.Output g);
     dbsqlc.Error := orElse (repository.Error p) (dbsqlc.Error g);
     dbsqlc.RequeueAfter :=
       orElse (repository.RequeueAfter p) (dbsqlc.RequeueAfter g);
     dbsqlc.ScheduleTimeoutAt := dbsqlc.ScheduleTimeoutAt g;
     dbsqlc.CancelledAt :=
       orElse (repository.CancelledAt p) (dbsqlc.CancelledAt g);
     dbsqlc.CancelledReason :=
       orElse (repository.CancelledReason p) (dbsqlc.CancelledReason g) |}.

(** Modelled from the spec: what [Update(tenant, id, patch)] does to
    the row, the store's own code being absent.  Section 9: a field is
    written when the patch has it.  Section 5: the terminal-status
    update is a no-op if the run is already terminal.  Section 3,
    invariant 2: the status never leaves a terminal state. *)
Definition applyPatch (p : repository.UpdateGetGroupKeyRunOpts)
    (g : dbsqlc.GetGroupKeyRun) : dbsqlc.GetGroupKeyRun :=
  if terminal (dbsqlc.Status g) then
    match repository.Status p with
    | Some status =>
        if terminal status then g else setFields p (dbsqlc.Status g) g
    | None => setFields p (dbsqlc.Status g) g
    end
  else
    setFields p (default (dbsqlc.Status g) (repository.Status p)) g.

Definition withRun (f : dbsqlc.GetGroupKeyRun -> dbsqlc.GetGroupKeyRun)
    (row : GroupKeyRunRow) : GroupKeyRunRow :=
  {| g_Row :=
       {| dbsqlc.GetGroupKeyRun_ := f (dbsqlc.GetGroupKeyRun_ (g_Row row));
          dbsqlc.WorkflowRunId := dbsqlc.WorkflowRunId (g_Row row);
          dbsqlc.WorkflowVersionId := dbsqlc.WorkflowVersionId (g_Row row) |};
     g_ActionId := g_ActionId row |}.

Definition tenantOf (row : GroupKeyRunRow) : string :=
  dbsqlc.TenantId (dbsqlc.GetGroupKeyRun_ (g_Row row)).

Definition statusOf (row : GroupKeyRunRow) : db.StepRunStatus :=
  dbsqlc.Status (dbsqlc.GetGroupKeyRun_ (g_Row row)).

(** The row with this id, when it belongs to the tenant. *)
Definition findGkr (tenantId id : string) (st : State) : option GroupKeyRunRow :=
  match gkrs st !! id with
  | Some row => if String.eqb (tenantOf row) tenantId then Some row else None
  | None => None
  end.

Definition getGroupKeyRunForEngine (tenantId id : string) (st : State)
  : result dbsqlc.GetGroupKeyRunForEngineRow :=
  match findGkr tenantId id st with
  | Some row => Ok (g_Row row)
  | None => Err NotFound
  end.

(** Modelled from the spec: [Update(tenant, id, patch)] of section
    6.2, the store's own code being absent.  It fails with NotFound
    when the tenant has no such run, and otherwise patches the row and
    returns it. *)
Definition updateGetGroupKeyRun (tenantId id : string)
    (p : repository.UpdateGetGroupKeyRunOpts) (st : State)
  : result dbsqlc.GetGroupKeyRunForEngineRow * State :=
  match findGkr tenantId id st with
  | Some row =>
      let row' := withRun (applyPatch p) row in
      (Ok (g_Row row'), setGkrs (<[id := row']> (gkrs st)) st)
  | None => (Err NotFound, st)
  end.

(** Section 4.2, step 2: an active worker of the tenant whose
    capability set contains the group-key action. *)
Definition qualifies (tenantId actionId : string) (w : Worker) : bool :=
  String.eqb (w_TenantId w) tenantId
  && w_Active w
  && existsb (String.eqb actionId) (w_Actions w).

Definition assignWorker (w : Worker) (g : dbsqlc.GetGroupKeyRun)
  : dbsqlc.GetGroupKeyRun :=
  {| dbsqlc.ID := dbsqlc.ID g;
     dbsqlc.TenantId := dbsqlc.TenantId g;
     dbsqlc.WorkerId := Some (w_ID w);
     dbsqlc.TickerId := dbsqlc.TickerId g;
     dbsqlc.Status :=
       if terminal (dbsqlc.Status g) then dbsqlc.Status g
       else db.StepRunStatusAssigned;
     dbsqlc.StartedAt := dbsqlc.StartedAt g;
     dbsqlc.FinishedAt := dbsqlc.FinishedAt g;
     dbsqlc.Output := dbsqlc.Output g;
     dbsqlc.Error := dbsqlc.Error g;
     dbsqlc.RequeueAfter := dbsqlc.RequeueAfter g;
     dbsqlc.ScheduleTimeoutAt := dbsqlc.ScheduleTimeoutAt g;
     dbsqlc.CancelledAt := dbsqlc.CancelledAt g;
     dbsqlc.CancelledReason := dbsqlc.CancelledReason g |}.

Definition assignGetGroupKeyRunToWorker (tenantId id : string) (st : State)
  : result (string * string) * State :=
  match findGkr tenantId id st with
  | Some row =>
      match List.find (qualifies tenantId (g_ActionId row)) (workers st) with
      | Some w =>
          (Ok (w_ID w, w_DispatcherId w),
           setGkrs (<[id := withRun (assignWorker w) row]> (gkrs st)) st)
      | None => (Err ErrNoWorkerAvailable, st)
      end
  | None => (Err NotFound, st)
  end.

Definition assignTicker (tickerId : string) (g : dbsqlc.GetGroupKeyRun)
  : dbsqlc.GetGroupKeyRun :=
  {| dbsqlc.ID := dbsqlc.ID g;
     dbsqlc.TenantId := dbsqlc.TenantId g;
     dbsqlc.WorkerId := dbsqlc.WorkerId g;
     dbsqlc.TickerId := tickerId;
     dbsqlc.Status := dbsqlc.Status g;
     dbsqlc.StartedAt := dbsqlc.StartedAt g;
     dbsqlc.FinishedAt := dbsqlc.FinishedAt g;
     dbsqlc.Output := dbsqlc.Output g;
     dbsqlc.Error := dbsqlc.Error g;
     dbsqlc.RequeueAfter := dbsqlc.RequeueAfter g;
     dbsqlc.ScheduleTimeoutAt := dbsqlc.ScheduleTimeoutAt g;
     dbsqlc.CancelledAt := dbsqlc.CancelledAt g;
     dbsqlc.CancelledReason := dbsqlc.CancelledReason g |}.

Definition assignGetGroupKeyRunToTicker (tenantId id : string) (st : State)
  : result string * State :=
  match findGkr tenantId id st with
  | Some row =>
      match tickers st with
      | tickerId :: _ =>
          (Ok tickerId,
           setGkrs (<[id := withRun (assignTicker tickerId) row]> (gkrs st)) st)
      | [] => (Err (ErrNew "Transient"), st)
      end
  | None => (Err NotFound, st)
  end.

(** Ordering: insertion sort on an integer key, smallest first; rows
    with equal keys keep their order. *)
Fixpoint insertBy {A} (key : A -> Z) (x : A) (l : list A) : list A :=
  match l with
  | [] => [x]
  | y :: l' => if key x <=? key y then x :: l else y :: insertBy key x l'
  end.

Definition sortBy {A} (key : A -> Z) (l : list A) : list A :=
  foldr (insertBy key) [] l.

Definition wanted {A} `{EqDecision A} (filter : option A) (x : A) : bool :=
  match filter with
  | None => true
  | Some y => bool_decide (y = x)
  end.

Definition versionOf (r : WorkflowRunRow) : string :=
  db.wv_ID (db.WorkflowVersion (r_Run r)).

Definition toRow (r : WorkflowRunRow) : dbsqlc.WorkflowRun :=
  {| dbsqlc.wr_ID := db.wr_ID (r_Run r);
     dbsqlc.wr_CreatedAt := r_CreatedAt r |}.

Definition getWorkflowRunById (tenantId id : string) (st : State)
  : result db.WorkflowRunModel :=
  match List.find (fun r => String.eqb (r_TenantId r) tenantId
                            && String.eqb (db.wr_ID (r_Run r)) id) (runs st) with
  | Some r => Ok (r_Run r)
  | None => Err NotFound
  end.

(** [List(tenant, {workflow_version_id, group_key, status, order, limit})] *)
Definition listWorkflowRuns (tenantId : string)
    (opts : repository.ListWorkflowRunsOpts) (st : State)
  : result (list dbsqlc.WorkflowRun) :=
  let selected :=
    List.filter (fun r =>
      String.eqb (r_TenantId r) tenantId
      && wanted (repository.lw_WorkflowVersionId opts) (versionOf r)
      && match repository.lw_GroupKey opts with
         | None => true
         | Some k => bool_decide (r_GroupKey r = Some k)
         end
      && wanted (repository.lw_Status opts) (r_Status r)) (runs st) in
  let ordered :=
    match repository.lw_OrderBy opts with
    | Some _ =>
        let ascending := sortBy r_CreatedAt selected in
        if bool_decide (repository.lw_OrderDirection opts = Some "DESC")
        then rev ascending else ascending
    | None => selected
    end in
  let limited :=
    match repository.lw_Limit opts with
    | Some n => firstn (Z.to_nat n) ordered
    | None => ordered
    end in
  Ok (map toRow limited).

(** Modelled from the spec: [PopWorkflowRunsRoundRobin], the store's
    own code being absent.  Round robin over group keys (section 4.3):
    every queued run gets its rank among the queued runs of its own
    key, oldest first; the batch is made of the [max_runs] runs of
    lowest rank.  The operation is a pop: it atomically selects the
    next batch of QUEUED runs, so the runs of the batch leave the queue;
    they are RUNNING afterwards ("the next batch may now run"), and the
    next pop selects the runs that follow them. *)
Fixpoint ranked (l : list WorkflowRunRow) (seen : list (option string))
  : list (Z * WorkflowRunRow) :=
  match l with
  | [] => []
  | r :: l' =>
      (Z.of_nat (length (List.filter
                   (fun k => bool_decide (k = r_GroupKey r)) seen)), r)
      :: ranked l' (r_GroupKey r :: seen)
  end.

Definition idOf (r : WorkflowRunRow) : string := db.wr_ID (r_Run r).

(** The run leaves the queue when it is one of the batch. *)
Definition start (batch : list string) (r : WorkflowRunRow) : WorkflowRunRow :=
  if existsb (String.eqb (idOf r)) batch then
    {| r_Run := r_Run r; r_TenantId := r_TenantId r;
       r_Status := db.WorkflowRunStatusRunning;
       r_CreatedAt := r_CreatedAt r; r_GroupKey := r_GroupKey r |}
  else r.

Definition popWorkflowRunsRoundRobin (tenantId workflowVersionId : string)
    (maxRuns : Z) (st : State) : result (list dbsqlc.WorkflowRun) * State :=
  let queued :=
    sortBy r_CreatedAt
      (List.filter (fun r =>
         String.eqb (r_TenantId r) tenantId
         && String.eqb (versionOf r) workflowVersionId
         && bool_decide (r_Status r = db.WorkflowRunStatusQueued)) (runs st)) in
  let batch :=
    map snd (firstn (Z.to_nat maxRuns) (sortBy fst (ranked queued []))) in
  (Ok (map toRow batch), setRuns (map (start (map idOf batch)) (runs st)) st).

(** The status of the workflow run with this id. *)
Definition runStatus (id : string) (st : State) : option db.WorkflowRunStatus :=
  r_Status <$> List.find (fun r => String.eqb (idOf r) id) (runs st).

Definition ofTenant (tenantId : string) (st : State) : list GroupKeyRunRow :=
  List.filter (fun row => String.eqb (tenantOf row) tenantId)
    (map snd (map_to_list (gkrs st))).

(** Section 4.4: status PENDING or PENDING_ASSIGNMENT with
    [requeue_after <= now].  (The runs "without a worker assignment
    after N seconds" are left out: the spec does not give N.) *)
Definition listGetGroupKeyRunsToRequeue (tenantId : string) (st : State)
  : result (list dbsqlc.GetGroupKeyRun) :=
  Ok (map (fun row => dbsqlc.GetGroupKeyRun_ (g_Row row))
       (List.filter (fun row =>
          (bool_decide (statusOf row = db.StepRunStatusPending)
           || bool_decide (statusOf row = db.StepRunStatusPendingAssignment))
          && match dbsqlc.RequeueAfter (dbsqlc.GetGroupKeyRun_ (g_Row row)) with
             | Some t => t <=? now st
             | None => true
             end) (ofTenant tenantId st))).

Definition inactive (st : State) (workerId : option string) : bool :=
  match workerId with
  | Some id =>
      match List.find (fun w => String.eqb (w_ID w) id) (workers st) with
      | Some w => negb (w_Active w)
      | None => true
      end
  | None => false
  end.

(** Section 4.4: status ASSIGNED or RUNNING with the assigned worker
    currently inactive. *)
Definition listGetGroupKeyRunsToReassign (tenantId : string) (st : State)
  : result (list dbsqlc.GetGroupKeyRun) :=
  Ok (map (fun row => dbsqlc.GetGroupKeyRun_ (g_Row row))
       (List.filter (fun row =>
          (bool_decide (statusOf row = db.StepRunStatusAssigned)
           || bool_decide (statusOf row = db.StepRunStatusRunning))
          && inactive st (dbsqlc.WorkerId (dbsqlc.GetGroupKeyRun_ (g_Row row))))
          (ofTenant tenantId st))).

Definition listStepRuns (tenantId : string)
    (opts : repository.ListStepRunsOpts) (st : State)
  : result (list db.StepRunModel) :=
  Ok (map s_Run
       (List.filter (fun r =>
          String.eqb (s_TenantId r) tenantId
          && wanted (repository.ls_WorkflowRunId opts) (s_WorkflowRunId r)
          && wanted (repository.ls_Status opts) (s_Status r)) (stepRuns st))).

Definition listTenants (st : State) : result (list db.TenantModel) :=
  Ok (tenants st).

Definition getWorkflowVersionById (tenantId id : string) (st : State)
  : result db.WorkflowVersionModel :=
  match List.find (fun v => String.eqb (fst v) tenantId
                            && String.eqb (db.wv_ID (snd v)) id) (versions st) with
  | Some v => Ok (snd v)
  | None => Err NotFound
  end.

End store.

Definition specRepository : Repository := {|
  Store := store.State;
  GetWorkflowRunById := store.getWorkflowRunById;
  ListWorkflowRuns := store.listWorkflowRuns;
  PopWorkflowRunsRoundRobin := store.popWorkflowRunsRoundRobin;
  GetGroupKeyRunForEngine := store.getGroupKeyRunForEngine;
  UpdateGetGroupKeyRun := store.updateGetGroupKeyRun;
  AssignGetGroupKeyRunToWorker := store.assignGetGroupKeyRunToWorker;
  AssignGetGroupKeyRunToTicker := store.assignGetGroupKeyRunToTicker;
  ListGetGroupKeyRunsToRequeue := store.listGetGroupKeyRunsToRequeue;
  ListGetGroupKeyRunsToReassign := store.listGetGroupKeyRunsToReassign;
  ListStepRuns := store.listStepRuns;
  ListTenants := store.listTenants;
  GetWorkflowVersionById := store.getWorkflowVersionById
|}.

(** ** Collaborators to run the controller against *)

Module bus.

(** A bus that keeps what it accepted.  [script] gives the outcome
    of the next calls of [AddMessage], in order; when it is used up
    every send succeeds.  [unsubscribe] is what the function returned
    by [Subscribe] answers. *)
Record State : Type := {
  delivered : list (msgqueue.Queue * msgqueue.Message);
  script : list (result unit);
  unsubscribe : result unit
}.

Definition addMessage (q : msgqueue.Queue) (m : msgqueue.Message) (b : State)
  : result unit * State :=
  match script b with
  | Err e :: rest =>
      (Err e, {| delivered := delivered b; script := rest;
                 unsubscribe := unsubscribe b |})
  | Ok _ :: rest =>
      (Ok tt, {| delivered := delivered b ++ [(q, m)]; script := rest;
                 unsubscribe := unsubscribe b |})
  | [] =>
      (Ok tt, {| delivered := delivered b ++ [(q, m)]; script := [];
                 unsubscribe := unsubscribe b |})
  end.

Definition subscribe (q : msgqueue.Queue) (b : State) : result unit * State :=
  (Ok tt, b).

Definition cleanupQueue (b : State) : result unit * State :=
  (unsubscribe b, b).

Definition quiet : State :=
  {| delivered := []; script := []; unsubscribe := Ok tt |}.

End bus.

Definition scriptedBus : MessageQueue := {|
  Bus := bus.State;
  AddMessage := bus.addMessage;
  Subscribe := bus.subscribe;
  CleanupQueue := bus.cleanupQueue
|}.

Module cron.

Record State : Type := {
  jobs : list string;
  running : bool;
  onShutdown : result unit
}.

Definition newJob (every : Duration) (job : string) (c : State)
  : result unit * State :=
  (Ok tt, {| jobs := jobs c ++ [job]; running := running c;
             onShutdown := onShutdown c |}).

Definition start (c : State) : State :=
  {| jobs := jobs c; running := true; onShutdown := onShutdown c |}.

Definition shutdown (c : State) : result unit * State :=
  (onShutdown c,
   {| jobs := jobs c; running := false; onShutdown := onShutdown c |}).

Definition idle : State :=
  {| jobs := []; running := false; onShutdown := Ok tt |}.

End cron.

Definition scriptedCron : Scheduler := {|
  Cron := cron.State;
  NewJob := cron.newJob;
  SchedulerStart := cron.start;
  Shutdown := cron.shutdown
|}.

Module gotime.

(** A stand-in for package [time]: a time is written as its number
    of nanoseconds in decimal, a duration as a number of seconds
    followed by the letter s. *)
Fixpoint digits (str : string) (acc : Z) : option Z :=
  match str with
  | EmptyString => Some acc
  | String c rest =>
      let d := Z.of_nat (Ascii.nat_of_ascii c) - 48 in
      if (0 <=? d) && (d <=? 9) then digits rest (10 * acc + d) else None
  end.

Definition number (str : string) : option Z :=
  match str with
  | EmptyString => None
  | _ => digits str 0
  end.

Definition digit (d : Z) : string :=
  String (Ascii.ascii_of_nat (Z.to_nat (48 + d))) EmptyString.

Fixpoint decimal (fuel : nat) (n : Z) (acc : string) : string :=
  match fuel with
  | O => acc
  | S fuel' =>
      let acc' := digit (n mod 10) +:+ acc in
      if n <? 10 then acc' else decimal fuel' (n / 10) acc'
  end.

Definition format (t : Time) : string := decimal 40 t "".

Definition parseDuration (str : string) : option Duration :=
  let n := String.length str in
  if String.eqb (substring (Nat.pred n) 1 str) "s" then
    match number (substring 0 (Nat.pred n) str) with
    | Some secs => Some (secs * time_Second)
    | None => None
    end
  else None.

End gotime.

Definition decimalTime : GoTime := {|
  time_ParseRFC3339 := gotime.number;
  time_FormatRFC3339 := gotime.format;
  time_ParseDuration := gotime.parseDuration
|}.

Definition sixtySeconds : Defaults := {|
  DefaultStepRunTimeout := "60s"
|}.

(** Modelled from the spec: section 6.1, the message on
    [JOB_PROCESSING_QUEUE] carries the JobRun's id; the tenant is that
    of its Job. *)
Definition jobRunQueuedToTask (job : db.JobModel) (jobRun : db.JobRunModel)
  : msgqueue.Message :=
  {| msgqueue.ID := "job-run-queued";
     msgqueue.Payload := tasktypes.ToJSONMap [("job_run_id", db.jr_ID jobRun)];
     msgqueue.Metadata := tasktypes.ToJSONMap [("tenant_id", db.job_TenantID job)];
     msgqueue.Retries := 3 |}.

Definition specTaskTypes : TaskTypes := {|
  JobRunQueuedToTask := jobRunQueuedToTask
|}.

(** ** A small deployment *)

Module demo.

(** One tenant with three workflow versions: [wv-cip] limits to one
    run per key and cancels in progress, [wv-rr] limits to two and
    goes round robin, [wv-plain] has no policy.  Group G of [wv-cip]
    has two running runs and one queued (scenario S3); keys A and B
    of [wv-rr] have three queued runs each (scenario S2). *)

Definition tenant : string := "tenant-1".
Definition action : string := "concurrency:key".

Definition cip : db.WorkflowConcurrencyModel :=
  {| db.WorkflowVersionID := "wv-cip"; db.MaxRuns := 1;
     db.LimitStrategy := db.ConcurrencyLimitStrategyCancelInProgress |}.

Definition rr : db.WorkflowConcurrencyModel :=
  {| db.WorkflowVersionID := "wv-rr"; db.MaxRuns := 2;
     db.LimitStrategy := db.ConcurrencyLimitStrategyGroupRoundRobin |}.

Definition versionCip : db.WorkflowVersionModel :=
  {| db.wv_ID := "wv-cip"; db.Concurrency := Some cip |}.

Definition versionRr : db.WorkflowVersionModel :=
  {| db.wv_ID := "wv-rr"; db.Concurrency := Some rr |}.

Definition versionPlain : db.WorkflowVersionModel :=
  {| db.wv_ID := "wv-plain"; db.Concurrency := None |}.

Definition jobRun (id : string) : db.JobRunModel :=
  {| db.jr_ID := id;
     db.Job := {| db.job_ID := "job"; db.job_TenantID := tenant |} |}.

Definition run (id : string) (version : db.WorkflowVersionModel)
    (jobRuns : list string) (status : db.WorkflowRunStatus)
    (createdAt : Time) (groupKey : option string) : store.WorkflowRunRow :=
  {| store.r_Run :=
       {| db.wr_ID := id; db.WorkflowVersion := version;
          db.JobRuns := map jobRun jobRuns;
          db.GetGroupKeyRun :=
            match db.Concurrency version with
            | Some _ => Some {| db.ggkr_ID := "gk-" +:+ id |}
            | None => None
            end |};
     store.r_TenantId := tenant;
     store.r_Status := status;
     store.r_CreatedAt := createdAt;
     store.r_GroupKey := groupKey |}.

Definition stepRun (id workflowRunId : string) (status : db.StepRunStatus)
  : store.StepRunRow :=
  {| store.s_Run := {| db.sr_ID := id |};
     store.s_TenantId := tenant;
     store.s_WorkflowRunId := workflowRunId;
     store.s_Status := status |}.

Definition groupKeyRun (id workflowRunId versionId : string)
    (status : db.StepRunStatus) (scheduleTimeoutAt : Time)
  : store.GroupKeyRunRow :=
  {| store.g_Row :=
       {| dbsqlc.GetGroupKeyRun_ :=
            {| dbsqlc.ID := id;
               dbsqlc.TenantId := tenant;
               dbsqlc.WorkerId := None;
               dbsqlc.TickerId := "ticker-1";
               dbsqlc.Status := status;
               dbsqlc.StartedAt := None;
               dbsqlc.FinishedAt := None;
               dbsqlc.Output := None;
               dbsqlc.Error := None;
               dbsqlc.RequeueAfter := None;
               dbsqlc.ScheduleTimeoutAt := scheduleTimeoutAt;
               dbsqlc.CancelledAt := None;
               dbsqlc.CancelledReason := None |};
          dbsqlc.WorkflowRunId := workflowRunId;
          dbsqlc.WorkflowVersionId := versionId |};
     store.g_ActionId := action |}.

Definition gkQ1 := groupKeyRun "gk-q1" "q1" "wv-cip" db.StepRunStatusRunning 0.
Definition gkLate :=
  groupKeyRun "gk-late" "a2" "wv-rr" db.StepRunStatusPendingAssignment 500.
Definition gkNew := groupKeyRun "gk-new" "a3" "wv-rr" db.StepRunStatusPending 0.
Definition gkPlain :=
  groupKeyRun "gk-plain" "p" "wv-plain" db.StepRunStatusRunning 0.
Definition gkDone :=
  groupKeyRun "gk-done" "r1" "wv-cip" db.StepRunStatusCancelled 0.

Definition worker (active : bool) : store.Worker :=
  {| store.w_ID := "worker-1"; store.w_TenantId := tenant;
     store.w_DispatcherId := "dispatcher-1"; store.w_Active := active;
     store.w_Actions := [action] |}.

Definition state (workers : list store.Worker) : store.State :=
  {| store.now := 1000;
     store.tenants := [{| db.tenant_ID := tenant |}];
     store.versions :=
       [(tenant, versionCip); (tenant, versionRr); (tenant, versionPlain)];
     store.runs :=
       [run "r2" versionCip ["r2-j1"] db.WorkflowRunStatusRunning 20 (Some "G");
        run "r1" versionCip ["r1-j1"] db.WorkflowRunStatusRunning 10 (Some "G");
        run "q1" versionCip ["q1-j1"; "q1-j2"]
          db.WorkflowRunStatusQueued 30 (Some "G");
        run "a1" versionRr ["a1-j1"] db.WorkflowRunStatusQueued 1 (Some "A");
        run "a2" versionRr ["a2-j1"] db.WorkflowRunStatusQueued 3 (Some "A");
        run "a3" versionRr ["a3-j1"] db.WorkflowRunStatusQueued 5 (Some "A");
        run "b1" versionRr ["b1-j1"] db.WorkflowRunStatusQueued 2 (Some "B");
        run "b2" versionRr ["b2-j1"] db.WorkflowRunStatusQueued 4 (Some "B");
        run "b3" versionRr ["b3-j1"] db.WorkflowRunStatusQueued 6 (Some "B");
        run "x" versionRr ["x-j1"] db.WorkflowRunStatusSucceeded 0 (Some "C");
        run "p" versionPlain ["p-j1"] db.WorkflowRunStatusSucceeded 0 None];
     store.stepRuns :=
       [stepRun "s1" "r1" db.StepRunStatusRunning;
        stepRun "s2" "r1" db.StepRunStatusRunning;
        stepRun "s3" "r1" db.StepRunStatusSucceeded;
        stepRun "s4" "r2" db.StepRunStatusRunning];
     store.gkrs :=
       list_to_map
         [("gk-q1", gkQ1); ("gk-late", gkLate); ("gk-new", gkNew);
          ("gk-plain", gkPlain); ("gk-done", gkDone)];
     store.workers := workers;
     store.tickers := ["ticker-1"] |}.

Definition world (st : store.State) (b : bus.State)
  : @World specRepository scriptedBus scriptedCron :=
  @Build_World specRepository scriptedBus scriptedCron
    st b cron.idle (fun n => 1000 + Z.of_nat n) O [].

(** Everything up: one active worker, a bus that accepts. *)
Definition healthy := world (state [worker true]) bus.quiet.

(** The only worker is inactive. *)
Definition noWorker := world (state [worker false]) bus.quiet.

(** The bus refuses the first send and the unsubscription. *)
Definition badBus : bus.State :=
  {| bus.delivered := [];
     bus.script := [Err (ErrNew "Transient")];
     bus.unsubscribe := Err (ErrNew "Transient") |}.

Definition flaky := world (state [worker true]) badBus.

(** The same deployment with more runs around group G of [wv-cip]:
    a second queued run in G, a running and a queued run in group H of
    the same version, both older than those of G, and a running run of
    [wv-rr] whose key is G too. *)
Definition crowded : store.State :=
  store.setRuns
    ([run "q2" versionCip ["q2-j1"] db.WorkflowRunStatusQueued 40 (Some "G");
      run "h1" versionCip ["h1-j1"] db.WorkflowRunStatusRunning 5 (Some "H");
      run "h2" versionCip ["h2-j1"] db.WorkflowRunStatusQueued 6 (Some "H");
      run "g9" versionRr ["g9-j1"] db.WorkflowRunStatusRunning 1 (Some "G")]
     ++ store.runs (state [worker true]))
    (state [worker true]).

Definition busy := world crowded bus.quiet.

Definition busyFlaky := world crowded badBus.

Definition message (id : string) (payload : list (string * string))
  : msgqueue.Message :=
  {| msgqueue.ID := id;
     msgqueue.Payload := tasktypes.ToJSONMap payload;
     msgqueue.Metadata := tasktypes.ToJSONMap [("tenant_id", tenant)];
     msgqueue.Retries := 3 |}.

Definition finished (getGroupKeyRunId : string) : msgqueue.Message :=
  message "get-group-key-run-finished"
    [("get_group_key_run_id", getGroupKeyRunId);
     ("finished_at", "1200"); ("group_key", "G")].


End demo.

(** ** The calls a run of the controller is expected to make *)

Section Expected.

Context {R : Repository} {Q : MessageQueue} {G : Scheduler}.
Context {T : GoTime} {D : Defaults} {TT : TaskTypes}.

(** The events a computation has added to the trace. *)
Definition newEvents (w w' : World) : list Event :=
  drop (length (trace w)) (trace w').

Definition runningStepRuns (workflowRunId : string) : repository.ListStepRunsOpts :=
  {| repository.ls_WorkflowRunId := Some workflowRunId;
     repository.ls_Status := Some db.StepRunStatusRunning |}.

Definition cancelSend (tenantId : string) (stepRun : db.StepRunModel) : Event :=
  EvAddMessage msgqueue.JOB_PROCESSING_QUEUE
    (getStepRunNotifyCancelTask tenantId (db.sr_ID stepRun)
       "CANCELLED_BY_CONCURRENCY_LIMIT").

Definition jobSend (jobRun : db.JobRunModel) : Event :=
  EvAddMessage msgqueue.JOB_PROCESSING_QUEUE
    (JobRunQueuedToTask (db.Job jobRun) jobRun).

(** cancel-run on the run with this id, in store [st]: fetch the run,
    list its RUNNING step runs, one message per step run listed. *)
Definition cancelCalls (tenantId : string) (st : Store) (id : string)
  : list Event :=
  EvGetWorkflowRunById tenantId id ::
  match GetWorkflowRunById tenantId id st with
  | Err _ => []
  | Ok workflowRun =>
      EvListStepRuns tenantId (runningStepRuns (db.wr_ID workflowRun)) ::
      match ListStepRuns tenantId
              (runningStepRuns (db.wr_ID workflowRun)) st with
      | Err _ => []
      | Ok stepRuns => map (cancelSend tenantId) stepRuns
      end
  end.

(** Releasing the run with this id: fetch it, one message per JobRun. *)
Definition releaseCalls (tenantId : string) (st : Store) (id : string)
  : list Event :=
  EvGetWorkflowRunById tenantId id ::
  match GetWorkflowRunById tenantId id st with
  | Err _ => []
  | Ok workflowRun => map jobSend (db.JobRuns workflowRun)
  end.

Definition pendingAssignment : repository.UpdateGetGroupKeyRunOpts :=
  {| repository.RequeueAfter := None;
     repository.StartedAt := None;
     repository.FinishedAt := None;
     repository.Status := Some db.StepRunStatusPendingAssignment;
     repository.Output := None;
     repository.Error := None;
     repository.CancelledAt := None;
     repository.CancelledReason := None |}.




Definition isAddMessage (ev : Event) : bool :=
  match ev with EvAddMessage _ _ => true | _ => false end.

Definition isPop (ev : Event) : bool :=
  match ev with EvPopWorkflowRunsRoundRobin _ _ _ => true | _ => false end.

(** The timeout task sent on the ticker's queue. *)
Definition timeoutTask (tenantId workflowRunId getGroupKeyRunId : string)
    (timeoutAt : Time) : msgqueue.Message :=
  {| msgqueue.ID := "schedule-get-group-key-run-timeout";
     msgqueue.Payload := tasktypes.ToJSONMap
       [("get_group_key_run_id", getGroupKeyRunId);
        ("workflow_run_id", workflowRunId);
        ("timeout_at", time_FormatRFC3339 timeoutAt)];
     msgqueue.Metadata := tasktypes.ToJSONMap [("tenant_id", tenantId)];
     msgqueue.Retries := 3 |}.

Definition isTimeoutSend (ev : Event) : bool :=
  match ev with
  | EvAddMessage (msgqueue.QueueTypeFromTickerID _) m =>
      String.eqb (msgqueue.ID m) "schedule-get-group-key-run-timeout"
  | _ => false
  end.

Definition isDispatchSend (ev : Event) : bool :=
  match ev with
  | EvAddMessage (msgqueue.QueueTypeFromDispatcherID _) m =>
      String.eqb (msgqueue.ID m) "group-key-action-assigned"
  | _ => false
  end.

(** The index of the first event that satisfies [p]. *)
Fixpoint position (p : Event -> bool) (evs : list Event) : option nat :=
  match evs with
  | [] => None
  | ev :: rest =>
      if p ev then Some O
      else match position p rest with
           | Some i => Some (S i)
           | None => None
           end
  end.

(** Both kinds of event occur, and the first [p] comes before the
    first [q]. *)
Definition sentBefore (p q : Event -> bool) (evs : list Event) : bool :=
  match position p evs, position q evs with
  | Some i, Some j => Nat.ltb i j
  | _, _ => false
  end.

(** The functions of a group, run one after the other from [w]. *)
Inductive ranEach {A} (f : A -> M unit) : list A -> World -> World -> Prop :=
  | ranEach_nil w : ranEach f [] w w
  | ranEach_cons x l w w' :
      ranEach f l (snd (f x w)) w' -> ranEach f (x :: l) w w'.


(** The four steps of shutdown, in order (section 4.5). *)
Definition shutdownSteps : list Event :=
  [EvCancel; EvCleanupQueue; EvWaitGroupWait; EvSchedulerShutdown].

(** The patch [handleGroupKeyRunFinished] writes. *)
Definition succeeded (finishedAt : Time) (groupKey : string)
  : repository.UpdateGetGroupKeyRunOpts :=
  {| repository.RequeueAfter := None;
     repository.StartedAt := None;
     repository.FinishedAt := Some finishedAt;
     repository.Status := Some db.StepRunStatusSucceeded;
     repository.Output := Some groupKey;
     repository.Error := None;
     repository.CancelledAt := None;
     repository.CancelledReason := None |}.

(** The patch [handleGroupKeyRunFailed] writes. *)
Definition failed (failedAt : Time) (err : string)
  : repository.UpdateGetGroupKeyRunOpts :=
  {| repository.RequeueAfter := None;
     repository.StartedAt := None;
     repository.FinishedAt := Some failedAt;
     repository.Status := Some db.StepRunStatusFailed;
     repository.Output := None;
     repository.Error := Some err;
     repository.CancelledAt := None;
     repository.CancelledReason := None |}.

(** The write a get-group-key-run-finished message asks for: tenant,
    id of the group-key run and patch; none when the message does not
    decode. *)
Definition finishedWrite (task : msgqueue.Message)
  : option (string * string * repository.UpdateGetGroupKeyRunOpts) :=
  match tasktypes.decodeFinished (msgqueue.Payload task),
        tasktypes.decodeTenantId (msgqueue.Metadata task) with
  | Ok payload, Ok tenantId =>
      match time_ParseRFC3339 (tasktypes.gf_FinishedAt payload) with
      | Some finishedAt =>
          Some (tenantId, tasktypes.gf_GetGroupKeyRunId payload,
                succeeded finishedAt (tasktypes.gf_GroupKey payload))
      | None => None
      end
  | _, _ => None
  end.

(** The same for get-group-key-run-failed. *)
Definition failedWrite (task : msgqueue.Message)
  : option (string * string * repository.UpdateGetGroupKeyRunOpts) :=
  match tasktypes.decodeFailed (msgqueue.Payload task),
        tasktypes.decodeTenantId (msgqueue.Metadata task) with
  | Ok payload, Ok tenantId =>
      match time_ParseRFC3339 (tasktypes.gx_FailedAt payload) with
      | Some failedAt =>
          Some (tenantId, tasktypes.gx_GetGroupKeyRunId payload,
                failed failedAt (tasktypes.gx_Error payload))
      | None => None
      end
  | _, _ => None
  end.

Definition written
    (write : option (string * string * repository.UpdateGetGroupKeyRunOpts))
    (st : Store) : Store :=
  match write with
  | Some (tenantId, id, patch) =>
      snd (UpdateGetGroupKeyRun tenantId id patch st)
  | None => st
  end.

(** [c], started in [w], returns (it does not panic), leaves the
    store as it was and makes exactly the calls [evs]. *)
Definition reads {A} (c : M A) (w : World) (evs : list Event) : Prop :=
  (exists r, fst (c w) = Return r)
  /\ repo (snd (c w)) = repo w
  /\ trace (snd (c w)) = trace w ++ evs.

End Expected.

(** ** The rest of the controller: what its runs are expected to do *)

Section Reach.

Context {R : Repository} {Q : MessageQueue} {G : Scheduler}.
Context {T : GoTime} {D : Defaults} {TT : TaskTypes}.

(** A send on [JOB_PROCESSING_QUEUE]. *)
Definition isJobSend (ev : Event) : bool :=
  match ev with
  | EvAddMessage msgqueue.JOB_PROCESSING_QUEUE _ => true
  | _ => false
  end.

(** A write to the store. *)
Definition isWrite (ev : Event) : bool :=
  match ev with
  | EvPopWorkflowRunsRoundRobin _ _ _
  | EvUpdateGetGroupKeyRun _ _ _
  | EvAssignGetGroupKeyRunToWorker _ _
  | EvAssignGetGroupKeyRunToTicker _ _ => true
  | _ => false
  end.

(** The patch [handleGroupKeyRunStarted] writes. *)
Definition started (startedAt : Time) : repository.UpdateGetGroupKeyRunOpts :=
  {| repository.RequeueAfter := None;
     repository.StartedAt := Some startedAt;
     repository.FinishedAt := None;
     repository.Status := Some db.StepRunStatusRunning;
     repository.Output := None;
     repository.Error := None;
     repository.CancelledAt := None;
     repository.CancelledReason := None |}.


(** [c] always returns (it never panics) and only adds to the trace. *)
Definition appends {A} (c : M A) : Prop :=
  forall w, exists r evs,
    fst (c w) = Return r /\ trace (snd (c w)) = trace w ++ evs.


(** The calls of [Start] up to the subscription. *)
Definition startCalls : list Event :=
  [EvNewJob (time_Second * 5) "runGetGroupKeyRunRequeue";
   EvNewJob (time_Second * 5) "runGetGroupKeyRunReassign";
   EvSchedulerStart;
   EvSubscribe msgqueue.WORKFLOW_PROCESSING_QUEUE].

(** The workflow runs of a (workflow version, group key) that have
    this status, oldest first, at most [limit] of them when a limit is
    given: the query of section 4.3, written out. *)
Definition oldestFirst (workflowVersionId groupKey : string)
    (status : db.WorkflowRunStatus) (limit : option Z)
  : repository.ListWorkflowRunsOpts :=
  {| repository.lw_WorkflowVersionId := Some workflowVersionId;
     repository.lw_GroupKey := Some groupKey;
     repository.lw_Status := Some status;
     repository.lw_OrderBy := Some "createdAt";
     repository.lw_OrderDirection := Some "ASC";
     repository.lw_Limit := limit |}.

(** [c], started in [w], returns (it does not panic), leaves the
    store as it was, and the calls it makes are those of [evs], in
    some order. *)
Definition makes {A} (c : M A) (w : World) (evs : list Event) : Prop :=
  (exists r, fst (c w) = Return r)
  /\ repo (snd (c w)) = repo w
  /\ exists made, trace (snd (c w)) = trace w ++ made /\ Permutation made evs.

(** From [w] to [w'] calls were added to the trace, the part [view]
    of the store stayed as it was, and the whole store stayed as it was
    unless one of the calls is a round-robin pop. *)
Definition popsAtMost {V} (view : Store -> V) (w w' : World) : Prop :=
  exists made,
    trace w' = trace w ++ made
    /\ view (repo w') = view (repo w)
    /\ (List.filter isPop made = [] -> repo w' = repo w).

(** [c] writes the store through round-robin pops only. *)
Definition popsOnly {V A} (view : Store -> V) (c : M A) : Prop :=
  forall w, popsAtMost view w (snd (c w)).

(** The send that cancels the timeout of a group-key run. *)
Definition isCancelTimeoutSend (ev : Event) : bool :=
  match ev with
  | EvAddMessage (msgqueue.QueueTypeFromTickerID _) m =>
      String.eqb (msgqueue.ID m) "cancel-get-group-key-run-timeout"
  | _ => false
  end.

End Reach.

(** ** The constructor of the controller (controller.go) *)

Module options.

Section New.

(** The collaborators are handed to [New] as values; what they are
    does not matter here.  An interface or pointer that is nil is
    [None]. *)
Variables MessageQueueT LoggerT RepositoryT DecoderT SchedulerT : Type.

(** [logger.NewDefaultLogger("workflows-controller")] *)
Variable defaultLogger : LoggerT.

(** [datautils.NewDataDecoderValidator()] *)
Variable defaultDecoder : DecoderT.

(** [l.With().Str("service", "workflows-controller").Logger()] *)
Variable withService : LoggerT -> LoggerT.

(** [gocron.NewScheduler(gocron.WithLocation(time.UTC))] *)
Variable newScheduler : result SchedulerT.

Record WorkflowsControllerOpts : Type := {
  mq : option MessageQueueT;
  l : option LoggerT;
  repo : option RepositoryT;
  dv : option DecoderT
}.

Record WorkflowsControllerImpl : Type := {
  c_mq : MessageQueueT;
  c_l : LoggerT;
  c_repo : RepositoryT;
  c_dv : option DecoderT;
  c_s : SchedulerT
}.

Definition WorkflowsControllerOpt : Type :=
  WorkflowsControllerOpts -> WorkflowsControllerOpts.

Definition defaultWorkflowsControllerOpts : WorkflowsControllerOpts :=
  {| mq := None; l := Some defaultLogger; repo := None;
     dv := Some defaultDecoder |}.

Definition WithMessageQueue (m : option MessageQueueT) : WorkflowsControllerOpt :=
  fun opts => {| mq := m; l := l opts; repo := repo opts; dv := dv opts |}.

Definition WithLogger (lg : option LoggerT) : WorkflowsControllerOpt :=
  fun opts => {| mq := mq opts; l := lg; repo := repo opts; dv := dv opts |}.

Definition WithRepository (r : option RepositoryT) : WorkflowsControllerOpt :=
  fun opts => {| mq := mq opts; l := l opts; repo := r; dv := dv opts |}.

Definition WithDataDecoderValidator (d : option DecoderT) : WorkflowsControllerOpt :=
  fun opts => {| mq := mq opts; l := l opts; repo := repo opts; dv := d |}.

(** [for _, f := range fs { f(opts) }] *)
Definition applyAll (fs : list WorkflowsControllerOpt)
    (opts : WorkflowsControllerOpts) : WorkflowsControllerOpts :=
  fold_left (fun opts f => f opts) fs opts.

Definition New (fs : list WorkflowsControllerOpt) : outcome WorkflowsControllerImpl :=
  let opts := applyAll fs defaultWorkflowsControllerOpts in
  match mq opts with
  | None => Return (Err (ErrNew "task queue is required. use WithMessageQueue"))
  | Some m =>
      match repo opts with
      | None =>
          Return (Err (ErrNew "repository is required. use WithRepository"))
      | Some r =>
          match newScheduler with
          | Err e => Return (Err (ErrWrap "could not create scheduler" e))
          | Ok sched =>
              match l opts with
              | None => Panic "invalid memory address or nil pointer dereference"
              | Some lg =>
                  Return (Ok {| c_mq := m; c_l := withService lg; c_repo := r;
                                c_dv := dv opts; c_s := sched |})
              end
          end
      end
  end.

(** The options a caller can build: the fields of the options struct
    are not exported, so the four constructors are the only way to set
    them. *)
Inductive Option_ : Type :=
  | OptMessageQueue (m : option MessageQueueT)
  | OptLogger (lg : option LoggerT)
  | OptRepository (r : option RepositoryT)
  | OptDecoder (d : option DecoderT).

Definition toOpt (o : Option_) : WorkflowsControllerOpt :=
  match o with
  | OptMessageQueue m => WithMessageQueue m
  | OptLogger lg => WithLogger lg
  | OptRepository r => WithRepository r
  | OptDecoder d => WithDataDecoderValidator d
  end.

(** What the last option of each kind gives, [start] when there is
    none of that kind. *)
Fixpoint lastMq (os : list Option_) (start : option MessageQueueT)
  : option MessageQueueT :=
  match os with
  | [] => start
  | OptMessageQueue m :: rest => lastMq rest m
  | _ :: rest => lastMq rest start
  end.

Fixpoint lastLogger (os : list Option_) (start : option LoggerT)
  : option LoggerT :=
  match os with
  | [] => start
  | OptLogger lg :: rest => lastLogger rest lg
  | _ :: rest => lastLogger rest start
  end.

Fixpoint lastRepo (os : list Option_) (start : option RepositoryT)
  : option RepositoryT :=
  match os with
  | [] => start
  | OptRepository r :: rest => lastRepo rest r
  | _ :: rest => lastRepo rest start
  end.

Fixpoint lastDecoder (os : list Option_) (start : option DecoderT)
  : option DecoderT :=
  match os with
  | [] => start
  | OptDecoder d :: rest => lastDecoder rest d
  | _ :: rest => lastDecoder rest start
  end.

End New.

End options.

(** ** The GitHub webhook receiver (github_incoming.go) *)

Module githubapp.

(** The types of the HTTP layer and of the GitHub SDK that the handler
    only passes along. *)
Class Types := {
  Request : Type;
  Payload : Type;
  SdkPullRequest : Type
}.

Record GithubWebhookModel : Type := {
  SigningSecret : string;
  TenantID : string
}.

Record GithubPullRequestModel : Type := {
  pr_ID : string
}.

(** What the handler reads of a [*githubsdk.PullRequestEvent]:
    [GetRepo().GetOwner().Login], a pointer that is nil when the
    payload has no owner login (or no owner, or no repository),
    [GetRepo().GetName()] and [GetPullRequest()]. *)
Record PullRequestEvent `{Types} : Type := {
  ownerLogin : option string;
  repoName : string;
  pullRequest : SdkPullRequest
}.

(** What [ParseWebHook] returns: a pull request event or an event of
    another type. *)
Inductive WebhookEvent `{Types} : Type :=
  | IsPullRequestEvent (event : PullRequestEvent)
  | OtherEvent.

(** The getters of a [vcs.VCSRepositoryPullRequest]. *)
Record VCSRepositoryPullRequest : Type := {
  GetRepoOwner : string;
  GetRepoName : string;
  GetPRNumber : Z;
  GetHeadBranch : string;
  GetBaseBranch : string;
  GetTitle : string;
  GetState : string
}.

Record UpdatePullRequestOpts : Type := {
  HeadBranch : option string;
  BaseBranch : option string;
  Title : option string;
  State : option string
}.

(** The collaborators of the handler: the repository, the encryption
    service, the GitHub SDK and package [vcs/github]. *)
Class Deps `{Types} := {
  GithubStore : Type;
  ReadGithubWebhookById : string -> GithubStore -> result GithubWebhookModel;
  GetPullRequest :
    string -> string -> string -> Z -> GithubStore ->
    result GithubPullRequestModel;
  UpdatePullRequest :
    string -> string -> UpdatePullRequestOpts -> GithubStore ->
    result GithubPullRequestModel * GithubStore;
  Decrypt : string -> string -> result string;
  ValidatePayload : Request -> string -> result Payload;
  WebHookType : Request -> string;
  ParseWebHook : string -> Payload -> result WebhookEvent;
  ToVCSRepositoryPullRequest :
    string -> string -> SdkPullRequest -> VCSRepositoryPullRequest
}.

(** The calls made on the repository. *)
Inductive Call : Type :=
  | CallReadGithubWebhookById (id : string)
  | CallGetPullRequest (tenantId owner name : string) (number : Z)
  | CallUpdatePullRequest (tenantId id : string) (opts : UpdatePullRequestOpts).

Definition isPullRequestCall (c : Call) : bool :=
  match c with
  | CallReadGithubWebhookById _ => false
  | _ => true
  end.

Section Handler.

Context `{Deps}.

Record Server : Type := {
  github : GithubStore;
  calls : list Call
}.

Definition called (c : Call) (st : Server) : Server :=
  {| github := github st; calls := calls st ++ [c] |}.

Definition processPullRequestEvent (tenantId : string)
    (event : PullRequestEvent) (st : Server) : outcome unit * Server :=
  match ownerLogin event with
  | None => (Panic "invalid memory address or nil pointer dereference", st)
  | Some login =>
      let pr := ToVCSRepositoryPullRequest login (repoName event)
                  (pullRequest event) in
      let st1 :=
        called (CallGetPullRequest tenantId (GetRepoOwner pr) (GetRepoName pr)
                  (GetPRNumber pr)) st in
      match GetPullRequest tenantId (GetRepoOwner pr) (GetRepoName pr)
              (GetPRNumber pr) (github st) with
      | Err err => (Return (Err err), st1)
      | Ok dbPR =>
          let opts :=
            {| HeadBranch := Some (GetHeadBranch pr);
               BaseBranch := Some (GetBaseBranch pr);
               Title := Some (GetTitle pr);
               State := Some (GetState pr) |} in
          let (updated, store') :=
            UpdatePullRequest tenantId (pr_ID dbPR) opts (github st) in
          (Return match updated with
                  | Ok _ => Ok tt
                  | Err err => Err err
                  end,
           {| github := store';
              calls := calls st1
                       ++ [CallUpdatePullRequest tenantId (pr_ID dbPR) opts] |})
      end
  end.

(** The handler returns a response and an error; the response is nil
    on every path, so only the error is kept. *)
Definition GithubUpdateTenantWebhook (webhookId : string) (request : Request)
    (st : Server) : outcome unit * Server :=
  let st1 := called (CallReadGithubWebhookById webhookId) st in
  match ReadGithubWebhookById webhookId (github st) with
  | Err err => (Return (Err err), st1)
  | Ok webhook =>
      match Decrypt (SigningSecret webhook) "github_signing_secret" with
      | Err err => (Return (Err err), st1)
      | Ok signingSecret =>
          (* validate the payload using the github webhook signing secret *)
          match ValidatePayload request signingSecret with
          | Err err => (Return (Err err), st1)
          | Ok payload =>
              match ParseWebHook (WebHookType request) payload with
              | Err err => (Return (Err err), st1)
              | Ok (IsPullRequestEvent event) =>
                  (* [err = g.processPullRequestEvent(...)]: the error
                     is stored and not read again *)
                  match processPullRequestEvent (TenantID webhook) event st1 with
                  | (Return _, st2) => (Return (Ok tt), st2)
                  | (Panic msg, st2) => (Panic msg, st2)
                  end
              | Ok OtherEvent => (Return (Ok tt), st1)
              end
          end
      end
  end.

(** The calls made on the repository between two states. *)
Definition newCalls (st st' : Server) : list Call :=
  drop (length (calls st)) (calls st').

End Handler.

(** A receiver to run the handler against: the request carries its
    signature, its event type and the parsed event; the secret is
    stored in the clear; pull requests are kept by number. *)
Module double.

Record request : Type := {
  signature : string;
  kind : string;
  body : option (string * string * Z * string)
}.

Record row : Type := {
  id : string;
  tenant : string;
  number : Z;
  head : string;
  title : string
}.

Record store : Type := {
  webhooks : list (string * GithubWebhookModel);
  pullRequests : list row;
  readOnly : bool
}.

Definition types : Types :=
  {| Request := request;
     Payload := request;
     SdkPullRequest := Z * string |}.

Definition find (tenantId : string) (n : Z) (st : store) : option row :=
  List.find (fun r => String.eqb (tenant r) tenantId && Z.eqb (number r) n)
    (pullRequests st).

Definition readWebhook (wid : string) (st : store) : result GithubWebhookModel :=
  match List.find (fun w => String.eqb (fst w) wid) (webhooks st) with
  | Some w => Ok (snd w)
  | None => Err (ErrNew "NotFound")
  end.

Definition getPullRequest (tenantId owner name : string) (n : Z) (st : store)
  : result GithubPullRequestModel :=
  match find tenantId n st with
  | Some r => Ok {| pr_ID := id r |}
  | None => Err (ErrNew "NotFound")
  end.

Definition updatePullRequest (tenantId prId : string)
    (opts : UpdatePullRequestOpts) (st : store)
  : result GithubPullRequestModel * store :=
  if readOnly st then (Err (ErrNew "Transient"), st)
  else
    (Ok {| pr_ID := prId |},
     {| webhooks := webhooks st;
        pullRequests :=
          map (fun r =>
                 if String.eqb (id r) prId then
                   {| id := id r; tenant := tenant r; number := number r;
                      head := default (head r) (HeadBranch opts);
                      title := default (title r) (Title opts) |}
                 else r) (pullRequests st);
        readOnly := readOnly st |}).

Definition validate (r : request) (secret : string) : result request :=
  if String.eqb (signature r) secret then Ok r
  else Err (ErrNew "payload signature check failed").

Definition parse (k : string) (r : request) : result (@WebhookEvent types) :=
  if String.eqb k "pull_request" then
    match body r with
    | Some (owner, name, n, t) =>
        Ok (@IsPullRequestEvent types
              (@Build_PullRequestEvent types
                 (if String.eqb owner "" then None else Some owner)
                 name (n, t)))
    | None => Err (ErrNew "unexpected end of JSON input")
    end
  else Ok (@OtherEvent types).

Definition toVCS (owner name : string) (pr : Z * string)
  : VCSRepositoryPullRequest :=
  {| GetRepoOwner := owner; GetRepoName := name;
     GetPRNumber := fst pr; GetHeadBranch := "feature";
     GetBaseBranch := "main"; GetTitle := snd pr;
     GetState := "open" |}.

Definition deps : @Deps types :=
  @Build_Deps types store readWebhook getPullRequest updatePullRequest
    (fun secret _ => Ok secret) validate kind parse toVCS.

Definition start (ro : bool) : @Server types deps :=
  @Build_Server types deps
    {| webhooks :=
         [("hook-1", {| SigningSecret := "s3cret"; TenantID := "tenant-1" |})];
       pullRequests :=
         [{| id := "pr-7"; tenant := "tenant-1"; number := 7;
             head := "old"; title := "draft" |}];
       readOnly := ro |}
    [].

Definition pullRequestOpened (sig : string) : request :=
  {| signature := sig; kind := "pull_request";
     body := Some ("octo", "hatchet", 7, "ready") |}.

End double.

End githubapp.

(** ** More deployments *)

Module demo5.

(** Scenario S5: [gk-run] is assigned to worker-1, which is inactive;
    worker-2 is active. *)
Definition worker2 : store.Worker :=
  {| store.w_ID := "worker-2"; store.w_TenantId := demo.tenant;
     store.w_DispatcherId := "dispatcher-2"; store.w_Active := true;
     store.w_Actions := [demo.action] |}.

Definition gkRun : store.GroupKeyRunRow :=
  store.withRun (store.assignWorker (demo.worker false))
    (demo.groupKeyRun "gk-run" "q1" "wv-cip" db.StepRunStatusPending 0).

Definition state : store.State :=
  store.setGkrs (list_to_map [("gk-run", gkRun)])
    (demo.state [demo.worker false; worker2]).

Definition world : @World specRepository scriptedBus scriptedCron :=
  demo.world state bus.quiet.

End demo5.

(** A bus that refuses subscriptions. *)
Definition deafBus : MessageQueue := {|
  Bus := unit;
  AddMessage := fun _ _ b => (Ok tt, b);
  Subscribe := fun _ b => (Err (ErrNew "Transient"), b);
  CleanupQueue := fun b => (Ok tt, b)
|}.

Definition deafWorld : @World specRepository deafBus scriptedCron :=
  @Build_World specRepository deafBus scriptedCron
    (demo.state [demo.worker true]) tt cron.idle
    (fun n => 1000 + Z.of_nat n) O [].

(** A default timeout that is not a duration. *)
Definition noDuration : Defaults := {|
  DefaultStepRunTimeout := "soon"
|}.

(** * Properties *)

Section Properties.

#[local] Existing Instance launchOrder.

Context {R : Repository} {Q : MessageQueue} {G : Scheduler}.
Context {T : GoTime} {D : Defaults} {TT : TaskTypes}.

Implicit Types w : World.

Lemma newEvents_app w w' evs :
  trace w' = trace w ++ evs -> newEvents w w' = evs.
Proof.
  intros H. unfold newEvents. rewrite H.
  rewrite drop_app_length. reflexivity.
Qed.

Lemma fold_Go_map {A} (f : A -> M unit) (l : list A) (g : errgroup_Group) :
  fold_left (fun g x => errgroup_Go g (f x)) l g = g ++ map f l.
Proof.
  revert g. induction l as [|x l IH]; intros g; simpl.
  - rewrite app_nil_r. reflexivity.
  - rewrite IH. unfold errgroup_Go. rewrite <- app_assoc. reflexivity.
Qed.


Lemma mq_AddMessage_reads q m w :
  reads (mq_AddMessage q m) w [EvAddMessage q m].
Proof.
  unfold reads, mq_AddMessage, onBus.
  destruct (AddMessage q m (mq w)) as [r b]. simpl. eauto.
Qed.


Lemma queueWorkflowRunJobs_loop_spec jobRuns err w :
  fst (queueWorkflowRunJobs_loop jobRuns err w) = Return (Ok err)
  /\ repo (snd (queueWorkflowRunJobs_loop jobRuns err w)) = repo w
  /\ trace (snd (queueWorkflowRunJobs_loop jobRuns err w))
     = trace w ++ map jobSend jobRuns.
Proof.
  revert w. induction jobRuns as [|jobRun rest IH]; intros w; simpl.
  - rewrite app_nil_r. auto.
  - destruct (mq_AddMessage_reads msgqueue.JOB_PROCESSING_QUEUE
                (JobRunQueuedToTask (db.Job jobRun) jobRun) w)
      as [[r Hr] [Hrepo Htrace]].
    unfold bind, attempt.
    destruct (mq_AddMessage _ _ w) as [o w1]. simpl in *. subst o.
    destruct (IH w1) as [H1 [H2 H3]].
    destruct r as [[]|e]; (split; [exact H1|]); (split; [congruence|]);
      rewrite H3, Htrace, <- app_assoc; reflexivity.
Qed.

Lemma queueWorkflowRunJobs_spec workflowRun w :
  fst (queueWorkflowRunJobs workflowRun w) = Return (Ok tt)
  /\ repo (snd (queueWorkflowRunJobs workflowRun w)) = repo w
  /\ trace (snd (queueWorkflowRunJobs workflowRun w))
     = trace w ++ map jobSend (db.JobRuns workflowRun).
Proof.
  unfold queueWorkflowRunJobs, bind.
  destruct (queueWorkflowRunJobs_loop_spec (db.JobRuns workflowRun) None w)
    as [H1 [H2 H3]].
  destruct (queueWorkflowRunJobs_loop _ _ w) as [o w1]. simpl in *.
  subst o. simpl. auto.
Qed.

Lemma releaseOne_reads tenantId row w :
  reads (releaseOne tenantId row) w
    (releaseCalls tenantId (repo w) (dbsqlc.wr_ID row)).
Proof.
  unfold reads, releaseOne, releaseCalls, bind, wrap,
    repo_GetWorkflowRunById, query. simpl.
  destruct (GetWorkflowRunById tenantId (dbsqlc.wr_ID row) (repo w))
    as [workflowRun|e]; simpl.
  - destruct (queueWorkflowRunJobs_spec workflowRun
                (log (EvGetWorkflowRunById tenantId (dbsqlc.wr_ID row)) w))
      as [H1 [H2 H3]].
    rewrite H1, H2, H3. simpl. rewrite <- app_assoc. eauto.
  - eauto.
Qed.


(** ** C10 *)

(** C10.  [queueWorkflowRunJobs] returns nil for every workflow run
    and every bus, whatever the sends answer: the loop hands back the
    error variable it was given, untouched; one send on
    [JOB_PROCESSING_QUEUE] is attempted for every JobRun, in order,
    and the store is not written. *)
Theorem queueWorkflowRunJobs_returns_nil :
  forall (workflowRun : db.WorkflowRunModel) (w : World),
    fst (queueWorkflowRunJobs workflowRun w) = Return (Ok tt)
    /\ (forall err,
          fst (queueWorkflowRunJobs_loop (db.JobRuns workflowRun) err w)
          = Return (Ok err))
    /\ newEvents w (snd (queueWorkflowRunJobs workflowRun w))
       = map (fun jobRun =>
                EvAddMessage msgqueue.JOB_PROCESSING_QUEUE
                  (JobRunQueuedToTask (db.Job jobRun) jobRun))
             (db.JobRuns workflowRun)
    /\ repo (snd (queueWorkflowRunJobs workflowRun w)) = repo w.
Proof.
  intros workflowRun w.
  destruct (queueWorkflowRunJobs_spec workflowRun w) as [H1 [H2 H3]].
  split; [exact H1|]. split.
  - intros err. apply queueWorkflowRunJobs_loop_spec.
  - split; [|exact H2]. apply newEvents_app. exact H3.
Qed.

(** ** C7 *)


(** ** The loops of CANCEL_IN_PROGRESS *)

Lemma queueLoop_firstn tenantId rows i maxToQueue g :
  queueLoop tenantId rows i maxToQueue g
  = g ++ map (releaseOne tenantId) (firstn (Z.to_nat (maxToQueue - i)) rows).
Proof.
  revert i g. induction rows as [|row rest IH]; intros i g; simpl.
  - rewrite firstn_nil, app_nil_r. reflexivity.
  - destruct (Z.geb_spec i maxToQueue) as [Hge|Hlt].
    + replace (Z.to_nat (maxToQueue - i)) with O by lia.
      simpl. rewrite app_nil_r. reflexivity.
    + rewrite IH. unfold errgroup_Go. rewrite <- app_assoc. simpl.
      replace (Z.to_nat (maxToQueue - i))
        with (S (Z.to_nat (maxToQueue - (i + 1)))) by lia.
      reflexivity.
Qed.

Lemma firstn_min {A} (l : list A) (n : nat) :
  firstn n l = firstn (Nat.min (length l) n) l.
Proof.
  destruct (Nat.le_gt_cases n (length l)) as [H|H].
  - rewrite Nat.min_r by exact H. reflexivity.
  - rewrite Nat.min_l by lia.
    rewrite !firstn_all2 by lia. reflexivity.
Qed.

(** ** C3 and C4 *)

Ltac run_store :=
  unfold bind, wrap, attempt, ret, throw,
    repo_UpdateGetGroupKeyRun, repo_AssignGetGroupKeyRunToWorker,
    repo_AssignGetGroupKeyRunToTicker, mq_AddMessage,
    update, onBus, time_Now; simpl.

(** C4.  When the status write has gone through and the store's
    worker assignment answers NoWorkerAvailable (as such or wrapped),
    Schedule returns nil; it has made the status write and the
    assignment call and nothing else: no message is sent, the bus is
    as it was. *)
Theorem scheduleGetGroupAction_no_worker_available :
  forall (getGroupKeyRun updated : dbsqlc.GetGroupKeyRunForEngineRow)
         (w : World) (st1 st2 : Store) (err : error),
    let tenantId := dbsqlc.TenantId (dbsqlc.GetGroupKeyRun_ getGroupKeyRun) in
    let id := dbsqlc.ID (dbsqlc.GetGroupKeyRun_ getGroupKeyRun) in
    UpdateGetGroupKeyRun tenantId id pendingAssignment (repo w)
    = (Ok updated, st1) ->
    AssignGetGroupKeyRunToWorker tenantId id st1 = (Err err, st2) ->
    errors_Is_NoWorkerAvailable err = true ->
    let w' := snd (scheduleGetGroupAction getGroupKeyRun w) in
    fst (scheduleGetGroupAction getGroupKeyRun w) = Return (Ok tt)
    /\ newEvents w w'
       = [EvUpdateGetGroupKeyRun tenantId id pendingAssignment;
          EvAssignGetGroupKeyRunToWorker tenantId id]
    /\ List.filter isAddMessage (newEvents w w') = []
    /\ mq w' = mq w
    /\ repo w' = st2.
Proof.
  intros getGroupKeyRun updated w st1 st2 err tenantId id Hupd Hassign His w'.
  subst w'. unfold scheduleGetGroupAction. fold tenantId id.
  fold pendingAssignment. run_store.
  rewrite Hupd. simpl. rewrite Hassign. simpl. rewrite His. simpl.
  unfold newEvents. simpl.
  rewrite <- app_assoc, drop_app_length. simpl. auto.
Qed.

Lemma scheduleGetGroupAction_returns getGroupKeyRun w :
  exists r, fst (scheduleGetGroupAction getGroupKeyRun w) = Return r.
Proof.
  unfold scheduleGetGroupAction, scheduleGetGroupKeyRunTimeoutTask.
  run_store.
  destruct (UpdateGetGroupKeyRun _ _ _ (repo w)) as [[updated|e] st1];
    simpl; [|eauto].
  destruct (AssignGetGroupKeyRunToWorker _ _ st1)
    as [[[workerId dispatcherId]|e] st2]; simpl.
  - destruct (AssignGetGroupKeyRunToTicker _ _ st2) as [[tickerId|e] st3];
      simpl; [|eauto].
    destruct (time_ParseDuration DefaultStepRunTimeout) as [duration|];
      simpl; [|eauto].
    destruct (AddMessage _ _ (mq w)) as [[[]|e] b1]; simpl; [|eauto].
    destruct (AddMessage _ _ b1) as [[[]|e] b2]; simpl; eauto.
  - destruct (errors_Is_NoWorkerAvailable e); simpl; eauto.
Qed.

(** C3, as the code has it.  When Schedule returns nil and the store
    has assigned a worker, the calls it has made are, in this order:
    the write of status PENDING_ASSIGNMENT, the worker assignment, the
    ticker assignment, the send of [group-key-action-assigned] on the
    queue of the dispatcher, and last the send of
    [schedule-get-group-key-run-timeout] on the queue of the ticker,
    with [timeout_at] the time read after the ticker assignment plus
    the default timeout. *)
Theorem scheduleGetGroupAction_dispatches_then_arms_timeout :
  forall (getGroupKeyRun : dbsqlc.GetGroupKeyRunForEngineRow) (w : World)
         (r1 : result dbsqlc.GetGroupKeyRunForEngineRow) (st1 st2 : Store)
         (workerId dispatcherId : string),
    let tenantId := dbsqlc.TenantId (dbsqlc.GetGroupKeyRun_ getGroupKeyRun) in
    let id := dbsqlc.ID (dbsqlc.GetGroupKeyRun_ getGroupKeyRun) in
    let workflowRunId := dbsqlc.WorkflowRunId getGroupKeyRun in
    UpdateGetGroupKeyRun tenantId id pendingAssignment (repo w) = (r1, st1) ->
    AssignGetGroupKeyRunToWorker tenantId id st1
    = (Ok (workerId, dispatcherId), st2) ->
    fst (scheduleGetGroupAction getGroupKeyRun w) = Return (Ok tt) ->
    let w' := snd (scheduleGetGroupAction getGroupKeyRun w) in
    exists (tickerId : string) (duration : Duration),
      fst (AssignGetGroupKeyRunToTicker tenantId id st2) = Ok tickerId
      /\ time_ParseDuration DefaultStepRunTimeout = Some duration
      /\ newEvents w w'
         = [EvUpdateGetGroupKeyRun tenantId id pendingAssignment;
            EvAssignGetGroupKeyRunToWorker tenantId id;
            EvAssignGetGroupKeyRunToTicker tenantId id;
            EvAddMessage (msgqueue.QueueTypeFromDispatcherID dispatcherId)
              (getGroupActionTask tenantId workflowRunId workerId dispatcherId);
            EvAddMessage (msgqueue.QueueTypeFromTickerID tickerId)
              (timeoutTask tenantId workflowRunId id
                 (time_Add (clock w (ticks w)) duration))]
      /\ sentBefore isDispatchSend isTimeoutSend (newEvents w w') = true
      /\ sentBefore isTimeoutSend isDispatchSend (newEvents w w') = false.
Proof.
  intros getGroupKeyRun w r1 st1 st2 workerId dispatcherId
    tenantId id workflowRunId Hupd Hassign Hok w'.
  subst w'. revert Hok.
  unfold scheduleGetGroupAction, scheduleGetGroupKeyRunTimeoutTask.
  fold tenantId id workflowRunId. fold pendingAssignment. run_store.
  rewrite Hupd. destruct r1 as [updated|e]; simpl; [|discriminate].
  rewrite Hassign. simpl.
  destruct (AssignGetGroupKeyRunToTicker tenantId id st2)
    as [[tickerId|e] st3]; simpl; [|discriminate].
  destruct (time_ParseDuration DefaultStepRunTimeout) as [duration|];
    simpl; [|discriminate].
  destruct (AddMessage _ _ (mq w)) as [[[]|e] b1]; simpl; [|discriminate].
  destruct (AddMessage _ _ b1) as [[[]|e] b2]; simpl; [|discriminate].
  intros _. exists tickerId, duration.
  split; [reflexivity|]. split; [reflexivity|].
  unfold newEvents. simpl.
  rewrite <- !app_assoc, drop_app_length. simpl.
  split; [reflexivity|]. split; reflexivity.
Qed.

(** ** C2 *)

Lemma requeueOne_returns tenantId getGroupKeyRunCp w :
  exists r, fst (requeueOne tenantId getGroupKeyRunCp w) = Return r.
Proof.
  unfold requeueOne. run_store.
  destruct (negb _ && _); simpl.
  - destruct (UpdateGetGroupKeyRun _ _ _ (repo w)) as [[updated|e] st1];
      simpl; eauto.
  - destruct (UpdateGetGroupKeyRun _ _ _ (repo w)) as [[updated|e] st1];
      simpl; [|eauto].
    apply scheduleGetGroupAction_returns.
Qed.

(** A group whose functions never panic runs every one of them, the
    next one from the world the previous one left. *)
Lemma errgroup_run_ranEach {A} (f : A -> M unit) :
  (forall x w, exists r, fst (f x w) = Return r) ->
  forall l first w,
    ranEach f l w (snd (errgroup_run (map f l) first w)).
Proof.
  intros Hf l. induction l as [|x l IH]; intros first w; simpl.
  - destruct first; simpl; constructor.
  - constructor. destruct (Hf x w) as [r Hr].
    destruct (f x w) as [o w1]. simpl in *. subst o.
    destruct r as [[]|e]; apply IH.
Qed.


(** ** C5 *)



(** ** C8 *)

(** C8, as the code has it.  The function [Start] returns is
    [cleanup].  It always cancels the root context and then
    unsubscribes.  When the unsubscription returns an error, it
    returns that error at once: it neither waits for the handlers nor
    stops the scheduler.  When the unsubscription succeeds, all four
    steps run, in order, whatever the scheduler answers. *)
Theorem cleanup_steps :
  forall (w0 : World) (shutdown : M unit),
    fst (Start w0) = Return (Ok shutdown) ->
    shutdown = cleanup
    /\ forall w : World,
         match CleanupQueue (mq w) with
         | (Err e, b) =>
             shutdown w
             = (Return (Err (ErrWrap "could not cleanup queue" e)),
                setMq b (log EvCleanupQueue (log EvCancel w)))
             /\ newEvents w (snd (shutdown w)) = [EvCancel; EvCleanupQueue]
         | (Ok _, b) =>
             newEvents w (snd (shutdown w)) = shutdownSteps
         end.
Proof.
  intros w0 shutdown Hstart.
  assert (Hs : shutdown = cleanup).
  { revert Hstart. unfold Start, newJob, cancelAndReturn.
    unfold bind, attempt, onCron, onBus, mark, throw, ret. simpl.
    destruct (NewJob _ _ (s w0)) as [[[]|e] c1]; simpl; [|discriminate].
    destruct (NewJob _ _ c1) as [[[]|e] c2]; simpl; [|discriminate].
    destruct (Subscribe _ (mq w0)) as [[[]|e] b1]; simpl; [|discriminate].
    intros H. injection H as H. symmetry. exact H. }
  split; [exact Hs|]. subst shutdown. intros w.
  unfold cleanup, bind, wrap, mark, onBus, onCron, ret. simpl.
  destruct (CleanupQueue (mq w)) as [[[]|e] b]; simpl.
  - destruct (Shutdown (s w)) as [[[]|e] c]; simpl;
      unfold newEvents; simpl;
      rewrite <- !app_assoc, drop_app_length; reflexivity.
  - split; [reflexivity|].
    unfold newEvents; simpl.
    rewrite <- !app_assoc, drop_app_length. reflexivity.
Qed.

End Properties.

(** * Properties that hold in every completion order *)

Section AnyOrder.

Context {R : Repository} {Q : MessageQueue} {G : Scheduler}.
Context {T : GoTime} {D : Defaults} {TT : TaskTypes}.
Context {GR : Goroutines}.

Implicit Types w : World.

(** ** Groups *)

Lemma completion_Forall {A} (P : A -> Prop) history (g : list A) :
  Forall P g -> Forall P (completion history g).
Proof.
  intros Hg. rewrite completion_Permutation. exact Hg.
Qed.

Lemma reads_makes {A} (c : M A) w evs : reads c w evs -> makes c w evs.
Proof.
  intros [Hr [Hrepo Htrace]]. split; [exact Hr|]. split; [exact Hrepo|].
  exists evs. split; [exact Htrace|reflexivity].
Qed.

Lemma errgroup_run_makes {A} (f : A -> M unit)
    (calls : Store -> A -> list Event) :
  (forall x w, makes (f x) w (calls (repo w) x)) ->
  forall l first w,
    makes (errgroup_run (map f l) first) w (flat_map (calls (repo w)) l).
Proof.
  intros Hf l. induction l as [|x l IH]; intros first w.
  - unfold makes. simpl. split; [destruct first; simpl; eauto|].
    split; [destruct first; reflexivity|].
    exists []. rewrite app_nil_r. split; [destruct first; reflexivity|].
    reflexivity.
  - destruct (Hf x w) as [[r Hr] [Hrepo [made [Htrace Hperm]]]].
    unfold makes. simpl.
    destruct (f x w) as [o w1] eqn:E. simpl in *. subst o.
    assert (Hrest : forall first',
              makes (errgroup_run (map f l) first') w1
                (flat_map (calls (repo w)) l)).
    { intros first'. rewrite <- Hrepo. apply IH. }
    assert (Hgoal : forall first',
              makes (errgroup_run (map f l) first') w1
                (flat_map (calls (repo w)) l) ->
              (exists r', fst (errgroup_run (map f l) first' w1) = Return r')
              /\ repo (snd (errgroup_run (map f l) first' w1)) = repo w
              /\ exists made0,
                   trace (snd (errgroup_run (map f l) first' w1))
                   = trace w ++ made0
                   /\ Permutation made0
                        (calls (repo w) x ++ flat_map (calls (repo w)) l)).
    { intros first' [Hr' [Hrepo' [made' [Htrace' Hperm']]]].
      split; [exact Hr'|]. split; [congruence|].
      exists (made ++ made'). split.
      - rewrite Htrace', Htrace, app_assoc. reflexivity.
      - apply Permutation_app; assumption. }
    destruct r as [[]|e]; apply Hgoal, Hrest.
Qed.

(** Whatever the order in which they complete, the goroutines of a
    group that only read the store make, together, the calls each of
    them makes. *)
Lemma errgroup_Wait_makes {A} (f : A -> M unit)
    (calls : Store -> A -> list Event) :
  (forall x w, makes (f x) w (calls (repo w) x)) ->
  forall l w,
    makes (errgroup_Wait (map f l)) w (flat_map (calls (repo w)) l).
Proof.
  intros Hf l w. unfold errgroup_Wait, makes. rewrite completion_map.
  destruct (errgroup_run_makes f calls Hf (completion (trace w) l) None w)
    as [Hr [Hrepo [made [Htrace Hperm]]]].
  split; [exact Hr|]. split; [exact Hrepo|].
  exists made. split; [exact Htrace|].
  rewrite Hperm. apply Permutation_flat_map, completion_Permutation.
Qed.

(** Whatever the order in which they complete, every goroutine of a
    group is run, one after the other. *)
Lemma errgroup_Wait_ranEach {A} (f : A -> M unit) :
  (forall x w, exists r, fst (f x w) = Return r) ->
  forall l w,
    ranEach f (completion (trace w) l) w (snd (errgroup_Wait (map f l) w)).
Proof.
  intros Hf l w. unfold errgroup_Wait. rewrite completion_map.
  apply errgroup_run_ranEach, Hf.
Qed.

(** The requeue scan of a tenant in any completion order: every run
    the store lists is handed to [requeueOne], and each of them is
    run. *)
Lemma runGetGroupKeyRunRequeueTenant_any_order tenantId w getGroupKeyRuns :
  ListGetGroupKeyRunsToRequeue tenantId (repo w) = Ok getGroupKeyRuns ->
  let w0 := log (EvListGetGroupKeyRunsToRequeue tenantId) w in
  Permutation (completion (trace w0) getGroupKeyRuns) getGroupKeyRuns
  /\ ranEach (requeueOne tenantId) (completion (trace w0) getGroupKeyRuns) w0
       (snd (runGetGroupKeyRunRequeueTenant tenantId w)).
Proof.
  intros Hlist w0. split; [apply completion_Permutation|].
  assert (Heq : runGetGroupKeyRunRequeueTenant tenantId w
                = errgroup_Wait (map (requeueOne tenantId) getGroupKeyRuns) w0).
  { unfold runGetGroupKeyRunRequeueTenant, bind, wrap,
      repo_ListGetGroupKeyRunsToRequeue, query.
    rewrite Hlist. rewrite fold_Go_map. reflexivity. }
  rewrite Heq. apply errgroup_Wait_ranEach. apply requeueOne_returns.
Qed.

(** The round-robin release in any completion order: the pop, then
    for every popped run the fetch and one send per JobRun. *)
Lemma queueByGroupRoundRobin_any_order tenantId version concurrency popped
    st1 w :
  db.Concurrency version = Some concurrency ->
  PopWorkflowRunsRoundRobin tenantId (db.WorkflowVersionID concurrency)
    (db.MaxRuns concurrency) (repo w) = (Ok popped, st1) ->
  exists made,
    newEvents w (snd (queueByGroupRoundRobin tenantId version w))
    = EvPopWorkflowRunsRoundRobin tenantId
        (db.WorkflowVersionID concurrency) (db.MaxRuns concurrency) :: made
    /\ Permutation made
         (flat_map (fun row => releaseCalls tenantId st1 (dbsqlc.wr_ID row))
            popped).
Proof.
  intros Hc Hpop.
  set (w1 := setRepo st1
               (log (EvPopWorkflowRunsRoundRobin tenantId
                       (db.WorkflowVersionID concurrency)
                       (db.MaxRuns concurrency)) w)).
  assert (Heq : queueByGroupRoundRobin tenantId version w
    = (let* _ := wrap "could not queue workflow runs"
                   (errgroup_Wait (map (releaseOne tenantId) popped)) in
       ret tt) w1).
  { unfold queueByGroupRoundRobin. rewrite Hc.
    unfold bind at 1. unfold wrap at 1.
    unfold repo_PopWorkflowRunsRoundRobin, update. rewrite Hpop.
    rewrite fold_Go_map. reflexivity. }
  rewrite Heq.
  destruct (errgroup_Wait_makes (releaseOne tenantId)
              (fun st row => releaseCalls tenantId st (dbsqlc.wr_ID row))
              (fun row w => reads_makes _ _ _ (releaseOne_reads tenantId row w))
              popped w1) as [[r Hr] [_ [made [Htrace Hperm]]]].
  exists made. split; [|exact Hperm].
  unfold bind, wrap, ret.
  destruct (errgroup_Wait (map (releaseOne tenantId) popped) w1) as [o w2].
  simpl in Hr, Htrace. subst o.
  apply newEvents_app.
  destruct r as [[]|e]; simpl; rewrite Htrace; subst w1; simpl;
    rewrite <- app_assoc; reflexivity.
Qed.

Lemma cancelWorkflowRun_makes tenantId workflowRunId w :
  makes (cancelWorkflowRun tenantId workflowRunId) w
    (cancelCalls tenantId (repo w) workflowRunId).
Proof.
  unfold makes at 1. unfold cancelWorkflowRun, cancelCalls, bind, wrap,
    repo_GetWorkflowRunById, repo_ListStepRuns, query. simpl.
  destruct (GetWorkflowRunById tenantId workflowRunId (repo w))
    as [workflowRun|e]; simpl;
    [|split; [eauto|]; split; [reflexivity|]; eexists; split; reflexivity].
  fold (runningStepRuns (db.wr_ID workflowRun)).
  destruct (ListStepRuns tenantId (runningStepRuns (db.wr_ID workflowRun))
              (repo w)) as [stepRuns|e]; simpl;
    [|split; [eauto|]; split; [reflexivity|]; eexists;
      split; [rewrite <- app_assoc; reflexivity|reflexivity]].
  rewrite fold_Go_map. simpl app.
  set (w1 := log _ (log _ w)).
  destruct (errgroup_Wait_makes
              (fun stepRunCp =>
                 mq_AddMessage msgqueue.JOB_PROCESSING_QUEUE
                   (getStepRunNotifyCancelTask tenantId (db.sr_ID stepRunCp)
                      "CANCELLED_BY_CONCURRENCY_LIMIT"))
              (fun _ stepRun => [cancelSend tenantId stepRun])
              (fun x w => reads_makes _ _ _ (mq_AddMessage_reads _ _ w))
              stepRuns w1)
    as [H1 [H2 [made [H3 H4]]]].
  split; [exact H1|]. split; [exact H2|].
  exists (EvGetWorkflowRunById tenantId workflowRunId
          :: EvListStepRuns tenantId (runningStepRuns (db.wr_ID workflowRun))
          :: made).
  split.
  - rewrite H3. subst w1. simpl. rewrite <- !app_assoc. reflexivity.
  - do 2 apply perm_skip. rewrite H4.
    assert (Hmap : forall l : list db.StepRunModel,
               flat_map (fun stepRun => [cancelSend tenantId stepRun]) l
               = map (cancelSend tenantId) l)
      by (induction l; simpl; congruence).
    rewrite Hmap. reflexivity.
Qed.

(** Cancelling the timeout is one send; the store is not touched. *)
Lemma cancelTimeout_sends groupKeyRun w :
  let send :=
    EvAddMessage
      (msgqueue.QueueTypeFromTickerID
         (dbsqlc.TickerId (dbsqlc.GetGroupKeyRun_ groupKeyRun)))
      (cancelGetGroupKeyRunTimeoutTask groupKeyRun) in
  (exists r, fst (cancelTimeout groupKeyRun w) = Return r)
  /\ trace (snd (cancelTimeout groupKeyRun w)) = trace w ++ [send]
  /\ repo (snd (cancelTimeout groupKeyRun w)) = repo w.
Proof.
  unfold cancelTimeout, wrap, mq_AddMessage, onBus.
  destruct (AddMessage _ _ (mq w)) as [[[]|e] b]; simpl; eauto.
Qed.

(** ** The router *)

(** X1.  A message whose id is none of the five the router knows is
    answered with the error "unknown task: <id>"; no call is made and
    the world is left as it was. *)
Theorem handleTask_unknown_task :
  forall (task : msgqueue.Message) (w : World),
    ~ In (msgqueue.ID task)
        ["workflow-run-queued"; "get-group-key-run-started";
         "get-group-key-run-finished"; "get-group-key-run-failed";
         "workflow-run-finished"] ->
    handleTask task w
    = (Return (Err (ErrNew ("unknown task: " +:+ msgqueue.ID task))), w).
Proof.
  intros task w Hid. unfold handleTask.
  repeat match goal with
         | |- context [String.eqb ?a ?b] =>
             destruct (String.eqb_spec a b) as [Heq|_];
             [exfalso; apply Hid; rewrite Heq; simpl; tauto|]
         end.
  reflexivity.
Qed.

(** X2.  A message whose metadata has no [tenant_id] is refused by
    every handler before anything is done: whatever its id and its
    payload, the router returns an error and the world is left as it
    was (no store call, no send, no clock reading). *)
Theorem handleTask_without_tenant_id :
  forall (task : msgqueue.Message) (w : World),
    msgqueue.Metadata task !! "tenant_id" = None ->
    exists err, handleTask task w = (Return (Err err), w).
Proof.
  intros task w Hnone.
  assert (Hm : exists e, tasktypes.decodeTenantId (msgqueue.Metadata task)
                         = Err e).
  { unfold tasktypes.decodeTenantId, tasktypes.field. rewrite Hnone. eauto. }
  destruct Hm as [e Hm].
  unfold handleTask.
  repeat match goal with
         | |- context [if String.eqb ?a ?b then _ else _] =>
             destruct (String.eqb a b)
         end.
  - unfold handleWorkflowRunQueued, bind, wrap, lift.
    destruct (tasktypes.decodeWorkflowRunId _); [rewrite Hm|]; eauto.
  - unfold handleGroupKeyRunStarted, bind, wrap, lift.
    destruct (tasktypes.decodeStarted _); [rewrite Hm|]; eauto.
  - unfold handleGroupKeyRunFinished, bind, wrap, lift.
    destruct (tasktypes.decodeFinished _); [rewrite Hm|]; eauto.
  - unfold handleGroupKeyRunFailed, bind, wrap, lift.
    destruct (tasktypes.decodeFailed _); [rewrite Hm|]; eauto.
  - unfold handleWorkflowRunFinished, bind, wrap, lift.
    destruct (tasktypes.decodeWorkflowRunId _); [rewrite Hm|]; eauto.
  - unfold throw. eauto.
Qed.

(** ** C6 *)

(** C6, what the code does.  A get-group-key-run-finished message
    that decodes, whose status write goes through and whose workflow
    version is found without a ConcurrencyPolicy makes the handler
    panic: the first function of its group reads the strategy through
    the nil policy.  It does not return. *)
Theorem handleGroupKeyRunFinished_absent_policy :
  forall (task : msgqueue.Message) (w : World)
         (payload : tasktypes.GetGroupKeyRunFinishedTaskPayload)
         (tenantId : string) (finishedAt : Time)
         (groupKeyRun : dbsqlc.GetGroupKeyRunForEngineRow) (st1 : Store)
         (version : db.WorkflowVersionModel),
    tasktypes.decodeFinished (msgqueue.Payload task) = Ok payload ->
    tasktypes.decodeTenantId (msgqueue.Metadata task) = Ok tenantId ->
    time_ParseRFC3339 (tasktypes.gf_FinishedAt payload) = Some finishedAt ->
    UpdateGetGroupKeyRun tenantId (tasktypes.gf_GetGroupKeyRunId payload)
      (succeeded finishedAt (tasktypes.gf_GroupKey payload)) (repo w)
    = (Ok groupKeyRun, st1) ->
    GetWorkflowVersionById tenantId (dbsqlc.WorkflowVersionId groupKeyRun) st1
    = Ok version ->
    db.Concurrency version = None ->
    fst (handleGroupKeyRunFinished task w)
    = Panic "invalid memory address or nil pointer dereference"
    /\ is_Ok (fst (handleGroupKeyRunFinished task w)) = false.
Proof.
  intros task w payload tenantId finishedAt groupKeyRun st1 version
    Hp Hm Ht Hupd Hver Hnone.
  set (patch := succeeded finishedAt (tasktypes.gf_GroupKey payload)).
  set (w1 := setRepo st1
               (log (EvUpdateGetGroupKeyRun tenantId
                       (tasktypes.gf_GetGroupKeyRunId payload) patch) w)).
  set (admits := admission tenantId (tasktypes.gf_GroupKey payload) groupKeyRun).
  set (cancel := cancelTimeout groupKeyRun).
  assert (Hstep : handleGroupKeyRunFinished task w
                  = errgroup_Wait [admits; cancel] w1).
  { unfold handleGroupKeyRunFinished, time_Parse.
    unfold bind at 1. unfold wrap at 1. unfold lift at 1. rewrite Hp.
    unfold bind at 1. unfold wrap at 1. unfold lift at 1. rewrite Hm.
    unfold bind at 1. unfold wrap at 1. rewrite Ht.
    unfold ret at 1. unfold bind at 1. unfold wrap at 1.
    unfold repo_UpdateGetGroupKeyRun, update.
    fold (succeeded finishedAt (tasktypes.gf_GroupKey payload)).
    rewrite Hupd. reflexivity. }
  assert (Hadmit : forall v, repo v = st1 ->
            fst (admits v)
            = Panic "invalid memory address or nil pointer dereference").
  { intros v Hv. subst admits. unfold admission, bind, wrap,
      repo_GetWorkflowVersionById, query. rewrite Hv, Hver, Hnone.
    reflexivity. }
  assert (H : fst (handleGroupKeyRunFinished task w)
              = Panic "invalid memory address or nil pointer dereference").
  { rewrite Hstep. unfold errgroup_Wait.
    destruct (Permutation_length_2_inv
                (Permutation_sym (completion_Permutation _ (trace w1)
                                    [admits; cancel]))) as [Horder|Horder];
      rewrite Horder; simpl.
    - pose proof (Hadmit w1 eq_refl) as Hpanic.
      destruct (admits w1) as [o v]. simpl in Hpanic. subst o. reflexivity.
    - destruct (cancelTimeout_sends groupKeyRun w1) as [[r Hr] [_ Hrepo]].
      fold cancel in Hr, Hrepo.
      pose proof (Hadmit (snd (cancel w1)) Hrepo) as Hpanic.
      destruct (cancel w1) as [o v]. simpl in *. subst o.
      destruct (admits v) as [o' v']. simpl in Hpanic. subst o'.
      destruct r as [[]|e]; reflexivity. }
  rewrite H. auto.
Qed.

(** ** CANCEL_IN_PROGRESS *)

Lemma cancelLoop_firstn tenantId rows i lenQueued g :
  cancelLoop tenantId rows i lenQueued g
  = g ++ map (cancelOne tenantId) (firstn (Z.to_nat (lenQueued - i)) rows).
Proof.
  revert i g. induction rows as [|row rest IH]; intros i g; simpl.
  - rewrite firstn_nil, app_nil_r. reflexivity.
  - destruct (Z.geb_spec i lenQueued) as [Hge|Hlt].
    + replace (Z.to_nat (lenQueued - i)) with O by lia.
      simpl. rewrite app_nil_r. reflexivity.
    + rewrite IH. unfold errgroup_Go. rewrite <- app_assoc. simpl.
      replace (Z.to_nat (lenQueued - i))
        with (S (Z.to_nat (lenQueued - (i + 1)))) by lia.
      reflexivity.
Qed.

(** C1, as amended.  Under CANCEL_IN_PROGRESS, let [running] be what
    the store returns for the RUNNING runs of (workflow version, group
    key), oldest first, and [queued] what it returns for the QUEUED
    ones, oldest first, limit [max_runs].  The engine runs cancel-run on
    exactly the [k = min(|running|, |queued|)] first entries of
    [running].  When all of these have returned without error it
    releases exactly the first [min(max_runs, |queued|)] entries of
    [queued]: it fetches each and sends one message per JobRun on
    [JOB_PROCESSING_QUEUE].  When one of them has failed it releases
    nothing.  It makes no other call, the calls of the release come
    after those of the cancellations, and the store is not written.
    This holds in every order in which the goroutines complete. *)
Theorem queueByCancelInProgress_cancels_then_releases :
  forall (tenantId groupKey : string)
         (workflowVersion : db.WorkflowVersionModel)
         (concurrency : db.WorkflowConcurrencyModel)
         (running queued : list dbsqlc.WorkflowRun) (w : World),
    db.Concurrency workflowVersion = Some concurrency ->
    let runningOf :=
      oldestFirst (db.WorkflowVersionID concurrency) groupKey
        db.WorkflowRunStatusRunning None in
    let queuedOf :=
      oldestFirst (db.WorkflowVersionID concurrency) groupKey
        db.WorkflowRunStatusQueued (Some (db.MaxRuns concurrency)) in
    ListWorkflowRuns tenantId runningOf (repo w) = Ok running ->
    ListWorkflowRuns tenantId queuedOf (repo w) = Ok queued ->
    let k := Nat.min (length running) (length queued) in
    let n := Z.to_nat (Z.min (db.MaxRuns concurrency)
                             (Z.of_nat (length queued))) in
    let cancelled := firstn k running in
    let released := firstn n queued in
    let w0 :=
      log (EvListWorkflowRuns tenantId queuedOf)
        (log (EvListWorkflowRuns tenantId runningOf) w) in
    let cancelling :=
      errgroup_Wait
        (map (fun row => cancelWorkflowRun tenantId (dbsqlc.wr_ID row))
             cancelled) in
    let w' := snd (queueByCancelInProgress tenantId groupKey workflowVersion w) in
    queueByCancelInProgress tenantId groupKey workflowVersion w
    = (let* _ := wrap "could not cancel workflow runs" cancelling in
       let* _ := wrap "could not queue workflow runs"
                   (errgroup_Wait (map (releaseOne tenantId) released)) in
       ret tt) w0
    /\ (exists cancels releases,
          newEvents w0 w' = cancels ++ releases
          /\ Permutation cancels
               (flat_map (fun row =>
                  cancelCalls tenantId (repo w) (dbsqlc.wr_ID row)) cancelled)
          /\ Permutation releases
               (if is_Ok (fst (cancelling w0))
                then flat_map (fun row =>
                       releaseCalls tenantId (repo w) (dbsqlc.wr_ID row))
                     released
                else []))
    /\ (is_Ok (fst (cancelling w0)) = false ->
        is_Ok (fst (queueByCancelInProgress tenantId groupKey
                      workflowVersion w)) = false)
    /\ repo w' = repo w.
Proof.
  intros tenantId groupKey workflowVersion concurrency running queued w
    Hc runningOf queuedOf Hrun Hqueued k n cancelled released w0 cancelling w'.
  assert (Heq : queueByCancelInProgress tenantId groupKey workflowVersion w
    = (let* _ := wrap "could not cancel workflow runs" cancelling in
       let* _ := wrap "could not queue workflow runs"
                   (errgroup_Wait (map (releaseOne tenantId) released)) in
       ret tt) w0).
  { unfold queueByCancelInProgress. rewrite Hc.
    change (listRunningOpts concurrency groupKey) with runningOf.
    change (listQueuedOpts concurrency groupKey) with queuedOf.
    unfold bind at 1. unfold wrap at 1.
    unfold repo_ListWorkflowRuns at 1. unfold query. rewrite Hrun.
    unfold bind at 1. unfold wrap at 1.
    unfold repo_ListWorkflowRuns at 1. unfold query.
    change (repo (log _ w)) with (repo w). rewrite Hqueued.
    rewrite cancelLoop_firstn, queueLoop_firstn. simpl app.
    rewrite !Z.sub_0_r, Nat2Z.id.
    rewrite (firstn_min running (length queued)).
    reflexivity. }
  split; [exact Heq|].
  subst w'. rewrite Heq. clear Heq.
  destruct (errgroup_Wait_makes
              (fun row => cancelWorkflowRun tenantId (dbsqlc.wr_ID row))
              (fun st row => cancelCalls tenantId st (dbsqlc.wr_ID row))
              (fun row w => cancelWorkflowRun_makes tenantId _ w)
              cancelled w0) as [[r1 Hr1] [Hrepo1 [made1 [Htrace1 Hperm1]]]].
  fold cancelling in Hr1, Hrepo1, Htrace1.
  unfold bind, wrap, ret.
  destruct (cancelling w0) as [o1 w1]. simpl in Hr1, Hrepo1, Htrace1.
  subst o1. change (repo w0) with (repo w) in *.
  destruct r1 as [[]|e1]; simpl.
  - destruct (errgroup_Wait_makes (releaseOne tenantId)
                (fun st row => releaseCalls tenantId st (dbsqlc.wr_ID row))
                (fun row w => reads_makes _ _ _ (releaseOne_reads tenantId row w))
                released w1) as [[r2 Hr2] [Hrepo2 [made2 [Htrace2 Hperm2]]]].
    destruct (errgroup_Wait (map (releaseOne tenantId) released) w1)
      as [o2 w2]. simpl in Hr2, Hrepo2, Htrace2. subst o2.
    rewrite Hrepo1 in *.
    assert (Hnew : newEvents w0 w2 = made1 ++ made2).
    { apply newEvents_app. rewrite Htrace2, Htrace1, <- app_assoc.
      reflexivity. }
    destruct r2 as [[]|e2]; simpl;
      (split; [exists made1, made2; auto|]; split; [discriminate|assumption]).
  - split; [|split; [reflexivity|exact Hrepo1]].
    exists made1, []. split; [|split; [exact Hperm1|reflexivity]].
    apply newEvents_app. rewrite Htrace1, app_nil_r. reflexivity.
Qed.

(** ** What a handler leaves in the store *)

Section Popping.

(** A part of the store that the round-robin pop does not touch. *)
Context {V : Type} (view : Store -> V).

Hypothesis pop_view :
  forall tenantId versionId maxRuns st,
    view (snd (PopWorkflowRunsRoundRobin tenantId versionId maxRuns st))
    = view st.

Lemma popsAtMost_refl w : popsAtMost view w w.
Proof. exists []. rewrite app_nil_r. auto. Qed.

Lemma popsAtMost_trans w1 w2 w3 :
  popsAtMost view w1 w2 -> popsAtMost view w2 w3 -> popsAtMost view w1 w3.
Proof.
  intros [made1 [Ht1 [Hv1 Hr1]]] [made2 [Ht2 [Hv2 Hr2]]].
  exists (made1 ++ made2). split; [|split].
  - rewrite Ht2, Ht1, app_assoc. reflexivity.
  - congruence.
  - rewrite List.filter_app. intros Hnone.
    apply app_eq_nil in Hnone as [Hn1 Hn2].
    rewrite (Hr2 Hn2). exact (Hr1 Hn1).
Qed.

Lemma popsAtMost_log ev w : isPop ev = false -> popsAtMost view w (log ev w).
Proof.
  intros Hev. exists [ev]. simpl. rewrite Hev. auto.
Qed.

Lemma popsOnly_ret {A} (a : A) : popsOnly view (ret a).
Proof. intros w. apply popsAtMost_refl. Qed.

Lemma popsOnly_throw {A} e : popsOnly view (@throw _ _ _ A e).
Proof. intros w. apply popsAtMost_refl. Qed.

Lemma popsOnly_panic {A} msg : popsOnly view (@panic _ _ _ A msg).
Proof. intros w. apply popsAtMost_refl. Qed.

Lemma popsOnly_query {A} ev (f : Store -> result A) :
  isPop ev = false -> popsOnly view (query ev f).
Proof. intros Hev w. apply popsAtMost_log, Hev. Qed.

Lemma popsOnly_onBus {A} ev (f : Bus -> result A * Bus) :
  isPop ev = false -> popsOnly view (onBus ev f).
Proof.
  intros Hev w. unfold onBus. destruct (f (mq w)) as [r b]. simpl.
  exists [ev]. simpl. rewrite Hev. auto.
Qed.

Lemma popsOnly_bind {A B} (m : M A) (f : A -> M B) :
  popsOnly view m -> (forall a, popsOnly view (f a)) ->
  popsOnly view (bind m f).
Proof.
  intros Hm Hf w. unfold bind. specialize (Hm w).
  destruct (m w) as [[[a|e]|msg] w1]; simpl in *; try exact Hm.
  exact (popsAtMost_trans _ _ _ Hm (Hf a w1)).
Qed.

Lemma popsOnly_wrap {A} msg (m : M A) :
  popsOnly view m -> popsOnly view (wrap msg m).
Proof.
  intros Hm w. unfold wrap. specialize (Hm w).
  destruct (m w) as [[[a|e]|msg'] w1]; exact Hm.
Qed.

Lemma popsOnly_errgroup_run (g : errgroup_Group) first :
  Forall (popsOnly view) g -> popsOnly view (errgroup_run g first).
Proof.
  intros Hg. revert first.
  induction Hg as [|f g Hf Hg IH]; intros first w; simpl.
  - destruct first; apply popsAtMost_refl.
  - specialize (Hf w).
    destruct (f w) as [[[[]|e]|msg] w1]; simpl in *;
      [exact (popsAtMost_trans _ _ _ Hf (IH _ w1))
      |exact (popsAtMost_trans _ _ _ Hf (IH _ w1))
      |exact Hf].
Qed.

Lemma popsOnly_Wait (g : errgroup_Group) :
  Forall (popsOnly view) g -> popsOnly view (errgroup_Wait g).
Proof.
  intros Hg w. unfold errgroup_Wait.
  apply popsOnly_errgroup_run, completion_Forall, Hg.
Qed.

Lemma popsOnly_group {A} (f : A -> M unit) (l : list A) :
  (forall x, popsOnly view (f x)) -> popsOnly view (errgroup_Wait (map f l)).
Proof.
  intros Hf. apply popsOnly_Wait, Forall_map, Forall_forall.
  intros x _. apply Hf.
Qed.

Lemma popsOnly_makes {A} (c : M A) (calls : World -> list Event) :
  (forall w, makes c w (calls w)) -> popsOnly view c.
Proof.
  intros H w. destruct (H w) as [_ [Hrepo [made [Htrace _]]]].
  exists made. rewrite Hrepo. auto.
Qed.

Lemma popsOnly_pop tenantId versionId maxRuns :
  popsOnly view (repo_PopWorkflowRunsRoundRobin tenantId versionId maxRuns).
Proof using pop_view.
  intros w. unfold repo_PopWorkflowRunsRoundRobin, update.
  specialize (pop_view tenantId versionId maxRuns (repo w)).
  destruct (PopWorkflowRunsRoundRobin tenantId versionId maxRuns (repo w))
    as [r st1]. simpl in *.
  exists [EvPopWorkflowRunsRoundRobin tenantId versionId maxRuns].
  split; [reflexivity|]. split; [exact pop_view|]. discriminate.
Qed.

Lemma popsOnly_cancelWorkflowRun tenantId workflowRunId :
  popsOnly view (cancelWorkflowRun tenantId workflowRunId).
Proof.
  apply (popsOnly_makes _
           (fun w => cancelCalls tenantId (repo w) workflowRunId)).
  apply cancelWorkflowRun_makes.
Qed.

Lemma popsOnly_releaseOne tenantId row :
  popsOnly view (releaseOne tenantId row).
Proof.
  apply (popsOnly_makes _
           (fun w => releaseCalls tenantId (repo w) (dbsqlc.wr_ID row))).
  intros w. apply reads_makes, releaseOne_reads.
Qed.

Lemma popsOnly_queueByCancelInProgress tenantId groupKey version :
  popsOnly view (queueByCancelInProgress tenantId groupKey version).
Proof.
  unfold queueByCancelInProgress.
  destruct (db.Concurrency version) as [concurrency|]; [|apply popsOnly_ret].
  apply popsOnly_bind; [apply popsOnly_wrap, popsOnly_query; reflexivity|].
  intros running.
  apply popsOnly_bind; [apply popsOnly_wrap, popsOnly_query; reflexivity|].
  intros queued.
  rewrite cancelLoop_firstn, queueLoop_firstn. simpl app.
  apply popsOnly_bind.
  { apply popsOnly_wrap, popsOnly_group.
    intros row. apply popsOnly_cancelWorkflowRun. }
  intros _. apply popsOnly_bind; [|intros; apply popsOnly_ret].
  apply popsOnly_wrap, popsOnly_group. intros row. apply popsOnly_releaseOne.
Qed.

Lemma popsOnly_queueByGroupRoundRobin tenantId version :
  popsOnly view (queueByGroupRoundRobin tenantId version).
Proof using pop_view.
  unfold queueByGroupRoundRobin.
  destruct (db.Concurrency version) as [concurrency|]; [|apply popsOnly_ret].
  apply popsOnly_bind; [apply popsOnly_wrap, popsOnly_pop|].
  intros popped. apply popsOnly_bind; [|intros; apply popsOnly_ret].
  rewrite fold_Go_map. simpl app.
  apply popsOnly_wrap, popsOnly_group. intros row. apply popsOnly_releaseOne.
Qed.

Lemma popsOnly_admission tenantId groupKey groupKeyRun :
  popsOnly view (admission tenantId groupKey groupKeyRun).
Proof using pop_view.
  unfold admission.
  apply popsOnly_bind; [apply popsOnly_wrap, popsOnly_query; reflexivity|].
  intros version.
  destruct (db.Concurrency version) as [concurrency|]; [|apply popsOnly_panic].
  destruct (db.LimitStrategy concurrency).
  - apply popsOnly_queueByCancelInProgress.
  - apply popsOnly_queueByGroupRoundRobin.
  - apply popsOnly_throw.
Qed.

Lemma popsOnly_cancelTimeout groupKeyRun :
  popsOnly view (cancelTimeout groupKeyRun).
Proof. apply popsOnly_wrap, popsOnly_onBus. reflexivity. Qed.

(** A delivery of get-group-key-run-finished writes what the message
    asks for; after that the store is written by round-robin pops
    only. *)
Lemma handleGroupKeyRunFinished_store task w :
  let w' := snd (handleGroupKeyRunFinished task w) in
  exists made,
    trace w' = trace w ++ made
    /\ view (repo w') = view (written (finishedWrite task) (repo w))
    /\ (List.filter isPop made = [] ->
        repo w' = written (finishedWrite task) (repo w)).
Proof using pop_view.
  intros w'. subst w'. unfold finishedWrite, written.
  destruct (tasktypes.decodeFinished (msgqueue.Payload task))
    as [payload|e] eqn:Hp.
  2: { assert (Hstep : snd (handleGroupKeyRunFinished task w) = w)
         by (unfold handleGroupKeyRunFinished, bind, wrap, lift;
             rewrite Hp; reflexivity).
       rewrite Hstep. exists []. rewrite app_nil_r. auto. }
  destruct (tasktypes.decodeTenantId (msgqueue.Metadata task))
    as [tenantId|e] eqn:Hm.
  2: { assert (Hstep : snd (handleGroupKeyRunFinished task w) = w)
         by (unfold handleGroupKeyRunFinished, bind, wrap, lift;
             rewrite Hp, Hm; reflexivity).
       rewrite Hstep. exists []. rewrite app_nil_r. auto. }
  destruct (time_ParseRFC3339 (tasktypes.gf_FinishedAt payload))
    as [finishedAt|] eqn:Ht.
  2: { assert (Hstep : snd (handleGroupKeyRunFinished task w) = w)
         by (unfold handleGroupKeyRunFinished, bind, wrap, lift, time_Parse;
             rewrite Hp, Hm, Ht; reflexivity).
       rewrite Hstep. exists []. rewrite app_nil_r. auto. }
  set (id := tasktypes.gf_GetGroupKeyRunId payload).
  set (patch := succeeded finishedAt (tasktypes.gf_GroupKey payload)).
  set (w1 := setRepo (snd (UpdateGetGroupKeyRun tenantId id patch (repo w)))
               (log (EvUpdateGetGroupKeyRun tenantId id patch) w)).
  assert (Hstep : handleGroupKeyRunFinished task w
    = match fst (UpdateGetGroupKeyRun tenantId id patch (repo w)) with
      | Ok groupKeyRun =>
          errgroup_Wait
            [admission tenantId (tasktypes.gf_GroupKey payload) groupKeyRun;
             cancelTimeout groupKeyRun] w1
      | Err e => (Return (Err (ErrWrap "could not update group key run" e)), w1)
      end).
  { unfold handleGroupKeyRunFinished, time_Parse.
    unfold bind at 1. unfold wrap at 1. unfold lift at 1. rewrite Hp.
    unfold bind at 1. unfold wrap at 1. unfold lift at 1. rewrite Hm.
    unfold bind at 1. unfold wrap at 1. rewrite Ht.
    unfold ret at 1. unfold bind at 1. unfold wrap at 1.
    unfold repo_UpdateGetGroupKeyRun, update.
    fold (succeeded finishedAt (tasktypes.gf_GroupKey payload)).
    fold id. fold patch. subst w1.
    destruct (UpdateGetGroupKeyRun tenantId id patch (repo w))
      as [[groupKeyRun|e] st1]; reflexivity. }
  rewrite Hstep. clear Hstep.
  destruct (fst (UpdateGetGroupKeyRun tenantId id patch (repo w)))
    as [groupKeyRun|e].
  - destruct (popsOnly_Wait
                [admission tenantId (tasktypes.gf_GroupKey payload) groupKeyRun;
                 cancelTimeout groupKeyRun]
                ltac:(repeat constructor;
                      [apply popsOnly_admission | apply popsOnly_cancelTimeout])
                w1) as [made [Htrace [Hview Hrepo]]].
    exists (EvUpdateGetGroupKeyRun tenantId id patch :: made).
    split; [|split].
    + rewrite Htrace. subst w1. simpl. rewrite <- app_assoc. reflexivity.
    + exact Hview.
    + simpl. exact Hrepo.
  - exists [EvUpdateGetGroupKeyRun tenantId id patch]. simpl. auto.
Qed.

(** A delivery of get-group-key-run-failed writes what the message
    asks for and nothing else. *)
Lemma handleGroupKeyRunFailed_store task w :
  repo (snd (handleGroupKeyRunFailed task w))
  = written (failedWrite task) (repo w).
Proof.
  unfold handleGroupKeyRunFailed, failedWrite, written, time_Parse.
  unfold bind at 1. unfold wrap at 1. unfold lift at 1.
  destruct (tasktypes.decodeFailed (msgqueue.Payload task))
    as [payload|e]; [|reflexivity].
  unfold bind at 1. unfold wrap at 1. unfold lift at 1.
  destruct (tasktypes.decodeTenantId (msgqueue.Metadata task))
    as [tenantId|e]; [|reflexivity].
  unfold bind at 1. unfold wrap at 1.
  destruct (time_ParseRFC3339 (tasktypes.gx_FailedAt payload))
    as [failedAt|]; [|reflexivity].
  unfold ret at 1. unfold bind at 1. unfold wrap at 1.
  unfold repo_UpdateGetGroupKeyRun, update.
  fold (failed failedAt (tasktypes.gx_Error payload)).
  destruct (UpdateGetGroupKeyRun tenantId _ _ (repo w))
    as [[groupKeyRun|e] st1]; [|reflexivity].
  simpl snd. unfold cancelTimeout, bind, wrap, mq_AddMessage, onBus, ret.
  simpl. destruct (AddMessage _ _ (mq w)) as [[[]|e] b]; reflexivity.
Qed.

End Popping.

Lemma appends_handleGroupKeyRunFailed task w :
  exists made, trace (snd (handleGroupKeyRunFailed task w)) = trace w ++ made.
Proof.
  unfold handleGroupKeyRunFailed, time_Parse, cancelTimeout, bind, wrap, lift,
    ret, repo_UpdateGetGroupKeyRun, update, mq_AddMessage, onBus.
  destruct (tasktypes.decodeFailed (msgqueue.Payload task))
    as [payload|e]; [|exists []; rewrite app_nil_r; reflexivity].
  destruct (tasktypes.decodeTenantId (msgqueue.Metadata task))
    as [tenantId|e]; [|exists []; rewrite app_nil_r; reflexivity].
  destruct (time_ParseRFC3339 (tasktypes.gx_FailedAt payload))
    as [failedAt|]; [|exists []; rewrite app_nil_r; reflexivity].
  destruct (UpdateGetGroupKeyRun tenantId _ _ (repo w))
    as [[groupKeyRun|e] st1]; simpl; [|eexists; reflexivity].
  destruct (AddMessage _ _ (mq w)) as [[[]|e] b]; simpl;
    eexists; rewrite <- app_assoc; reflexivity.
Qed.

End AnyOrder.

(** * The store of the specification and duplicate deliveries *)

Section Duplicates.

Context {Q : MessageQueue} {G : Scheduler}.
Context {T : GoTime} {D : Defaults} {TT : TaskTypes}.
Context {GR : Goroutines}.

#[local] Existing Instance specRepository.

Lemma orElse_twice {A} (new old : option A) :
  store.orElse new (store.orElse new old) = store.orElse new old.
Proof. destruct new; reflexivity. Qed.

Lemma setFields_twice p status g :
  store.setFields p status (store.setFields p status g)
  = store.setFields p status g.
Proof.
  unfold store.setFields. simpl. rewrite !orElse_twice. reflexivity.
Qed.

Lemma applyPatch_terminal p g status :
  store.terminal (dbsqlc.Status g) = true ->
  repository.Status p = Some status ->
  store.terminal status = true ->
  store.applyPatch p g = g.
Proof.
  intros Hg Hp Hs. unfold store.applyPatch. rewrite Hg, Hp, Hs. reflexivity.
Qed.

Lemma applyPatch_twice p g :
  store.applyPatch p (store.applyPatch p g) = store.applyPatch p g.
Proof.
  destruct (store.terminal (dbsqlc.Status g)) eqn:Hg.
  - destruct (repository.Status p) as [status|] eqn:Hp.
    + destruct (store.terminal status) eqn:Hs.
      * rewrite !(applyPatch_terminal p g status Hg Hp Hs). reflexivity.
      * unfold store.applyPatch. rewrite Hg, Hp, Hs. simpl.
        rewrite ?Hg, ?Hp, ?Hs. apply setFields_twice.
    + unfold store.applyPatch. rewrite Hg, Hp. simpl.
      rewrite ?Hg, ?Hp. apply setFields_twice.
  - unfold store.applyPatch. rewrite Hg. simpl.
    destruct (repository.Status p) as [status|] eqn:Hp; simpl.
    + destruct (store.terminal status) eqn:Hs; [reflexivity|].
      apply setFields_twice.
    + rewrite ?Hg. apply setFields_twice.
Qed.

Lemma applyPatch_TenantId p g :
  dbsqlc.TenantId (store.applyPatch p g) = dbsqlc.TenantId g.
Proof.
  unfold store.applyPatch.
  destruct (store.terminal (dbsqlc.Status g));
    [destruct (repository.Status p) as [status|];
     [destruct (store.terminal status)|]|]; reflexivity.
Qed.

Lemma withRun_twice p row :
  store.withRun (store.applyPatch p) (store.withRun (store.applyPatch p) row)
  = store.withRun (store.applyPatch p) row.
Proof. unfold store.withRun. simpl. rewrite applyPatch_twice. reflexivity. Qed.

Lemma setGkrs_same st : store.setGkrs (store.gkrs st) st = st.
Proof. destruct st. reflexivity. Qed.

Lemma updateGetGroupKeyRun_twice tenantId id p st :
  snd (store.updateGetGroupKeyRun tenantId id p
         (snd (store.updateGetGroupKeyRun tenantId id p st)))
  = snd (store.updateGetGroupKeyRun tenantId id p st).
Proof.
  unfold store.updateGetGroupKeyRun at 2.
  destruct (store.findGkr tenantId id st) as [row|] eqn:Hfind; simpl.
  - unfold store.updateGetGroupKeyRun, store.findGkr. simpl.
    rewrite lookup_insert_eq.
    unfold store.findGkr in Hfind.
    destruct (store.gkrs st !! id) as [row0|]; [|discriminate].
    destruct (String.eqb (store.tenantOf row0) tenantId) eqn:Ht;
      [|discriminate].
    injection Hfind as ->.
    unfold store.tenantOf in *. simpl. rewrite applyPatch_TenantId, Ht.
    simpl. rewrite withRun_twice, insert_insert_eq. reflexivity.
  - unfold store.updateGetGroupKeyRun. rewrite Hfind. reflexivity.
Qed.

Lemma updateGetGroupKeyRun_terminal tenantId id p st row status :
  store.gkrs st !! id = Some row ->
  store.terminal (store.statusOf row) = true ->
  repository.Status p = Some status ->
  store.terminal status = true ->
  snd (store.updateGetGroupKeyRun tenantId id p st) = st.
Proof.
  intros Hrow Hterm Hp Hs.
  unfold store.updateGetGroupKeyRun, store.findGkr. rewrite Hrow.
  destruct (String.eqb (store.tenantOf row) tenantId); [|reflexivity].
  simpl. unfold store.withRun.
  rewrite (applyPatch_terminal p _ status Hterm Hp Hs).
  destruct row as [[g wr wv] action]. simpl.
  rewrite insert_id by exact Hrow. apply setGkrs_same.
Qed.

Lemma written_twice write (st : store.State) :
  written write (written write st) = written write st.
Proof.
  destruct write as [[[tenantId id] p]|]; simpl; [|reflexivity].
  apply updateGetGroupKeyRun_twice.
Qed.

(** The update reads and writes the group-key runs only. *)
Lemma written_setGkrs write (st : store.State) :
  written write st = store.setGkrs (store.gkrs (written write st)) st.
Proof.
  destruct write as [[[tenantId id] p]|]; simpl;
    [|symmetry; apply setGkrs_same].
  unfold store.updateGetGroupKeyRun.
  destruct (store.findGkr tenantId id st) as [row|]; simpl;
    [reflexivity|symmetry; apply setGkrs_same].
Qed.

Lemma written_gkrs write (st st' : store.State) :
  store.gkrs st = store.gkrs st' ->
  store.gkrs (written write st) = store.gkrs (written write st').
Proof.
  intros Hsame. destruct write as [[[tenantId id] p]|]; simpl; [|exact Hsame].
  unfold store.updateGetGroupKeyRun, store.findGkr. rewrite Hsame.
  destruct (store.gkrs st' !! id) as [row|]; [|exact Hsame].
  destruct (String.eqb (store.tenantOf row) tenantId); simpl;
    [reflexivity|exact Hsame].
Qed.

Lemma besidesRuns_gkrs (st st' : store.State) :
  store.besidesRuns st = store.besidesRuns st' ->
  store.gkrs st = store.gkrs st'.
Proof.
  intros H. change (store.gkrs (store.besidesRuns st)
                    = store.gkrs (store.besidesRuns st')).
  rewrite H. reflexivity.
Qed.

Lemma written_besidesRuns write (st : store.State) :
  store.besidesRuns (written write st) = written write (store.besidesRuns st).
Proof.
  rewrite (written_setGkrs write st).
  rewrite (written_setGkrs write (store.besidesRuns st)).
  rewrite (written_gkrs write (store.besidesRuns st) st) by reflexivity.
  reflexivity.
Qed.

(** Once the write of a message has been made, making it again changes
    nothing, whatever happened to the workflow runs in between. *)
Lemma written_settled write (st st0 : store.State) :
  store.besidesRuns st = store.besidesRuns (written write st0) ->
  written write st = st.
Proof.
  intros Hsame. apply besidesRuns_gkrs in Hsame.
  rewrite (written_setGkrs write st).
  rewrite (written_gkrs write st _ Hsame).
  rewrite written_twice, <- Hsame. apply setGkrs_same.
Qed.

(** The pop takes runs out of the queue and touches nothing else. *)
Lemma pop_besidesRuns tenantId versionId maxRuns (st : store.State) :
  store.besidesRuns
    (snd (PopWorkflowRunsRoundRobin tenantId versionId maxRuns st))
  = store.besidesRuns st.
Proof. reflexivity. Qed.

Lemma decodeFinished_id m payload :
  tasktypes.decodeFinished m = Ok payload ->
  m !! "get_group_key_run_id" = Some (tasktypes.gf_GetGroupKeyRunId payload).
Proof.
  unfold tasktypes.decodeFinished, tasktypes.andThen, tasktypes.field.
  destruct (m !! "get_group_key_run_id"); [|discriminate].
  destruct (m !! "finished_at"); [|discriminate].
  destruct (m !! "group_key"); [|discriminate].
  intros H. injection H as <-. reflexivity.
Qed.

Lemma decodeFailed_id m payload :
  tasktypes.decodeFailed m = Ok payload ->
  m !! "get_group_key_run_id" = Some (tasktypes.gx_GetGroupKeyRunId payload).
Proof.
  unfold tasktypes.decodeFailed, tasktypes.andThen, tasktypes.field.
  destruct (m !! "get_group_key_run_id"); [|discriminate].
  destruct (m !! "failed_at"); [|discriminate].
  destruct (m !! "error"); [|discriminate].
  intros H. injection H as <-. reflexivity.
Qed.

(** What a delivery of a terminal-state message leaves in the store. *)
Lemma handleTask_store task :
  msgqueue.ID task = "get-group-key-run-finished"
  \/ msgqueue.ID task = "get-group-key-run-failed" ->
  exists write,
    (forall v : World,
       exists made,
         trace (snd (handleTask task v)) = trace v ++ made
         /\ store.besidesRuns (repo (snd (handleTask task v)))
            = store.besidesRuns (written write (repo v))
         /\ (List.filter isPop made = [] ->
             repo (snd (handleTask task v)) = written write (repo v)))
    /\ forall tenantId id p,
         write = Some (tenantId, id, p) ->
         msgqueue.Payload task !! "get_group_key_run_id" = Some id
         /\ exists status,
              repository.Status p = Some status
              /\ store.terminal status = true.
Proof.
  intros [Hid|Hid].
  - exists (finishedWrite task). split.
    + intros v. unfold handleTask. rewrite Hid. simpl.
      apply (handleGroupKeyRunFinished_store (R := specRepository)
               store.besidesRuns pop_besidesRuns task v).
    + unfold finishedWrite. intros tenantId id p.
      destruct (tasktypes.decodeFinished (msgqueue.Payload task))
        as [payload|e] eqn:Hp; [|discriminate].
      destruct (tasktypes.decodeTenantId (msgqueue.Metadata task));
        [|discriminate].
      destruct (time_ParseRFC3339 _); [|discriminate].
      intros H. injection H as <- <- <-.
      split; [apply decodeFinished_id; exact Hp|].
      exists db.StepRunStatusSucceeded. split; reflexivity.
  - exists (failedWrite task). split.
    + intros v. unfold handleTask. rewrite Hid. simpl.
      pose proof (appends_handleGroupKeyRunFailed task v) as [made Hmade].
      exists made. split; [exact Hmade|].
      rewrite (handleGroupKeyRunFailed_store (R := specRepository)). auto.
    + unfold failedWrite. intros tenantId id p.
      destruct (tasktypes.decodeFailed (msgqueue.Payload task))
        as [payload|e] eqn:Hp; [|discriminate].
      destruct (tasktypes.decodeTenantId (msgqueue.Metadata task));
        [|discriminate].
      destruct (time_ParseRFC3339 _); [|discriminate].
      intros H. injection H as <- <- <-.
      split; [apply decodeFailed_id; exact Hp|].
      exists db.StepRunStatusFailed. split; reflexivity.
Qed.

(** C9, as amended.  On the store of the specification, for every
    get-group-key-run-finished and get-group-key-run-failed message,
    every world and every completion order: after two deliveries
    everything in the store besides the workflow runs is as after one,
    and so are the workflow runs unless the second delivery makes a
    round-robin pop; a get-group-key-run-failed message never does.
    When the group-key run the message names is already SUCCEEDED,
    FAILED or CANCELLED, one delivery leaves the store as it was, again
    up to the workflow runs a round-robin pop takes out of the queue. *)
Theorem duplicate_terminal_delivery :
  forall (task : msgqueue.Message) (w : World),
    msgqueue.ID task = "get-group-key-run-finished"
    \/ msgqueue.ID task = "get-group-key-run-failed" ->
    let once := snd (handleTask task w) in
    let twice := snd (handleTask task once) in
    store.besidesRuns (repo twice) = store.besidesRuns (repo once)
    /\ (List.filter isPop (newEvents once twice) = [] ->
        repo twice = repo once)
    /\ (msgqueue.ID task = "get-group-key-run-failed" ->
        repo twice = repo once)
    /\ forall (id : string) (row : store.GroupKeyRunRow),
         msgqueue.Payload task !! "get_group_key_run_id" = Some id ->
         store.gkrs (repo w) !! id = Some row ->
         store.terminal (store.statusOf row) = true ->
         store.besidesRuns (repo once) = store.besidesRuns (repo w)
         /\ (List.filter isPop (newEvents w once) = [] -> repo once = repo w).
Proof.
  intros task w Hid once twice.
  destruct (handleTask_store task Hid) as [write [Hstore Hwrite]].
  destruct (Hstore w) as [made1 [Htrace1 [Hview1 Hrepo1]]].
  destruct (Hstore once) as [made2 [Htrace2 [Hview2 Hrepo2]]].
  fold once in Htrace1, Hview1, Hrepo1.
  fold twice in Htrace2, Hview2, Hrepo2.
  assert (Hnew1 : newEvents w once = made1)
    by (apply newEvents_app; exact Htrace1).
  assert (Hnew2 : newEvents once twice = made2)
    by (apply newEvents_app; exact Htrace2).
  assert (Hsettled : written write (repo once) = repo once)
    by (apply (written_settled write (repo once) (repo w)); exact Hview1).
  split; [|split; [|split]].
  - rewrite Hview2, Hsettled. reflexivity.
  - rewrite Hnew2. intros Hnone. rewrite (Hrepo2 Hnone). exact Hsettled.
  - intros Hfailed. subst once twice. unfold handleTask in *.
    rewrite Hfailed in *. simpl in *.
    rewrite (handleGroupKeyRunFailed_store (R := specRepository)).
    apply (written_settled _ _ (repo w)).
    rewrite (handleGroupKeyRunFailed_store (R := specRepository)).
    reflexivity.
  - intros id row Hpayload Hrow Hterm.
    assert (Hnoop : written write (repo w) = repo w).
    { destruct write as [[[tenantId id'] p]|]; [|reflexivity].
      destruct (Hwrite tenantId id' p eq_refl) as [Hid' [status [Hp Hs]]].
      assert (id' = id) by congruence. subst id'. simpl.
      exact (updateGetGroupKeyRun_terminal tenantId id p (repo w) row status
               Hrow Hterm Hp Hs). }
    split.
    + rewrite Hview1, Hnoop. reflexivity.
    + rewrite Hnew1. intros Hnone. rewrite (Hrepo1 Hnone). exact Hnoop.
Qed.

End Duplicates.

(** * The properties on the small deployment *)

Section Deployment.

#[local] Existing Instance launchOrder.

#[local] Existing Instance specRepository.
#[local] Existing Instance scriptedBus.
#[local] Existing Instance scriptedCron.
#[local] Existing Instance decimalTime.
#[local] Existing Instance sixtySeconds.
#[local] Existing Instance specTaskTypes.

(** Scenario S3 among other runs: group G has r1 (older) and r2
    running and q1, q2 queued, [max_runs = 1].  The queries return r1,
    r2 and q1 alone; r1 is cancelled, one message per running step of
    r1; q1's two job runs are queued; r2 and q2 are not touched. *)
Lemma cancel_in_progress_scenario :
  let w := demo.busy in
  let running := [{| dbsqlc.wr_ID := "r1"; dbsqlc.wr_CreatedAt := 10 |};
                  {| dbsqlc.wr_ID := "r2"; dbsqlc.wr_CreatedAt := 20 |}] in
  let queued := [{| dbsqlc.wr_ID := "q1"; dbsqlc.wr_CreatedAt := 30 |}] in
  let runningOf := oldestFirst "wv-cip" "G" db.WorkflowRunStatusRunning None in
  let queuedOf :=
    oldestFirst "wv-cip" "G" db.WorkflowRunStatusQueued (Some 1) in
  let w0 :=
    log (EvListWorkflowRuns demo.tenant queuedOf)
      (log (EvListWorkflowRuns demo.tenant runningOf) w) in
  let w' := snd (queueByCancelInProgress demo.tenant "G" demo.versionCip w) in
  db.Concurrency demo.versionCip = Some demo.cip
  /\ ListWorkflowRuns demo.tenant runningOf (repo w) = Ok running
  /\ ListWorkflowRuns demo.tenant queuedOf (repo w) = Ok queued
  /\ (exists cancels releases,
        newEvents w0 w' = cancels ++ releases
        /\ Permutation cancels
             [EvGetWorkflowRunById demo.tenant "r1";
              EvListStepRuns demo.tenant (runningStepRuns "r1");
              cancelSend demo.tenant {| db.sr_ID := "s1" |};
              cancelSend demo.tenant {| db.sr_ID := "s2" |}]
        /\ Permutation releases
             [EvGetWorkflowRunById demo.tenant "q1";
              jobSend (demo.jobRun "q1-j1");
              jobSend (demo.jobRun "q1-j2")])
  /\ repo w' = repo w.
Proof.
  intros w running queued runningOf queuedOf w0 w'.
  assert (H1 : db.Concurrency demo.versionCip = Some demo.cip)
    by reflexivity.
  assert (H2 : ListWorkflowRuns demo.tenant runningOf (repo w) = Ok running)
    by (vm_compute; reflexivity).
  assert (H3 : ListWorkflowRuns demo.tenant queuedOf (repo w) = Ok queued)
    by (vm_compute; reflexivity).
  destruct (queueByCancelInProgress_cancels_then_releases
              demo.tenant "G" demo.versionCip demo.cip running queued
              w H1 H2 H3)
    as [_ [[cancels [releases [Hnew [Hcancels Hreleases]]]] [_ Hrepo]]].
  split; [exact H1|]. split; [exact H2|]. split; [exact H3|].
  split; [|exact Hrepo].
  exists cancels, releases. split; [exact Hnew|].
  split; [rewrite Hcancels; vm_compute; reflexivity|].
  match type of Hreleases with
  | context [if ?ok then _ else _] =>
      assert (Hok : ok = true) by (vm_compute; reflexivity);
      rewrite Hok in Hreleases
  end.
  rewrite Hreleases. vm_compute. reflexivity.
Defined.

(** C1, the claim as the spec states it, on a bus that refuses the
    first send: the queries return r1, r2 and q1, so one run is to be
    released; the message for step run s1 of r1 is lost, and q1 is
    neither fetched nor released. *)
Lemma cancel_in_progress_without_release :
  let w := demo.busyFlaky in
  let runningOf := oldestFirst "wv-cip" "G" db.WorkflowRunStatusRunning None in
  let queuedOf :=
    oldestFirst "wv-cip" "G" db.WorkflowRunStatusQueued (Some 1) in
  let out := queueByCancelInProgress demo.tenant "G" demo.versionCip w in
  ListWorkflowRuns demo.tenant runningOf (repo w)
  = Ok [{| dbsqlc.wr_ID := "r1"; dbsqlc.wr_CreatedAt := 10 |};
        {| dbsqlc.wr_ID := "r2"; dbsqlc.wr_CreatedAt := 20 |}]
  /\ ListWorkflowRuns demo.tenant queuedOf (repo w)
     = Ok [{| dbsqlc.wr_ID := "q1"; dbsqlc.wr_CreatedAt := 30 |}]
  /\ Z.min (db.MaxRuns demo.cip) 1 = 1
  /\ fst out
     = Return (Err (ErrWrap "could not cancel workflow runs"
                      (ErrNew "Transient")))
  /\ newEvents w (snd out)
     = [EvListWorkflowRuns demo.tenant runningOf;
        EvListWorkflowRuns demo.tenant queuedOf;
        EvGetWorkflowRunById demo.tenant "r1";
        EvListStepRuns demo.tenant (runningStepRuns "r1");
        cancelSend demo.tenant {| db.sr_ID := "s1" |};
        cancelSend demo.tenant {| db.sr_ID := "s2" |}]
  /\ ~ In (EvGetWorkflowRunById demo.tenant "q1") (newEvents w (snd out))
  /\ ~ In (jobSend (demo.jobRun "q1-j1")) (newEvents w (snd out))
  /\ ~ In (jobSend (demo.jobRun "q1-j2")) (newEvents w (snd out)).
Proof.
  intros w runningOf queuedOf out.
  assert (Hnew : newEvents w (snd out)
     = [EvListWorkflowRuns demo.tenant runningOf;
        EvListWorkflowRuns demo.tenant queuedOf;
        EvGetWorkflowRunById demo.tenant "r1";
        EvListStepRuns demo.tenant (runningStepRuns "r1");
        cancelSend demo.tenant {| db.sr_ID := "s1" |};
        cancelSend demo.tenant {| db.sr_ID := "s2" |}])
    by (vm_compute; reflexivity).
  split; [vm_compute; reflexivity|]. split; [vm_compute; reflexivity|].
  split; [reflexivity|]. split; [vm_compute; reflexivity|].
  split; [exact Hnew|]. rewrite Hnew.
  repeat split; simpl; intros H;
    repeat destruct H as [H|H]; try discriminate H; exact H.
Qed.


(** C3, the claim as the spec states it, on a run that is scheduled
    with a worker assigned: the spec has the timeout task sent before
    the dispatch task; here the dispatch task goes first. *)
Lemma schedule_sends_dispatch_first :
  let out := scheduleGetGroupAction (store.g_Row demo.gkNew) demo.healthy in
  fst out = Return (Ok tt)
  /\ position isDispatchSend (newEvents demo.healthy (snd out)) = Some 3%nat
  /\ position isTimeoutSend (newEvents demo.healthy (snd out)) = Some 4%nat
  /\ sentBefore isTimeoutSend isDispatchSend (newEvents demo.healthy (snd out))
     <> true.
Proof.
  vm_compute. repeat split; try reflexivity. discriminate.
Qed.

(** Scheduling [gk-new] on the healthy deployment. *)
Lemma schedule_scenario :
  let row := store.g_Row demo.gkNew in
  let w := demo.healthy in
  let updated :=
    UpdateGetGroupKeyRun demo.tenant "gk-new" pendingAssignment (repo w) in
  let assigned :=
    AssignGetGroupKeyRunToWorker demo.tenant "gk-new" (snd updated) in
  updated = (fst updated, snd updated)
  /\ assigned = (Ok ("worker-1", "dispatcher-1"), snd assigned)
  /\ fst (scheduleGetGroupAction row w) = Return (Ok tt)
  /\ newEvents w (snd (scheduleGetGroupAction row w))
     = [EvUpdateGetGroupKeyRun demo.tenant "gk-new" pendingAssignment;
        EvAssignGetGroupKeyRunToWorker demo.tenant "gk-new";
        EvAssignGetGroupKeyRunToTicker demo.tenant "gk-new";
        EvAddMessage (msgqueue.QueueTypeFromDispatcherID "dispatcher-1")
          (getGroupActionTask demo.tenant "a3" "worker-1" "dispatcher-1");
        EvAddMessage (msgqueue.QueueTypeFromTickerID "ticker-1")
          (timeoutTask demo.tenant "a3" "gk-new" (1000 + 60 * time_Second))].
Proof.
  intros row w updated assigned.
  assert (H1 : updated = (fst updated, snd updated))
    by (vm_compute; reflexivity).
  assert (H2 : assigned = (Ok ("worker-1", "dispatcher-1"), snd assigned))
    by (vm_compute; reflexivity).
  assert (H3 : fst (scheduleGetGroupAction row w) = Return (Ok tt))
    by (vm_compute; reflexivity).
  destruct (scheduleGetGroupAction_dispatches_then_arms_timeout
              row w (fst updated) (snd updated) (snd assigned)
              "worker-1" "dispatcher-1" H1 H2 H3)
    as [tickerId [duration [Hticker [Hduration [Hcalls _]]]]].
  split; [exact H1|]. split; [exact H2|]. split; [exact H3|].
  rewrite Hcalls.
  vm_compute in Hticker. injection Hticker as <-.
  vm_compute in Hduration. injection Hduration as <-.
  vm_compute. reflexivity.
Defined.

(** Scenario S4, the scheduling half: the only worker is inactive. *)
Lemma no_worker_scenario :
  let row := store.g_Row demo.gkNew in
  let w := demo.noWorker in
  let updated :=
    store.g_Row (store.withRun (store.applyPatch pendingAssignment) demo.gkNew) in
  let st1 :=
    snd (UpdateGetGroupKeyRun demo.tenant "gk-new" pendingAssignment (repo w)) in
  UpdateGetGroupKeyRun demo.tenant "gk-new" pendingAssignment (repo w)
  = (Ok updated, st1)
  /\ AssignGetGroupKeyRunToWorker demo.tenant "gk-new" st1
     = (Err ErrNoWorkerAvailable, st1)
  /\ errors_Is_NoWorkerAvailable ErrNoWorkerAvailable = true
  /\ fst (scheduleGetGroupAction row w) = Return (Ok tt)
  /\ List.filter isAddMessage
       (newEvents w (snd (scheduleGetGroupAction row w))) = []
  /\ bus.delivered (mq (snd (scheduleGetGroupAction row w))) = [].
Proof.
  intros row w updated st1.
  assert (H1 : UpdateGetGroupKeyRun demo.tenant "gk-new" pendingAssignment
                 (repo w) = (Ok updated, st1)) by (vm_compute; reflexivity).
  assert (H2 : AssignGetGroupKeyRunToWorker demo.tenant "gk-new" st1
               = (Err ErrNoWorkerAvailable, st1)) by (vm_compute; reflexivity).
  assert (H3 : errors_Is_NoWorkerAvailable ErrNoWorkerAvailable = true)
    by reflexivity.
  destruct (scheduleGetGroupAction_no_worker_available
              row updated w st1 st1 ErrNoWorkerAvailable H1 H2 H3)
    as [Hnil [_ [Hnone [Hbus _]]]].
  split; [exact H1|]. split; [exact H2|]. split; [exact H3|].
  split; [exact Hnil|]. split; [exact Hnone|].
  rewrite Hbus. reflexivity.
Defined.


(** C6, the failing input: [gk-plain] belongs to a workflow version
    without a ConcurrencyPolicy. *)
Lemma absent_policy_scenario :
  let task := demo.finished "gk-plain" in
  let w := demo.healthy in
  let payload :=
    {| tasktypes.gf_GetGroupKeyRunId := "gk-plain";
       tasktypes.gf_FinishedAt := "1200";
       tasktypes.gf_GroupKey := "G" |} in
  let groupKeyRun :=
    store.g_Row (store.withRun (store.applyPatch (succeeded 1200 "G"))
                   demo.gkPlain) in
  let st1 :=
    snd (UpdateGetGroupKeyRun demo.tenant "gk-plain" (succeeded 1200 "G")
           (repo w)) in
  tasktypes.decodeFinished (msgqueue.Payload task) = Ok payload
  /\ tasktypes.decodeTenantId (msgqueue.Metadata task) = Ok demo.tenant
  /\ time_ParseRFC3339 "1200" = Some 1200
  /\ UpdateGetGroupKeyRun demo.tenant "gk-plain" (succeeded 1200 "G") (repo w)
     = (Ok groupKeyRun, st1)
  /\ GetWorkflowVersionById demo.tenant "wv-plain" st1 = Ok demo.versionPlain
  /\ db.Concurrency demo.versionPlain = None
  /\ fst (handleTask task w)
     = Panic "invalid memory address or nil pointer dereference".
Proof.
  intros task w payload groupKeyRun st1.
  assert (H1 : tasktypes.decodeFinished (msgqueue.Payload task) = Ok payload)
    by (vm_compute; reflexivity).
  assert (H2 : tasktypes.decodeTenantId (msgqueue.Metadata task)
               = Ok demo.tenant) by (vm_compute; reflexivity).
  assert (H3 : time_ParseRFC3339 "1200" = Some 1200)
    by (vm_compute; reflexivity).
  assert (H4 : UpdateGetGroupKeyRun demo.tenant "gk-plain"
                 (succeeded 1200 "G") (repo w) = (Ok groupKeyRun, st1))
    by (vm_compute; reflexivity).
  assert (H5 : GetWorkflowVersionById demo.tenant "wv-plain" st1
               = Ok demo.versionPlain) by (vm_compute; reflexivity).
  assert (H6 : db.Concurrency demo.versionPlain = None) by reflexivity.
  destruct (handleGroupKeyRunFinished_absent_policy
              task w payload demo.tenant 1200 groupKeyRun st1
              demo.versionPlain H1 H2 H3 H4 H5 H6) as [Hpanic _].
  repeat (split; [assumption|]).
  change (handleTask task w) with (handleGroupKeyRunFinished task w).
  exact Hpanic.
Defined.


(** C8, the claim as the spec states it: on a bus whose unsubscription
    fails, shutdown stops after the second step. *)
Lemma shutdown_stops_when_unsubscribe_fails :
  let started := Start demo.flaky in
  fst started = Return (Ok cleanup)
  /\ newEvents (snd started) (snd (cleanup (snd started)))
     = [EvCancel; EvCleanupQueue]
  /\ newEvents (snd started) (snd (cleanup (snd started))) <> shutdownSteps.
Proof.
  intros started. split; [reflexivity|].
  split; [vm_compute; reflexivity | vm_compute; discriminate].
Qed.

(** Shutdown on the healthy deployment. *)
Lemma shutdown_scenario :
  let started := Start demo.healthy in
  fst started = Return (Ok cleanup)
  /\ newEvents (snd started) (snd (cleanup (snd started))) = shutdownSteps.
Proof.
  intros started.
  assert (H1 : fst started = Return (Ok cleanup)) by reflexivity.
  destruct (cleanup_steps demo.healthy cleanup H1) as [_ Hsteps].
  split; [exact H1|].
  specialize (Hsteps (snd started)).
  assert (Hq : CleanupQueue (mq (snd started)) = (Ok tt, mq (snd started)))
    by (vm_compute; reflexivity).
  rewrite Hq in Hsteps. exact Hsteps.
Defined.

(** C9, the claim as the spec states it: [gk-new] belongs to the
    round-robin version, which has queued runs a1..a3 and b1..b3.  The
    first delivery of its finished message pops a1 and b1; the second
    one pops a2 and b2, so the store after two deliveries is not the
    store after one. *)
Lemma duplicate_finish_pops_twice :
  let task := demo.finished "gk-new" in
  let once := snd (handleTask task demo.healthy) in
  let twice := snd (handleTask task once) in
  msgqueue.ID task = "get-group-key-run-finished"
  /\ store.runStatus "a1" (repo once) = Some db.WorkflowRunStatusRunning
  /\ store.runStatus "a2" (repo once) = Some db.WorkflowRunStatusQueued
  /\ store.runStatus "a2" (repo twice) = Some db.WorkflowRunStatusRunning
  /\ repo twice <> repo once.
Proof.
  intros task once twice.
  assert (H1 : store.runStatus "a2" (repo once)
               = Some db.WorkflowRunStatusQueued) by (vm_compute; reflexivity).
  assert (H2 : store.runStatus "a2" (repo twice)
               = Some db.WorkflowRunStatusRunning) by (vm_compute; reflexivity).
  split; [reflexivity|]. split; [vm_compute; reflexivity|].
  split; [exact H1|]. split; [exact H2|].
  intros Hsame. rewrite Hsame, H1 in H2. discriminate H2.
Qed.

(** Scenario S6 on a run that is already terminal: [gk-done] is
    CANCELLED and belongs to the cancel-in-progress version; a finished
    message for it changes nothing, once or twice. *)
Lemma duplicate_finish_scenario :
  let task := demo.finished "gk-done" in
  let w := demo.healthy in
  let once := snd (handleTask task w) in
  let twice := snd (handleTask task once) in
  (msgqueue.ID task = "get-group-key-run-finished"
   \/ msgqueue.ID task = "get-group-key-run-failed")
  /\ List.filter isPop (newEvents once twice) = []
  /\ repo twice = repo once
  /\ List.filter isPop (newEvents w once) = []
  /\ repo once = repo w.
Proof.
  intros task w once twice.
  assert (H1 : msgqueue.ID task = "get-group-key-run-finished"
               \/ msgqueue.ID task = "get-group-key-run-failed")
    by (left; reflexivity).
  assert (H2 : List.filter isPop (newEvents once twice) = [])
    by (vm_compute; reflexivity).
  assert (H3 : List.filter isPop (newEvents w once) = [])
    by (vm_compute; reflexivity).
  destruct (duplicate_terminal_delivery task w H1)
    as [_ [Hsame [_ Hnoop]]].
  split; [exact H1|]. split; [exact H2|]. split; [exact (Hsame H2)|].
  split; [exact H3|].
  destruct (Hnoop "gk-done" demo.gkDone) as [_ Hrepo].
  - vm_compute. reflexivity.
  - vm_compute. reflexivity.
  - reflexivity.
  - exact (Hrepo H3).
Defined.

(** The first delivery does write when the run is not terminal yet:
    [gk-q1] goes from RUNNING to SUCCEEDED with the group key as
    output. *)
Example first_finish_writes :
  let once := snd (handleTask (demo.finished "gk-q1") demo.healthy) in
  store.statusOf <$> store.gkrs (repo demo.healthy) !! "gk-q1"
  = Some db.StepRunStatusRunning
  /\ (fun row => dbsqlc.GetGroupKeyRun_ (store.g_Row row))
       <$> store.gkrs (repo once) !! "gk-q1"
     = Some (store.applyPatch (succeeded 1200 "G")
               (dbsqlc.GetGroupKeyRun_ (store.g_Row demo.gkQ1)))
  /\ store.statusOf <$> store.gkrs (repo once) !! "gk-q1"
     = Some db.StepRunStatusSucceeded.
Proof. vm_compute. repeat split; reflexivity. Qed.

(** C10 on a bus that refuses the first send: the second job run is
    still sent, only that one is delivered, and the caller gets nil. *)
Example queueWorkflowRunJobs_hides_failed_send :
  let workflowRun :=
    store.r_Run (demo.run "q1" demo.versionCip ["q1-j1"; "q1-j2"]
                   db.WorkflowRunStatusQueued 30 (Some "G")) in
  let out := queueWorkflowRunJobs workflowRun demo.flaky in
  fst (AddMessage msgqueue.JOB_PROCESSING_QUEUE
         (JobRunQueuedToTask (db.Job (demo.jobRun "q1-j1")) (demo.jobRun "q1-j1"))
         (mq demo.flaky))
  = Err (ErrNew "Transient")
  /\ fst out = Return (Ok tt)
  /\ newEvents demo.flaky (snd out)
     = [jobSend (demo.jobRun "q1-j1"); jobSend (demo.jobRun "q1-j2")]
  /\ bus.delivered (mq (snd out))
     = [(msgqueue.JOB_PROCESSING_QUEUE,
         JobRunQueuedToTask (db.Job (demo.jobRun "q1-j2")) (demo.jobRun "q1-j2"))].
Proof. vm_compute. repeat split; reflexivity. Qed.

End Deployment.

(** * More properties of the controller *)

Section Reaching.

#[local] Existing Instance launchOrder.

Context {R : Repository} {Q : MessageQueue} {G : Scheduler}.
Context {T : GoTime} {D : Defaults} {TT : TaskTypes}.

Implicit Types w : World.

(** ** Computations that return and only add to the trace *)

Lemma appends_ret {A} (a : A) : appends (ret a).
Proof. intros w. exists (Ok a), []. rewrite app_nil_r. auto. Qed.

Lemma appends_throw {A} (e : error) : appends (@throw _ _ _ A e).
Proof. intros w. exists (Err e), []. rewrite app_nil_r. auto. Qed.

Lemma appends_lift {A} (r : result A) : appends (lift r).
Proof. intros w. exists r, []. rewrite app_nil_r. auto. Qed.


Lemma appends_query {A} ev (f : Store -> result A) : appends (query ev f).
Proof. intros w. exists (f (repo w)), [ev]. auto. Qed.

Lemma appends_update {A} ev (f : Store -> result A * Store) :
  appends (update ev f).
Proof.
  intros w. unfold update. destruct (f (repo w)) as [r st].
  exists r, [ev]. auto.
Qed.


Lemma appends_bind {A B} (m : M A) (f : A -> M B) :
  appends m -> (forall a, appends (f a)) -> appends (bind m f).
Proof.
  intros Hm Hf w. unfold bind.
  destruct (Hm w) as [r [evs [Hr Htrace]]].
  destruct (m w) as [o w1]. simpl in *. subst o.
  destruct r as [a|e].
  - destruct (Hf a w1) as [r' [evs' [Hr' Htrace']]].
    exists r', (evs ++ evs'). split; [exact Hr'|].
    rewrite Htrace', Htrace, app_assoc. reflexivity.
  - exists (Err e), evs. auto.
Qed.

Lemma appends_wrap {A} msg (m : M A) : appends m -> appends (wrap msg m).
Proof.
  intros Hm w. unfold wrap.
  destruct (Hm w) as [r [evs [Hr Htrace]]].
  destruct (m w) as [o w1]. simpl in *. subst o.
  destruct r as [a|e]; eauto.
Qed.


Lemma appends_errgroup_run (g : errgroup_Group) first :
  Forall appends g -> appends (errgroup_run g first).
Proof.
  intros Hg. revert first.
  induction Hg as [|f g Hf Hg IH]; intros first w; simpl.
  - destruct first as [e|].
    + exists (Err e), []. rewrite app_nil_r. auto.
    + exists (Ok tt), []. rewrite app_nil_r. auto.
  - destruct (Hf w) as [r [evs [Hr Htrace]]].
    destruct (f w) as [o w1]. simpl in *. subst o.
    destruct r as [[]|e].
    + destruct (IH first w1) as [r' [evs' [Hr' Htrace']]].
      exists r', (evs ++ evs'). split; [exact Hr'|].
      rewrite Htrace', Htrace, app_assoc. reflexivity.
    + destruct (IH (match first with None => Some e | Some _ => first end) w1)
        as [r' [evs' [Hr' Htrace']]].
      exists r', (evs ++ evs'). split; [exact Hr'|].
      rewrite Htrace', Htrace, app_assoc. reflexivity.
Qed.









Ltac run_calls :=
  unfold bind, wrap, attempt, ret, throw, lift,
    repo_UpdateGetGroupKeyRun, repo_AssignGetGroupKeyRunToWorker,
    repo_AssignGetGroupKeyRunToTicker, repo_GetWorkflowRunById,
    repo_GetGroupKeyRunForEngine, mq_AddMessage,
    update, query, onBus, time_Now; simpl.

Ltac new_events :=
  unfold newEvents; simpl; rewrite <- ?app_assoc; rewrite drop_app_length;
  simpl.

(** ** workflow-run-queued *)

(** X3.  A queued run whose workflow version has no ConcurrencyPolicy:
    the handler fetches the run and sends one message per JobRun on
    [JOB_PROCESSING_QUEUE], in order; it writes nothing to the store,
    and it returns nil whatever the sends answer. *)
Theorem handleWorkflowRunQueued_without_policy :
  forall (task : msgqueue.Message) (w : World)
         (payload : tasktypes.WorkflowRunFinishedTask) (tenantId : string)
         (workflowRun : db.WorkflowRunModel),
    tasktypes.decodeWorkflowRunId (msgqueue.Payload task) = Ok payload ->
    tasktypes.decodeTenantId (msgqueue.Metadata task) = Ok tenantId ->
    GetWorkflowRunById tenantId (tasktypes.wrf_WorkflowRunId payload) (repo w)
    = Ok workflowRun ->
    db.Concurrency (db.WorkflowVersion workflowRun) = None ->
    let w' := snd (handleWorkflowRunQueued task w) in
    fst (handleWorkflowRunQueued task w) = Return (Ok tt)
    /\ newEvents w w'
       = EvGetWorkflowRunById tenantId (tasktypes.wrf_WorkflowRunId payload)
         :: map (fun jobRun =>
                   EvAddMessage msgqueue.JOB_PROCESSING_QUEUE
                     (JobRunQueuedToTask (db.Job jobRun) jobRun))
                (db.JobRuns workflowRun)
    /\ repo w' = repo w.
Proof.
  intros task w payload tenantId workflowRun Hp Hm Hget Hnone w'. subst w'.
  set (w1 := log (EvGetWorkflowRunById tenantId
                    (tasktypes.wrf_WorkflowRunId payload)) w).
  assert (Hstep : handleWorkflowRunQueued task w
    = (let* _ := wrap "could not start workflow run"
                   (queueWorkflowRunJobs workflowRun) in
       ret tt) w1).
  { unfold handleWorkflowRunQueued.
    unfold bind at 1. unfold wrap at 1. unfold lift at 1. rewrite Hp.
    unfold bind at 1. unfold wrap at 1. unfold lift at 1. rewrite Hm.
    unfold bind at 1. unfold wrap at 1.
    unfold repo_GetWorkflowRunById, query. rewrite Hget, Hnone.
    reflexivity. }
  rewrite Hstep. clear Hstep.
  destruct (queueWorkflowRunJobs_spec workflowRun w1) as [H1 [H2 H3]].
  unfold bind, wrap.
  destruct (queueWorkflowRunJobs workflowRun w1) as [o w2]. simpl in *.
  subst o. simpl. split; [reflexivity|]. split; [|exact H2].
  apply newEvents_app. rewrite H3. subst w1. simpl.
  rewrite <- app_assoc. reflexivity.
Qed.

Lemma scheduleGetGroupAction_sends_no_job getGroupKeyRun w :
  exists evs,
    trace (snd (scheduleGetGroupAction getGroupKeyRun w)) = trace w ++ evs
    /\ List.filter isJobSend evs = [].
Proof.
  unfold scheduleGetGroupAction, scheduleGetGroupKeyRunTimeoutTask.
  run_calls.
  destruct (UpdateGetGroupKeyRun _ _ _ (repo w)) as [[updated|e] st1]; simpl;
    [|eexists; split; [reflexivity|reflexivity]].
  destruct (AssignGetGroupKeyRunToWorker _ _ st1)
    as [[[workerId dispatcherId]|e] st2]; simpl.
  - destruct (AssignGetGroupKeyRunToTicker _ _ st2) as [[tickerId|e] st3];
      simpl;
      [|eexists; split; [rewrite <- ?app_assoc; reflexivity|reflexivity]].
    destruct (time_ParseDuration DefaultStepRunTimeout) as [duration|];
      simpl;
      [|eexists; split; [rewrite <- ?app_assoc; reflexivity|reflexivity]].
    destruct (AddMessage _ _ (mq w)) as [[[]|e] b1]; simpl;
      [|eexists; split; [rewrite <- ?app_assoc; reflexivity|reflexivity]].
    destruct (AddMessage _ _ b1) as [[[]|e] b2]; simpl;
      eexists; (split; [rewrite <- ?app_assoc; reflexivity|reflexivity]).
  - destruct (errors_Is_NoWorkerAvailable e); simpl;
      eexists; (split; [rewrite <- ?app_assoc; reflexivity|reflexivity]).
Qed.

(** X4.  A queued run whose workflow version has a ConcurrencyPolicy
    is never started by the handler: whatever the store and the bus
    answer, no message goes to [JOB_PROCESSING_QUEUE].  If the run has
    no group-key run the handler stops with "could not get group key
    run" after the one query; if it has one and the store returns its
    row, the handler goes on as Schedule does on that row. *)
Theorem handleWorkflowRunQueued_with_policy :
  forall (task : msgqueue.Message) (w : World)
         (payload : tasktypes.WorkflowRunFinishedTask) (tenantId : string)
         (workflowRun : db.WorkflowRunModel)
         (concurrency : db.WorkflowConcurrencyModel),
    tasktypes.decodeWorkflowRunId (msgqueue.Payload task) = Ok payload ->
    tasktypes.decodeTenantId (msgqueue.Metadata task) = Ok tenantId ->
    GetWorkflowRunById tenantId (tasktypes.wrf_WorkflowRunId payload) (repo w)
    = Ok workflowRun ->
    db.Concurrency (db.WorkflowVersion workflowRun) = Some concurrency ->
    let get :=
      EvGetWorkflowRunById tenantId (tasktypes.wrf_WorkflowRunId payload) in
    let w' := snd (handleWorkflowRunQueued task w) in
    List.filter isJobSend (newEvents w w') = []
    /\ (db.GetGroupKeyRun workflowRun = None ->
        handleWorkflowRunQueued task w
        = (Return (Err (ErrNew "could not get group key run")), log get w))
    /\ (forall groupKeyRun row,
          db.GetGroupKeyRun workflowRun = Some groupKeyRun ->
          GetGroupKeyRunForEngine tenantId (db.ggkr_ID groupKeyRun) (repo w)
          = Ok row ->
          handleWorkflowRunQueued task w
          = (let* _ := wrap "could not trigger get group action"
                         (scheduleGetGroupAction row) in
             ret tt)
              (log (EvGetGroupKeyRunForEngine tenantId (db.ggkr_ID groupKeyRun))
                 (log get w))).
Proof.
  intros task w payload tenantId workflowRun concurrency Hp Hm Hget Hc get w'.
  subst w'.
  assert (Hstep : handleWorkflowRunQueued task w
    = match db.GetGroupKeyRun workflowRun with
      | None => throw (ErrNew "could not get group key run") (log get w)
      | Some groupKeyRun =>
          (let* sqlcGroupKeyRun :=
             wrap "could not get group key run for engine"
               (repo_GetGroupKeyRunForEngine tenantId (db.ggkr_ID groupKeyRun)) in
           let* _ := wrap "could not trigger get group action"
                       (scheduleGetGroupAction sqlcGroupKeyRun) in
           ret tt) (log get w)
      end).
  { unfold handleWorkflowRunQueued.
    unfold bind at 1. unfold wrap at 1. unfold lift at 1. rewrite Hp.
    unfold bind at 1. unfold wrap at 1. unfold lift at 1. rewrite Hm.
    unfold bind at 1. unfold wrap at 1.
    unfold repo_GetWorkflowRunById, query. rewrite Hget, Hc.
    destruct (db.GetGroupKeyRun workflowRun); reflexivity. }
  split; [|split].
  - rewrite Hstep.
    destruct (db.GetGroupKeyRun workflowRun) as [groupKeyRun|].
    + unfold bind at 1. unfold wrap at 1.
      unfold repo_GetGroupKeyRunForEngine, query.
      change (repo (log get w)) with (repo w).
      destruct (GetGroupKeyRunForEngine tenantId (db.ggkr_ID groupKeyRun)
                  (repo w)) as [row|e].
      * set (w1 := log _ (log get w)).
        destruct (scheduleGetGroupAction_sends_no_job row w1)
          as [evs [Htrace Hnone]].
        unfold bind, wrap, ret.
        destruct (scheduleGetGroupAction row w1) as [[[[]|e]|msg] w2];
          simpl in *;
          unfold newEvents; rewrite Htrace; subst w1; simpl;
          rewrite <- !app_assoc, drop_app_length; simpl; exact Hnone.
      * new_events. reflexivity.
    + unfold throw. new_events. reflexivity.
  - intros Hnone. rewrite Hstep, Hnone. reflexivity.
  - intros groupKeyRun row Hgk Hrow. rewrite Hstep, Hgk.
    unfold bind at 1. unfold wrap at 1.
    unfold repo_GetGroupKeyRunForEngine, query.
    change (repo (log get w)) with (repo w). rewrite Hrow. reflexivity.
Qed.

(** ** get-group-key-run-started and get-group-key-run-failed *)

(** X5.  For a get-group-key-run-started message that decodes: if
    [started_at] is not a timestamp the handler returns the wrapped
    parse error and makes no call; otherwise it makes exactly one call,
    the write of [started_at] and status RUNNING on the run the payload
    names, and returns the store's error as it is, without wrapping
    it. *)
Theorem handleGroupKeyRunStarted_single_write :
  forall (task : msgqueue.Message) (w : World)
         (payload : tasktypes.GetGroupKeyRunStartedTaskPayload)
         (tenantId : string),
    tasktypes.decodeStarted (msgqueue.Payload task) = Ok payload ->
    tasktypes.decodeTenantId (msgqueue.Metadata task) = Ok tenantId ->
    match time_ParseRFC3339 (tasktypes.gs_StartedAt payload) with
    | None =>
        exists err,
          handleGroupKeyRunStarted task w
          = (Return (Err (ErrWrap "could not parse started at" err)), w)
    | Some startedAt =>
        let id := tasktypes.gs_GetGroupKeyRunId payload in
        let written := UpdateGetGroupKeyRun tenantId id (started startedAt)
                         (repo w) in
        handleGroupKeyRunStarted task w
        = (Return match fst written with
                  | Ok _ => Ok tt
                  | Err err => Err err
                  end,
           setRepo (snd written)
             (log (EvUpdateGetGroupKeyRun tenantId id (started startedAt)) w))
    end.
Proof.
  intros task w payload tenantId Hp Hm.
  destruct (time_ParseRFC3339 (tasktypes.gs_StartedAt payload))
    as [startedAt|] eqn:Ht.
  - unfold handleGroupKeyRunStarted, time_Parse.
    rewrite Hp, Hm. run_calls. rewrite Ht. simpl.
    fold (started startedAt).
    destruct (UpdateGetGroupKeyRun tenantId _ (started startedAt) (repo w))
      as [[updated|e] st1]; reflexivity.
  - unfold handleGroupKeyRunStarted, time_Parse.
    rewrite Hp, Hm. run_calls. rewrite Ht. simpl. eexists. reflexivity.
Qed.

(** X6.  For a get-group-key-run-failed message that decodes and
    whose [failed_at] parses: the handler writes status FAILED with the
    error and the time of the payload; if that write fails it stops
    there, and the timeout is not cancelled; if it goes through, the
    only other call is the send of [cancel-get-group-key-run-timeout]
    on the queue of the ticker of the row the store returned.  The
    owning workflow run is not read, released or cancelled. *)
Theorem handleGroupKeyRunFailed_calls :
  forall (task : msgqueue.Message) (w : World)
         (payload : tasktypes.GetGroupKeyRunFailedTaskPayload)
         (tenantId : string) (failedAt : Time),
    tasktypes.decodeFailed (msgqueue.Payload task) = Ok payload ->
    tasktypes.decodeTenantId (msgqueue.Metadata task) = Ok tenantId ->
    time_ParseRFC3339 (tasktypes.gx_FailedAt payload) = Some failedAt ->
    let id := tasktypes.gx_GetGroupKeyRunId payload in
    let patch := failed failedAt (tasktypes.gx_Error payload) in
    let w' := snd (handleGroupKeyRunFailed task w) in
    match UpdateGetGroupKeyRun tenantId id patch (repo w) with
    | (Ok groupKeyRun, st1) =>
        newEvents w w'
        = [EvUpdateGetGroupKeyRun tenantId id patch;
           EvAddMessage
             (msgqueue.QueueTypeFromTickerID
                (dbsqlc.TickerId (dbsqlc.GetGroupKeyRun_ groupKeyRun)))
             (cancelGetGroupKeyRunTimeoutTask groupKeyRun)]
        /\ repo w' = st1
    | (Err err, st1) =>
        handleGroupKeyRunFailed task w
        = (Return (Err (ErrWrap "could not update get group key run" err)),
           setRepo st1 (log (EvUpdateGetGroupKeyRun tenantId id patch) w))
    end.
Proof.
  intros task w payload tenantId failedAt Hp Hm Ht id patch w'. subst w'.
  assert (Hstep : handleGroupKeyRunFailed task w
    = (let* groupKeyRun :=
         wrap "could not update get group key run"
           (repo_UpdateGetGroupKeyRun tenantId id patch) in
       let* _ := cancelTimeout groupKeyRun in
       ret tt) w).
  { unfold handleGroupKeyRunFailed, time_Parse.
    unfold bind at 1. unfold wrap at 1. unfold lift at 1. rewrite Hp.
    unfold bind at 1. unfold wrap at 1. unfold lift at 1. rewrite Hm.
    unfold bind at 1. unfold wrap at 1. rewrite Ht. reflexivity. }
  rewrite Hstep. clear Hstep. unfold cancelTimeout. run_calls.
  destruct (UpdateGetGroupKeyRun tenantId id patch (repo w))
    as [[groupKeyRun|e] st1]; simpl; [|reflexivity].
  destruct (AddMessage _ _ (mq w)) as [[[]|e] b1]; simpl;
    (split; [new_events; reflexivity | reflexivity]).
Qed.

(** ** The reassign scan and the two scheduled jobs *)



(** ** Start *)

(** X10.  [Start] registers the requeue job, then the reassign job,
    both every five seconds, starts the scheduler and subscribes to
    [WORKFLOW_PROCESSING_QUEUE].  At the first step that fails it
    cancels the root context and returns: the error of a job
    registration is wrapped, the error of the subscription is returned
    as it is.  It never shuts the scheduler down: when the subscription
    fails the scheduler stays started with both jobs registered. *)
Theorem Start_outcomes :
  forall (w : World),
    let every := time_Second * 5 in
    let w' := snd (Start w) in
    match NewJob every "runGetGroupKeyRunRequeue" (s w) with
    | (Err e, c1) =>
        fst (Start w)
        = Return (Err (ErrWrap
            "could not schedule get group key run requeue" e))
        /\ newEvents w w'
           = [EvNewJob every "runGetGroupKeyRunRequeue"; EvCancel]
    | (Ok _, c1) =>
        match NewJob every "runGetGroupKeyRunReassign" c1 with
        | (Err e, c2) =>
            fst (Start w)
            = Return (Err (ErrWrap
                "could not schedule get group key run reassign" e))
            /\ newEvents w w'
               = [EvNewJob every "runGetGroupKeyRunRequeue";
                  EvNewJob every "runGetGroupKeyRunReassign"; EvCancel]
        | (Ok _, c2) =>
            s w' = SchedulerStart c2
            /\ match Subscribe msgqueue.WORKFLOW_PROCESSING_QUEUE (mq w) with
               | (Err e, b) =>
                   fst (Start w) = Return (Err e)
                   /\ newEvents w w' = startCalls ++ [EvCancel]
               | (Ok _, b) =>
                   fst (Start w) = Return (Ok cleanup)
                   /\ newEvents w w' = startCalls
               end
        end
    end.
Proof.
  intros w every w'. subst w'.
  unfold Start, newJob, cancelAndReturn, startCalls.
  unfold bind, attempt, onCron, onBus, mark, throw, ret. simpl. fold every.
  destruct (NewJob every "runGetGroupKeyRunRequeue" (s w)) as [[[]|e] c1];
    simpl; [|split; [reflexivity | new_events; reflexivity]].
  destruct (NewJob every "runGetGroupKeyRunReassign" c1) as [[[]|e] c2];
    simpl; [|split; [reflexivity | new_events; reflexivity]].
  destruct (Subscribe _ (mq w)) as [[[]|e] b1]; simpl;
    (split; [reflexivity|]; split; [reflexivity | new_events; reflexivity]).
Qed.

(** ** Schedule when a step fails *)

(** X11.  When the worker and the ticker have been assigned and the
    send to the dispatcher fails, Schedule returns that error wrapped
    and stops: the timeout task is never sent, and the store keeps the
    status, worker and ticker it has just written. *)
Theorem scheduleGetGroupAction_dispatch_send_fails :
  forall (getGroupKeyRun updated : dbsqlc.GetGroupKeyRunForEngineRow)
         (w : World) (st1 st2 st3 : Store)
         (workerId dispatcherId tickerId : string) (duration : Duration)
         (err : error) (b : Bus),
    let tenantId := dbsqlc.TenantId (dbsqlc.GetGroupKeyRun_ getGroupKeyRun) in
    let id := dbsqlc.ID (dbsqlc.GetGroupKeyRun_ getGroupKeyRun) in
    let workflowRunId := dbsqlc.WorkflowRunId getGroupKeyRun in
    let dispatch :=
      getGroupActionTask tenantId workflowRunId workerId dispatcherId in
    UpdateGetGroupKeyRun tenantId id pendingAssignment (repo w)
    = (Ok updated, st1) ->
    AssignGetGroupKeyRunToWorker tenantId id st1
    = (Ok (workerId, dispatcherId), st2) ->
    AssignGetGroupKeyRunToTicker tenantId id st2 = (Ok tickerId, st3) ->
    time_ParseDuration DefaultStepRunTimeout = Some duration ->
    AddMessage (msgqueue.QueueTypeFromDispatcherID dispatcherId) dispatch (mq w)
    = (Err err, b) ->
    let w' := snd (scheduleGetGroupAction getGroupKeyRun w) in
    fst (scheduleGetGroupAction getGroupKeyRun w)
    = Return (Err (ErrWrap "could not add job assigned task to task queue" err))
    /\ newEvents w w'
       = [EvUpdateGetGroupKeyRun tenantId id pendingAssignment;
          EvAssignGetGroupKeyRunToWorker tenantId id;
          EvAssignGetGroupKeyRunToTicker tenantId id;
          EvAddMessage (msgqueue.QueueTypeFromDispatcherID dispatcherId)
            dispatch]
    /\ List.filter isTimeoutSend (newEvents w w') = []
    /\ repo w' = st3.
Proof.
  intros getGroupKeyRun updated w st1 st2 st3 workerId dispatcherId tickerId
    duration err b tenantId id workflowRunId dispatch
    Hupd Hworker Hticker Hduration Hsend w'.
  subst w'. unfold scheduleGetGroupAction, scheduleGetGroupKeyRunTimeoutTask.
  fold tenantId id workflowRunId. fold pendingAssignment. run_calls.
  rewrite Hupd. simpl. rewrite Hworker. simpl. rewrite Hticker. simpl.
  rewrite Hduration. simpl. fold dispatch. rewrite Hsend. simpl.
  split; [reflexivity|].
  assert (Hnew : forall evs,
            drop (length (trace w)) (trace w ++ evs) = evs)
    by (intros; apply drop_app_length).
  unfold newEvents. simpl. rewrite <- !app_assoc. rewrite Hnew.
  repeat split; reflexivity.
Qed.

(** X12.  When the configured default timeout is not a duration,
    Schedule fails on every run for which a worker is available: it
    returns the parse error, wrapped, after the status write and both
    assignments have been made; no message is sent, so the run keeps a
    worker and a ticker that are never told about it. *)
Theorem scheduleGetGroupAction_without_default_timeout :
  forall (getGroupKeyRun updated : dbsqlc.GetGroupKeyRunForEngineRow)
         (w : World) (st1 st2 st3 : Store)
         (workerId dispatcherId tickerId : string),
    let tenantId := dbsqlc.TenantId (dbsqlc.GetGroupKeyRun_ getGroupKeyRun) in
    let id := dbsqlc.ID (dbsqlc.GetGroupKeyRun_ getGroupKeyRun) in
    UpdateGetGroupKeyRun tenantId id pendingAssignment (repo w)
    = (Ok updated, st1) ->
    AssignGetGroupKeyRunToWorker tenantId id st1
    = (Ok (workerId, dispatcherId), st2) ->
    AssignGetGroupKeyRunToTicker tenantId id st2 = (Ok tickerId, st3) ->
    time_ParseDuration DefaultStepRunTimeout = None ->
    let w' := snd (scheduleGetGroupAction getGroupKeyRun w) in
    (exists err,
       fst (scheduleGetGroupAction getGroupKeyRun w)
       = Return (Err (ErrWrap
           "could not schedule get group key run timeout task"
           (ErrWrap "could not parse duration" err))))
    /\ newEvents w w'
       = [EvUpdateGetGroupKeyRun tenantId id pendingAssignment;
          EvAssignGetGroupKeyRunToWorker tenantId id;
          EvAssignGetGroupKeyRunToTicker tenantId id]
    /\ mq w' = mq w
    /\ repo w' = st3.
Proof.
  intros getGroupKeyRun updated w st1 st2 st3 workerId dispatcherId tickerId
    tenantId id Hupd Hworker Hticker Hduration w'.
  subst w'. unfold scheduleGetGroupAction, scheduleGetGroupKeyRunTimeoutTask.
  fold tenantId id. fold pendingAssignment. run_calls.
  rewrite Hupd. simpl. rewrite Hworker. simpl. rewrite Hticker. simpl.
  rewrite Hduration. simpl.
  split; [eexists; reflexivity|].
  split; [new_events; reflexivity|]. split; reflexivity.
Qed.

(** ** Round-robin release *)




End Reaching.

(** * get-group-key-run-finished in every completion order *)

Section Finishing.

Context {R : Repository} {Q : MessageQueue} {G : Scheduler}.
Context {T : GoTime} {D : Defaults} {TT : TaskTypes}.
Context {GR : Goroutines}.

Implicit Types w : World.

Lemma appends_any_order (g : errgroup_Group) :
  Forall appends g -> appends (errgroup_Wait g).
Proof.
  intros Hg w. unfold errgroup_Wait.
  apply appends_errgroup_run, completion_Forall, Hg.
Qed.

Lemma appends_each {A} (f : A -> M unit) (l : list A) :
  (forall x, appends (f x)) -> appends (errgroup_Wait (map f l)).
Proof.
  intros Hf. apply appends_any_order, Forall_map, Forall_forall.
  intros x _. apply Hf.
Qed.

Lemma appends_makes {A} (c : M A) (calls : World -> list Event) :
  (forall w, makes c w (calls w)) -> appends c.
Proof.
  intros H w. destruct (H w) as [[r Hr] [_ [made [Htrace _]]]]. eauto.
Qed.

Lemma appends_cancelWorkflowRun tenantId workflowRunId :
  appends (cancelWorkflowRun tenantId workflowRunId).
Proof.
  apply (appends_makes _ (fun w => cancelCalls tenantId (repo w) workflowRunId)).
  apply cancelWorkflowRun_makes.
Qed.

Lemma appends_releaseOne tenantId row : appends (releaseOne tenantId row).
Proof.
  apply (appends_makes _
           (fun w => releaseCalls tenantId (repo w) (dbsqlc.wr_ID row))).
  intros w. apply reads_makes, releaseOne_reads.
Qed.

Lemma appends_queueByCancelInProgress tenantId groupKey version :
  appends (queueByCancelInProgress tenantId groupKey version).
Proof.
  unfold queueByCancelInProgress.
  destruct (db.Concurrency version) as [concurrency|]; [|apply appends_ret].
  apply appends_bind; [apply appends_wrap, appends_query|]. intros running.
  apply appends_bind; [apply appends_wrap, appends_query|]. intros queued.
  rewrite cancelLoop_firstn, queueLoop_firstn. simpl app.
  apply appends_bind.
  { apply appends_wrap, appends_each.
    intros row. apply appends_cancelWorkflowRun. }
  intros _. apply appends_bind; [|intros; apply appends_ret].
  apply appends_wrap, appends_each. intros row. apply appends_releaseOne.
Qed.

Lemma appends_queueByGroupRoundRobin tenantId version :
  appends (queueByGroupRoundRobin tenantId version).
Proof.
  unfold queueByGroupRoundRobin.
  destruct (db.Concurrency version) as [concurrency|]; [|apply appends_ret].
  apply appends_bind; [apply appends_wrap, appends_update|]. intros popped.
  apply appends_bind; [|intros; apply appends_ret].
  rewrite fold_Go_map. simpl app.
  apply appends_wrap, appends_each. intros row. apply appends_releaseOne.
Qed.

(** Admission returns when the version it finds has a policy. *)
Lemma appends_admission tenantId groupKey groupKeyRun version concurrency w :
  GetWorkflowVersionById tenantId (dbsqlc.WorkflowVersionId groupKeyRun)
    (repo w) = Ok version ->
  db.Concurrency version = Some concurrency ->
  exists r evs,
    fst (admission tenantId groupKey groupKeyRun w) = Return r
    /\ trace (snd (admission tenantId groupKey groupKeyRun w)) = trace w ++ evs.
Proof.
  intros Hver Hc.
  set (w1 := log (EvGetWorkflowVersionById tenantId
                    (dbsqlc.WorkflowVersionId groupKeyRun)) w).
  assert (Hstep : admission tenantId groupKey groupKeyRun w
    = match db.LimitStrategy concurrency with
      | db.ConcurrencyLimitStrategyCancelInProgress =>
          queueByCancelInProgress tenantId groupKey version
      | db.ConcurrencyLimitStrategyGroupRoundRobin =>
          queueByGroupRoundRobin tenantId version
      | db.ConcurrencyLimitStrategyOther name =>
          throw (ErrNew ("unimplemented concurrency limit strategy: " +:+ name))
      end w1).
  { unfold admission, bind, wrap, repo_GetWorkflowVersionById, query.
    rewrite Hver, Hc. reflexivity. }
  rewrite Hstep. clear Hstep.
  assert (Hrun : forall c : M unit, appends c ->
            exists r evs, fst (c w1) = Return r
                          /\ trace (snd (c w1)) = trace w ++ evs).
  { intros c Hc'. destruct (Hc' w1) as [r [evs [Hr Htrace]]].
    exists r, (EvGetWorkflowVersionById tenantId
                 (dbsqlc.WorkflowVersionId groupKeyRun) :: evs).
    split; [exact Hr|]. rewrite Htrace. subst w1. simpl.
    rewrite <- app_assoc. reflexivity. }
  destruct (db.LimitStrategy concurrency).
  - apply Hrun, appends_queueByCancelInProgress.
  - apply Hrun, appends_queueByGroupRoundRobin.
  - apply Hrun, appends_throw.
Qed.

(** X7.  For a get-group-key-run-finished message whose status write
    goes through and whose workflow version has a ConcurrencyPolicy,
    in every order in which the two goroutines complete: both run to
    their end, the second one from the world the first one left,
    whether or not the first one failed; the send of
    [cancel-get-group-key-run-timeout] on the ticker's queue is among
    the calls made; and the handler returns the error of the one that
    failed first in that order, nil when neither failed. *)
Theorem handleGroupKeyRunFinished_runs_both :
  forall (task : msgqueue.Message) (w : World)
         (payload : tasktypes.GetGroupKeyRunFinishedTaskPayload)
         (tenantId : string) (finishedAt : Time)
         (groupKeyRun : dbsqlc.GetGroupKeyRunForEngineRow) (st1 : Store)
         (version : db.WorkflowVersionModel)
         (concurrency : db.WorkflowConcurrencyModel),
    tasktypes.decodeFinished (msgqueue.Payload task) = Ok payload ->
    tasktypes.decodeTenantId (msgqueue.Metadata task) = Ok tenantId ->
    time_ParseRFC3339 (tasktypes.gf_FinishedAt payload) = Some finishedAt ->
    let id := tasktypes.gf_GetGroupKeyRunId payload in
    let patch := succeeded finishedAt (tasktypes.gf_GroupKey payload) in
    UpdateGetGroupKeyRun tenantId id patch (repo w) = (Ok groupKeyRun, st1) ->
    GetWorkflowVersionById tenantId (dbsqlc.WorkflowVersionId groupKeyRun) st1
    = Ok version ->
    db.Concurrency version = Some concurrency ->
    let w1 := setRepo st1 (log (EvUpdateGetGroupKeyRun tenantId id patch) w) in
    let admits :=
      admission tenantId (tasktypes.gf_GroupKey payload) groupKeyRun in
    let cancel := cancelTimeout groupKeyRun in
    let send :=
      EvAddMessage
        (msgqueue.QueueTypeFromTickerID
           (dbsqlc.TickerId (dbsqlc.GetGroupKeyRun_ groupKeyRun)))
        (cancelGetGroupKeyRunTimeoutTask groupKeyRun) in
    exists (first second : M unit) (r1 r2 : result unit),
      (first = admits /\ second = cancel \/ first = cancel /\ second = admits)
      /\ completion (trace w1) [admits; cancel] = [first; second]
      /\ fst (first w1) = Return r1
      /\ fst (second (snd (first w1))) = Return r2
      /\ handleGroupKeyRunFinished task w
         = (Return match r1 with
                   | Err err => Err err
                   | Ok _ => r2
                   end,
            snd (second (snd (first w1))))
      /\ In send (newEvents w (snd (handleGroupKeyRunFinished task w))).
Proof.
  intros task w payload tenantId finishedAt groupKeyRun st1 version concurrency
    Hp Hm Ht id patch Hupd Hver Hc w1 admits cancel send.
  assert (Hstep : handleGroupKeyRunFinished task w
                  = errgroup_Wait [admits; cancel] w1).
  { unfold handleGroupKeyRunFinished, time_Parse.
    unfold bind at 1. unfold wrap at 1. unfold lift at 1. rewrite Hp.
    unfold bind at 1. unfold wrap at 1. unfold lift at 1. rewrite Hm.
    unfold bind at 1. unfold wrap at 1. rewrite Ht.
    unfold ret at 1. unfold bind at 1. unfold wrap at 1.
    unfold repo_UpdateGetGroupKeyRun, update.
    fold (succeeded finishedAt (tasktypes.gf_GroupKey payload)).
    fold id. fold patch. rewrite Hupd. reflexivity. }
  assert (Hadmit : forall v, repo v = st1 ->
            exists r evs, fst (admits v) = Return r
                          /\ trace (snd (admits v)) = trace v ++ evs).
  { intros v Hv. subst admits.
    apply (appends_admission _ _ _ version concurrency); [|exact Hc].
    rewrite Hv. exact Hver. }
  assert (Hcancel : forall v,
            (exists r, fst (cancel v) = Return r)
            /\ trace (snd (cancel v)) = trace v ++ [send]
            /\ repo (snd (cancel v)) = repo v)
    by (intros v; apply cancelTimeout_sends).
  rewrite Hstep. unfold errgroup_Wait.
  destruct (Permutation_length_2_inv
              (Permutation_sym (completion_Permutation _ (trace w1)
                                  [admits; cancel]))) as [Horder|Horder];
    rewrite Horder; simpl.
  - destruct (Hadmit w1 eq_refl) as [r1 [evs [Hr1 Htrace1]]].
    destruct (Hcancel (snd (admits w1))) as [[r2 Hr2] [Htrace2 _]].
    exists admits, cancel, r1, r2.
    split; [left; auto|]. split; [reflexivity|].
    split; [exact Hr1|]. split; [exact Hr2|].
    destruct (admits w1) as [o1 v1]. simpl in *. subst o1.
    destruct (cancel v1) as [o2 v2]. simpl in *. subst o2.
    assert (Hin : In send (newEvents w v2)).
    { rewrite (newEvents_app w v2
                 (EvUpdateGetGroupKeyRun tenantId id patch :: evs ++ [send])).
      - right. apply in_or_app. right. left. reflexivity.
      - rewrite Htrace2, Htrace1. subst w1. simpl.
        rewrite <- !app_assoc. reflexivity. }
    destruct r1 as [[]|e1]; destruct r2 as [[]|e2]; simpl; auto.
  - destruct (Hcancel w1) as [[r1 Hr1] [Htrace1 Hrepo1]].
    destruct (Hadmit (snd (cancel w1)) Hrepo1) as [r2 [evs [Hr2 Htrace2]]].
    exists cancel, admits, r1, r2.
    split; [right; auto|]. split; [reflexivity|].
    split; [exact Hr1|]. split; [exact Hr2|].
    destruct (cancel w1) as [o1 v1]. simpl in *. subst o1.
    destruct (admits v1) as [o2 v2]. simpl in *. subst o2.
    assert (Hin : In send (newEvents w v2)).
    { rewrite (newEvents_app w v2
                 (EvUpdateGetGroupKeyRun tenantId id patch :: send :: evs)).
      - right. left. reflexivity.
      - rewrite Htrace2, Htrace1. subst w1. simpl.
        rewrite <- !app_assoc. reflexivity. }
    destruct r1 as [[]|e1]; destruct r2 as [[]|e2]; simpl; auto.
Qed.

End Finishing.

(** * The constructor *)

Section Constructing.

Import options.

Context {MessageQueueT LoggerT RepositoryT DecoderT SchedulerT : Type}.
Context (defaultLogger : LoggerT) (defaultDecoder : DecoderT).
Context (withService : LoggerT -> LoggerT).
Context (newScheduler : result SchedulerT).

Lemma applyAll_fields (os : list (Option_ MessageQueueT LoggerT RepositoryT DecoderT)) :
  forall o : WorkflowsControllerOpts MessageQueueT LoggerT RepositoryT DecoderT,
    let o' := applyAll _ _ _ _ (map (toOpt _ _ _ _) os) o in
    mq _ _ _ _ o' = lastMq _ _ _ _ os (mq _ _ _ _ o)
    /\ l _ _ _ _ o' = lastLogger _ _ _ _ os (l _ _ _ _ o)
    /\ repo _ _ _ _ o' = lastRepo _ _ _ _ os (repo _ _ _ _ o)
    /\ dv _ _ _ _ o' = lastDecoder _ _ _ _ os (dv _ _ _ _ o).
Proof.
  induction os as [|x os IH]; intros o.
  - repeat split; reflexivity.
  - unfold applyAll in *. simpl fold_left. simpl in IH.
    destruct (IH (toOpt _ _ _ _ x o)) as [Hm [Hl [Hr Hd]]].
    simpl. rewrite Hm, Hl, Hr, Hd. destruct x; repeat split; reflexivity.
Qed.

(** X14.  [New] looks only at the last option of each kind.  It fails
    when no message queue was given or the last one given is nil, then
    when no repository was given or the last one given is nil, then
    when the scheduler cannot be created (that error wrapped); with
    [WithLogger(nil)] as the last logger option it panics; otherwise
    the controller holds the last queue, repository and decoder given,
    the last logger given with the service field added, and the new
    scheduler.  Without a logger or decoder option the defaults are
    used. *)
Theorem New_uses_the_last_option_of_each_kind :
  forall os : list (Option_ MessageQueueT LoggerT RepositoryT DecoderT),
    New MessageQueueT LoggerT RepositoryT DecoderT SchedulerT
      defaultLogger defaultDecoder withService newScheduler
      (map (toOpt _ _ _ _) os)
    = match lastMq _ _ _ _ os None with
      | None =>
          Return (Err (ErrNew "task queue is required. use WithMessageQueue"))
      | Some m =>
          match lastRepo _ _ _ _ os None with
          | None =>
              Return (Err (ErrNew "repository is required. use WithRepository"))
          | Some r =>
              match newScheduler with
              | Err e => Return (Err (ErrWrap "could not create scheduler" e))
              | Ok sched =>
                  match lastLogger _ _ _ _ os (Some defaultLogger) with
                  | None =>
                      Panic "invalid memory address or nil pointer dereference"
                  | Some lg =>
                      Return (Ok
                        {| c_mq := m; c_l := withService lg; c_repo := r;
                           c_dv := lastDecoder _ _ _ _ os (Some defaultDecoder);
                           c_s := sched |})
                  end
              end
          end
      end.
Proof.
  intros os. unfold New.
  destruct (applyAll_fields os
              (defaultWorkflowsControllerOpts _ _ _ _ defaultLogger
                 defaultDecoder)) as [Hm [Hl [Hr Hd]]].
  rewrite Hm, Hl, Hr, Hd. reflexivity.
Qed.

End Constructing.

(** * The GitHub webhook receiver *)

Section Receiving.

Import githubapp.

Context `{GD : Deps}.

Lemma newCalls_app st st' cs :
  calls st' = calls st ++ cs -> newCalls st st' = cs.
Proof.
  intros E. unfold newCalls. rewrite E. apply drop_app_length.
Qed.

(** X15.  An error of the handler comes from reading the webhook,
    decrypting its secret, validating the payload or parsing it: when
    the handler returns an error, its only call on the repository is
    the read of the webhook, and the store is as it was. *)
Theorem GithubUpdateTenantWebhook_error_before_any_write :
  forall (webhookId : string) (request : Request) (st : Server) (err : error),
    fst (GithubUpdateTenantWebhook webhookId request st) = Return (Err err) ->
    snd (GithubUpdateTenantWebhook webhookId request st)
    = called (CallReadGithubWebhookById webhookId) st.
Proof.
  intros webhookId request st err. unfold GithubUpdateTenantWebhook.
  destruct (ReadGithubWebhookById webhookId (github st)) as [webhook|e];
    [|reflexivity].
  destruct (Decrypt _ _) as [secret|e]; [|reflexivity].
  destruct (ValidatePayload request secret) as [payload|e]; [|reflexivity].
  destruct (ParseWebHook _ payload) as [[event|]|e]; [| |reflexivity].
  - destruct (processPullRequestEvent _ event _) as [[r|msg] st2];
      simpl; discriminate.
  - simpl. discriminate.
Qed.

(** X16.  The handler touches pull requests only for a pull request
    event whose payload passed the signature check: if it makes any
    call other than the read of the webhook, then the webhook was
    found, its secret decrypted, the payload validated with that
    secret and parsed as a pull request event. *)
Theorem GithubUpdateTenantWebhook_pull_request_calls_need_valid_payload :
  forall (webhookId : string) (request : Request) (st : Server),
    List.filter isPullRequestCall
      (newCalls st (snd (GithubUpdateTenantWebhook webhookId request st)))
    <> [] ->
    exists webhook signingSecret payload event,
      ReadGithubWebhookById webhookId (github st) = Ok webhook
      /\ Decrypt (SigningSecret webhook) "github_signing_secret"
         = Ok signingSecret
      /\ ValidatePayload request signingSecret = Ok payload
      /\ ParseWebHook (WebHookType request) payload
         = Ok (IsPullRequestEvent event).
Proof.
  intros webhookId request st. unfold GithubUpdateTenantWebhook.
  assert (Hread :
            List.filter isPullRequestCall
              (newCalls st (called (CallReadGithubWebhookById webhookId) st))
            = []).
  { rewrite (newCalls_app st _ [CallReadGithubWebhookById webhookId]);
      reflexivity. }
  destruct (ReadGithubWebhookById webhookId (github st)) as [webhook|e];
    [|simpl; intros Hc; contradiction].
  destruct (Decrypt _ _) as [secret|e] eqn:Hd;
    [|simpl; intros Hc; contradiction].
  destruct (ValidatePayload request secret) as [payload|e] eqn:Hv;
    [|simpl; intros Hc; contradiction].
  destruct (ParseWebHook _ payload) as [[event|]|e] eqn:Hp;
    [| simpl; intros Hc; contradiction | simpl; intros Hc; contradiction].
  intros _. exists webhook, secret, payload, event. auto.
Qed.

(** X17.  The error of [processPullRequestEvent] is assigned and never
    read: for a validated pull request event the handler answers with a
    nil error also when the pull request is not in the store, in which
    case nothing is written. *)
Theorem GithubUpdateTenantWebhook_drops_lookup_error :
  forall (webhookId : string) (request : Request) (st : Server)
         (webhook : GithubWebhookModel) (signingSecret : string)
         (payload : Payload) (event : PullRequestEvent) (login : string)
         (err : error),
    let pr := ToVCSRepositoryPullRequest login (repoName event)
                (pullRequest event) in
    ReadGithubWebhookById webhookId (github st) = Ok webhook ->
    Decrypt (SigningSecret webhook) "github_signing_secret" = Ok signingSecret ->
    ValidatePayload request signingSecret = Ok payload ->
    ParseWebHook (WebHookType request) payload = Ok (IsPullRequestEvent event) ->
    ownerLogin event = Some login ->
    GetPullRequest (TenantID webhook) (GetRepoOwner pr) (GetRepoName pr)
      (GetPRNumber pr) (github st) = Err err ->
    let st' := snd (GithubUpdateTenantWebhook webhookId request st) in
    fst (processPullRequestEvent (TenantID webhook) event
           (called (CallReadGithubWebhookById webhookId) st))
    = Return (Err err)
    /\ fst (GithubUpdateTenantWebhook webhookId request st) = Return (Ok tt)
    /\ newCalls st st'
       = [CallReadGithubWebhookById webhookId;
          CallGetPullRequest (TenantID webhook) (GetRepoOwner pr)
            (GetRepoName pr) (GetPRNumber pr)]
    /\ github st' = github st.
Proof.
  intros webhookId request st webhook signingSecret payload event login err pr
    Hr Hd Hv Hp Hl Hg st'. subst st'.
  unfold GithubUpdateTenantWebhook. rewrite Hr, Hd, Hv, Hp.
  unfold processPullRequestEvent. rewrite Hl. fold pr. simpl github.
  rewrite Hg. simpl.
  repeat split. apply newCalls_app. simpl. rewrite <- app_assoc. reflexivity.
Qed.

(** X18.  For a validated pull request event whose pull request is in
    the store, the handler reads the webhook, looks the pull request
    up under the tenant of the webhook and updates the row found with
    the head branch, base branch, title and state of the event, in
    this order and nothing else.  It answers with a nil error whatever
    the update returned. *)
Theorem GithubUpdateTenantWebhook_updates_pull_request :
  forall (webhookId : string) (request : Request) (st : Server)
         (webhook : GithubWebhookModel) (signingSecret : string)
         (payload : Payload) (event : PullRequestEvent) (login : string)
         (dbPR : GithubPullRequestModel),
    let pr := ToVCSRepositoryPullRequest login (repoName event)
                (pullRequest event) in
    let opts := {| HeadBranch := Some (GetHeadBranch pr);
                   BaseBranch := Some (GetBaseBranch pr);
                   Title := Some (GetTitle pr);
                   State := Some (GetState pr) |} in
    ReadGithubWebhookById webhookId (github st) = Ok webhook ->
    Decrypt (SigningSecret webhook) "github_signing_secret" = Ok signingSecret ->
    ValidatePayload request signingSecret = Ok payload ->
    ParseWebHook (WebHookType request) payload = Ok (IsPullRequestEvent event) ->
    ownerLogin event = Some login ->
    GetPullRequest (TenantID webhook) (GetRepoOwner pr) (GetRepoName pr)
      (GetPRNumber pr) (github st) = Ok dbPR ->
    let st' := snd (GithubUpdateTenantWebhook webhookId request st) in
    fst (GithubUpdateTenantWebhook webhookId request st) = Return (Ok tt)
    /\ newCalls st st'
       = [CallReadGithubWebhookById webhookId;
          CallGetPullRequest (TenantID webhook) (GetRepoOwner pr)
            (GetRepoName pr) (GetPRNumber pr);
          CallUpdatePullRequest (TenantID webhook) (pr_ID dbPR) opts]
    /\ github st'
       = snd (UpdatePullRequest (TenantID webhook) (pr_ID dbPR) opts
                (github st)).
Proof.
  intros webhookId request st webhook signingSecret payload event login dbPR
    pr opts Hr Hd Hv Hp Hl Hg st'. subst st'.
  unfold GithubUpdateTenantWebhook. rewrite Hr, Hd, Hv, Hp.
  unfold processPullRequestEvent. rewrite Hl. fold pr. simpl github.
  rewrite Hg. fold opts.
  destruct (UpdatePullRequest (TenantID webhook) (pr_ID dbPR) opts (github st))
    as [updated store']. simpl.
  repeat split. apply newCalls_app. simpl. rewrite <- !app_assoc. reflexivity.
Qed.

(** X19.  A validated pull request event that carries no owner login
    makes the handler panic: the login is dereferenced before any
    lookup, so the only call made is the read of the webhook. *)
Theorem GithubUpdateTenantWebhook_without_owner_login :
  forall (webhookId : string) (request : Request) (st : Server)
         (webhook : GithubWebhookModel) (signingSecret : string)
         (payload : Payload) (event : PullRequestEvent),
    ReadGithubWebhookById webhookId (github st) = Ok webhook ->
    Decrypt (SigningSecret webhook) "github_signing_secret" = Ok signingSecret ->
    ValidatePayload request signingSecret = Ok payload ->
    ParseWebHook (WebHookType request) payload = Ok (IsPullRequestEvent event) ->
    ownerLogin event = None ->
    GithubUpdateTenantWebhook webhookId request st
    = (Panic "invalid memory address or nil pointer dereference",
       called (CallReadGithubWebhookById webhookId) st).
Proof.
  intros webhookId request st webhook signingSecret payload event
    Hr Hd Hv Hp Hl.
  unfold GithubUpdateTenantWebhook. rewrite Hr, Hd, Hv, Hp.
  unfold processPullRequestEvent. rewrite Hl. reflexivity.
Qed.

End Receiving.

(** * The handlers and the scans on the small deployment *)

Section Scenarios.

#[local] Existing Instance launchOrder.

#[local] Existing Instance specRepository.
#[local] Existing Instance scriptedBus.
#[local] Existing Instance scriptedCron.
#[local] Existing Instance decimalTime.
#[local] Existing Instance sixtySeconds.
#[local] Existing Instance specTaskTypes.

(** A message of another controller that reaches this queue. *)
Lemma unknown_task_scenario :
  let task := demo.message "step-run-retry" [("step_run_id", "s1")] in
  ~ In (msgqueue.ID task)
      ["workflow-run-queued"; "get-group-key-run-started";
       "get-group-key-run-finished"; "get-group-key-run-failed";
       "workflow-run-finished"]
  /\ handleTask task demo.healthy
     = (Return (Err (ErrNew "unknown task: step-run-retry")), demo.healthy).
Proof.
  intros task.
  assert (H1 : ~ In (msgqueue.ID task)
                 ["workflow-run-queued"; "get-group-key-run-started";
                  "get-group-key-run-finished"; "get-group-key-run-failed";
                  "workflow-run-finished"])
    by (simpl; intuition discriminate).
  split; [exact H1|]. exact (handleTask_unknown_task task demo.healthy H1).
Defined.

(** A workflow-run-queued message without metadata. *)
Lemma without_tenant_id_scenario :
  let task :=
    {| msgqueue.ID := "workflow-run-queued";
       msgqueue.Payload := tasktypes.ToJSONMap [("workflow_run_id", "q1")];
       msgqueue.Metadata := tasktypes.ToJSONMap [];
       msgqueue.Retries := 3 |} in
  msgqueue.Metadata task !! "tenant_id" = None
  /\ exists err, handleTask task demo.healthy = (Return (Err err), demo.healthy).
Proof.
  intros task.
  assert (H1 : msgqueue.Metadata task !! "tenant_id" = None) by reflexivity.
  split; [exact H1|].
  exact (handleTask_without_tenant_id task demo.healthy H1).
Defined.

(** Run [p] of the version without a policy is queued: its one job run
    is sent. *)
Lemma queued_without_policy_scenario :
  let task := demo.message "workflow-run-queued" [("workflow_run_id", "p")] in
  let w := demo.healthy in
  let workflowRun :=
    store.r_Run (demo.run "p" demo.versionPlain ["p-j1"]
                   db.WorkflowRunStatusSucceeded 0 None) in
  let w' := snd (handleWorkflowRunQueued task w) in
  tasktypes.decodeWorkflowRunId (msgqueue.Payload task)
  = Ok {| tasktypes.wrf_WorkflowRunId := "p" |}
  /\ tasktypes.decodeTenantId (msgqueue.Metadata task) = Ok demo.tenant
  /\ GetWorkflowRunById demo.tenant "p" (repo w) = Ok workflowRun
  /\ db.Concurrency (db.WorkflowVersion workflowRun) = None
  /\ fst (handleWorkflowRunQueued task w) = Return (Ok tt)
  /\ newEvents w w'
     = [EvGetWorkflowRunById demo.tenant "p"; jobSend (demo.jobRun "p-j1")]
  /\ repo w' = repo w.
Proof.
  intros task w workflowRun w'.
  assert (H1 : tasktypes.decodeWorkflowRunId (msgqueue.Payload task)
               = Ok {| tasktypes.wrf_WorkflowRunId := "p" |})
    by (vm_compute; reflexivity).
  assert (H2 : tasktypes.decodeTenantId (msgqueue.Metadata task)
               = Ok demo.tenant) by (vm_compute; reflexivity).
  assert (H3 : GetWorkflowRunById demo.tenant "p" (repo w) = Ok workflowRun)
    by (vm_compute; reflexivity).
  assert (H4 : db.Concurrency (db.WorkflowVersion workflowRun) = None)
    by reflexivity.
  destruct (handleWorkflowRunQueued_without_policy
              task w {| tasktypes.wrf_WorkflowRunId := "p" |} demo.tenant
              workflowRun H1 H2 H3 H4) as [Hnil [Hcalls Hrepo]].
  split; [exact H1|]. split; [exact H2|]. split; [exact H3|].
  split; [exact H4|]. split; [exact Hnil|]. split; [exact Hcalls|exact Hrepo].
Defined.

(** Run [q1] of the cancel-in-progress version is queued: its
    group-key run is scheduled, its job runs are not sent. *)
Lemma queued_with_policy_scenario :
  let task := demo.message "workflow-run-queued" [("workflow_run_id", "q1")] in
  let w := demo.healthy in
  let workflowRun :=
    store.r_Run (demo.run "q1" demo.versionCip ["q1-j1"; "q1-j2"]
                   db.WorkflowRunStatusQueued 30 (Some "G")) in
  let w' := snd (handleWorkflowRunQueued task w) in
  tasktypes.decodeWorkflowRunId (msgqueue.Payload task)
  = Ok {| tasktypes.wrf_WorkflowRunId := "q1" |}
  /\ tasktypes.decodeTenantId (msgqueue.Metadata task) = Ok demo.tenant
  /\ GetWorkflowRunById demo.tenant "q1" (repo w) = Ok workflowRun
  /\ db.Concurrency (db.WorkflowVersion workflowRun) = Some demo.cip
  /\ List.filter isJobSend (newEvents w w') = [].
Proof.
  intros task w workflowRun w'.
  assert (H1 : tasktypes.decodeWorkflowRunId (msgqueue.Payload task)
               = Ok {| tasktypes.wrf_WorkflowRunId := "q1" |})
    by (vm_compute; reflexivity).
  assert (H2 : tasktypes.decodeTenantId (msgqueue.Metadata task)
               = Ok demo.tenant) by (vm_compute; reflexivity).
  assert (H3 : GetWorkflowRunById demo.tenant "q1" (repo w) = Ok workflowRun)
    by (vm_compute; reflexivity).
  assert (H4 : db.Concurrency (db.WorkflowVersion workflowRun) = Some demo.cip)
    by reflexivity.
  destruct (handleWorkflowRunQueued_with_policy
              task w {| tasktypes.wrf_WorkflowRunId := "q1" |} demo.tenant
              workflowRun demo.cip H1 H2 H3 H4) as [Hnone _].
  split; [exact H1|]. split; [exact H2|]. split; [exact H3|].
  split; [exact H4|exact Hnone].
Defined.

(** The worker reports that it has started [gk-new]. *)
Lemma started_scenario :
  let task :=
    demo.message "get-group-key-run-started"
      [("get_group_key_run_id", "gk-new"); ("started_at", "1100")] in
  let w := demo.healthy in
  let payload :=
    {| tasktypes.gs_GetGroupKeyRunId := "gk-new";
       tasktypes.gs_StartedAt := "1100" |} in
  let w' := snd (handleGroupKeyRunStarted task w) in
  tasktypes.decodeStarted (msgqueue.Payload task) = Ok payload
  /\ tasktypes.decodeTenantId (msgqueue.Metadata task) = Ok demo.tenant
  /\ fst (handleGroupKeyRunStarted task w) = Return (Ok tt)
  /\ newEvents w w'
     = [EvUpdateGetGroupKeyRun demo.tenant "gk-new" (started 1100)].
Proof.
  intros task w payload w'.
  assert (H1 : tasktypes.decodeStarted (msgqueue.Payload task) = Ok payload)
    by (vm_compute; reflexivity).
  assert (H2 : tasktypes.decodeTenantId (msgqueue.Metadata task)
               = Ok demo.tenant) by (vm_compute; reflexivity).
  assert (Ht : time_ParseRFC3339 (tasktypes.gs_StartedAt payload) = Some 1100)
    by (vm_compute; reflexivity).
  pose proof (handleGroupKeyRunStarted_single_write
                task w payload demo.tenant H1 H2) as Hrun.
  rewrite Ht in Hrun. cbv zeta in Hrun.
  split; [exact H1|]. split; [exact H2|].
  subst w'. rewrite Hrun. split; vm_compute; reflexivity.
Defined.

(** The worker reports that the key of [gk-new] could not be
    computed. *)
Lemma failed_scenario :
  let task :=
    demo.message "get-group-key-run-failed"
      [("get_group_key_run_id", "gk-new"); ("failed_at", "1100");
       ("error", "boom")] in
  let w := demo.healthy in
  let payload :=
    {| tasktypes.gx_GetGroupKeyRunId := "gk-new";
       tasktypes.gx_FailedAt := "1100";
       tasktypes.gx_Error := "boom" |} in
  let row :=
    store.g_Row (store.withRun (store.applyPatch (failed 1100 "boom"))
                   demo.gkNew) in
  let st1 :=
    snd (UpdateGetGroupKeyRun demo.tenant "gk-new" (failed 1100 "boom")
           (repo w)) in
  let w' := snd (handleGroupKeyRunFailed task w) in
  tasktypes.decodeFailed (msgqueue.Payload task) = Ok payload
  /\ tasktypes.decodeTenantId (msgqueue.Metadata task) = Ok demo.tenant
  /\ time_ParseRFC3339 "1100" = Some 1100
  /\ UpdateGetGroupKeyRun demo.tenant "gk-new" (failed 1100 "boom") (repo w)
     = (Ok row, st1)
  /\ newEvents w w'
     = [EvUpdateGetGroupKeyRun demo.tenant "gk-new" (failed 1100 "boom");
        EvAddMessage (msgqueue.QueueTypeFromTickerID "ticker-1")
          (cancelGetGroupKeyRunTimeoutTask row)]
  /\ repo w' = st1.
Proof.
  intros task w payload row st1 w'.
  assert (H1 : tasktypes.decodeFailed (msgqueue.Payload task) = Ok payload)
    by (vm_compute; reflexivity).
  assert (H2 : tasktypes.decodeTenantId (msgqueue.Metadata task)
               = Ok demo.tenant) by (vm_compute; reflexivity).
  assert (H3 : time_ParseRFC3339 "1100" = Some 1100)
    by (vm_compute; reflexivity).
  assert (H4 : UpdateGetGroupKeyRun demo.tenant "gk-new" (failed 1100 "boom")
                 (repo w) = (Ok row, st1)) by (vm_compute; reflexivity).
  pose proof (handleGroupKeyRunFailed_calls
                task w payload demo.tenant 1100 H1 H2 H3) as Hrun.
  cbv zeta in Hrun.
  change (tasktypes.gx_GetGroupKeyRunId payload) with "gk-new" in Hrun.
  change (tasktypes.gx_Error payload) with "boom" in Hrun.
  rewrite H4 in Hrun.
  split; [exact H1|]. split; [exact H2|]. split; [exact H3|].
  split; [exact H4|]. exact Hrun.
Defined.

(** The key of [gk-q1] has been computed: run q1 of group G is
    admitted by cancel-in-progress and the timeout is cancelled. *)
Lemma finished_scenario :
  let task := demo.finished "gk-q1" in
  let w := demo.healthy in
  let payload :=
    {| tasktypes.gf_GetGroupKeyRunId := "gk-q1";
       tasktypes.gf_FinishedAt := "1200";
       tasktypes.gf_GroupKey := "G" |} in
  let groupKeyRun :=
    store.g_Row (store.withRun (store.applyPatch (succeeded 1200 "G"))
                   demo.gkQ1) in
  let st1 :=
    snd (UpdateGetGroupKeyRun demo.tenant "gk-q1" (succeeded 1200 "G")
           (repo w)) in
  tasktypes.decodeFinished (msgqueue.Payload task) = Ok payload
  /\ tasktypes.decodeTenantId (msgqueue.Metadata task) = Ok demo.tenant
  /\ time_ParseRFC3339 "1200" = Some 1200
  /\ UpdateGetGroupKeyRun demo.tenant "gk-q1" (succeeded 1200 "G") (repo w)
     = (Ok groupKeyRun, st1)
  /\ GetWorkflowVersionById demo.tenant "wv-cip" st1 = Ok demo.versionCip
  /\ db.Concurrency demo.versionCip = Some demo.cip
  /\ In (EvAddMessage (msgqueue.QueueTypeFromTickerID "ticker-1")
           (cancelGetGroupKeyRunTimeoutTask groupKeyRun))
        (newEvents w (snd (handleGroupKeyRunFinished task w))).
Proof.
  intros task w payload groupKeyRun st1.
  assert (H1 : tasktypes.decodeFinished (msgqueue.Payload task) = Ok payload)
    by (vm_compute; reflexivity).
  assert (H2 : tasktypes.decodeTenantId (msgqueue.Metadata task)
               = Ok demo.tenant) by (vm_compute; reflexivity).
  assert (H3 : time_ParseRFC3339 "1200" = Some 1200)
    by (vm_compute; reflexivity).
  assert (H4 : UpdateGetGroupKeyRun demo.tenant "gk-q1"
                 (succeeded 1200 "G") (repo w) = (Ok groupKeyRun, st1))
    by (vm_compute; reflexivity).
  assert (H5 : GetWorkflowVersionById demo.tenant "wv-cip" st1
               = Ok demo.versionCip) by (vm_compute; reflexivity).
  assert (H6 : db.Concurrency demo.versionCip = Some demo.cip) by reflexivity.
  destruct (handleGroupKeyRunFinished_runs_both
              task w payload demo.tenant 1200 groupKeyRun st1
              demo.versionCip demo.cip H1 H2 H3 H4 H5 H6)
    as [first [second [r1 [r2 [_ [_ [_ [_ [_ Hsend]]]]]]]]].
  repeat match goal with |- _ /\ _ => split; [assumption|] end.
  exact Hsend.
Defined.


(** Scheduling [gk-new] on a bus that refuses the first send: the
    dispatcher is not told, the timeout is not armed, and the run stays
    assigned to worker-1 and ticker-1. *)
Lemma dispatch_send_fails_scenario :
  let row := store.g_Row demo.gkNew in
  let w := demo.flaky in
  let out1 :=
    UpdateGetGroupKeyRun demo.tenant "gk-new" pendingAssignment (repo w) in
  let out2 := AssignGetGroupKeyRunToWorker demo.tenant "gk-new" (snd out1) in
  let out3 := AssignGetGroupKeyRunToTicker demo.tenant "gk-new" (snd out2) in
  let dispatch :=
    getGroupActionTask demo.tenant "a3" "worker-1" "dispatcher-1" in
  let send :=
    AddMessage (msgqueue.QueueTypeFromDispatcherID "dispatcher-1") dispatch
      (mq w) in
  let w' := snd (scheduleGetGroupAction row w) in
  out1 = (Ok (store.g_Row (store.withRun (store.applyPatch pendingAssignment)
                             demo.gkNew)), snd out1)
  /\ out2 = (Ok ("worker-1", "dispatcher-1"), snd out2)
  /\ out3 = (Ok "ticker-1", snd out3)
  /\ time_ParseDuration DefaultStepRunTimeout = Some (60 * time_Second)
  /\ send = (Err (ErrNew "Transient"), snd send)
  /\ fst (scheduleGetGroupAction row w)
     = Return (Err (ErrWrap "could not add job assigned task to task queue"
                      (ErrNew "Transient")))
  /\ List.filter isTimeoutSend (newEvents w w') = []
  /\ repo w' = snd out3.
Proof.
  intros row w out1 out2 out3 dispatch send w'.
  assert (H1 : out1
               = (Ok (store.g_Row (store.withRun
                                     (store.applyPatch pendingAssignment)
                                     demo.gkNew)), snd out1))
    by (vm_compute; reflexivity).
  assert (H2 : out2 = (Ok ("worker-1", "dispatcher-1"), snd out2))
    by (vm_compute; reflexivity).
  assert (H3 : out3 = (Ok "ticker-1", snd out3)) by (vm_compute; reflexivity).
  assert (H4 : time_ParseDuration DefaultStepRunTimeout
               = Some (60 * time_Second)) by (vm_compute; reflexivity).
  assert (H5 : send = (Err (ErrNew "Transient"), snd send))
    by (vm_compute; reflexivity).
  destruct (scheduleGetGroupAction_dispatch_send_fails
              row _ w (snd out1) (snd out2) (snd out3)
              "worker-1" "dispatcher-1" "ticker-1" (60 * time_Second)
              (ErrNew "Transient") (snd send) H1 H2 H3 H4 H5)
    as [Herr [_ [Hnone Hrepo]]].
  repeat match goal with |- _ /\ _ => split; [assumption|] end. exact Hrepo.
Defined.


(** [Start] on a bus that refuses the subscription: both jobs are
    registered and the scheduler is started, then the subscription
    fails; the context is cancelled and the scheduler is left
    running. *)
Example start_without_subscription :
  fst (Start deafWorld) = Return (Err (ErrNew "Transient"))
  /\ newEvents deafWorld (snd (Start deafWorld)) = startCalls ++ [EvCancel]
  /\ cron.running (s (snd (Start deafWorld))) = true
  /\ cron.jobs (s (snd (Start deafWorld)))
     = ["runGetGroupKeyRunRequeue"; "runGetGroupKeyRunReassign"].
Proof.
  split; [reflexivity|]. split; [vm_compute; reflexivity|].
  split; vm_compute; reflexivity.
Qed.

End Scenarios.

Section WithoutDefaultTimeout.

#[local] Existing Instance launchOrder.

#[local] Existing Instance specRepository.
#[local] Existing Instance scriptedBus.
#[local] Existing Instance scriptedCron.
#[local] Existing Instance decimalTime.
#[local] Existing Instance noDuration.
#[local] Existing Instance specTaskTypes.

(** Scheduling [gk-new] when the default timeout is configured as
    "soon": the run is assigned and nobody is told. *)
Lemma without_default_timeout_scenario :
  let row := store.g_Row demo.gkNew in
  let w := demo.healthy in
  let out1 :=
    UpdateGetGroupKeyRun demo.tenant "gk-new" pendingAssignment (repo w) in
  let out2 := AssignGetGroupKeyRunToWorker demo.tenant "gk-new" (snd out1) in
  let out3 := AssignGetGroupKeyRunToTicker demo.tenant "gk-new" (snd out2) in
  let w' := snd (scheduleGetGroupAction row w) in
  out1 = (Ok (store.g_Row (store.withRun (store.applyPatch pendingAssignment)
                             demo.gkNew)), snd out1)
  /\ out2 = (Ok ("worker-1", "dispatcher-1"), snd out2)
  /\ out3 = (Ok "ticker-1", snd out3)
  /\ time_ParseDuration DefaultStepRunTimeout = None
  /\ is_Ok (fst (scheduleGetGroupAction row w)) = false
  /\ List.filter isAddMessage (newEvents w w') = []
  /\ bus.delivered (mq w') = []
  /\ repo w' = snd out3.
Proof.
  intros row w out1 out2 out3 w'.
  assert (H1 : out1
               = (Ok (store.g_Row (store.withRun
                                     (store.applyPatch pendingAssignment)
                                     demo.gkNew)), snd out1))
    by (vm_compute; reflexivity).
  assert (H2 : out2 = (Ok ("worker-1", "dispatcher-1"), snd out2))
    by (vm_compute; reflexivity).
  assert (H3 : out3 = (Ok "ticker-1", snd out3)) by (vm_compute; reflexivity).
  assert (H4 : time_ParseDuration DefaultStepRunTimeout = None)
    by (vm_compute; reflexivity).
  destruct (scheduleGetGroupAction_without_default_timeout
              row _ w (snd out1) (snd out2) (snd out3)
              "worker-1" "dispatcher-1" "ticker-1" H1 H2 H3 H4)
    as [[err Herr] [Hcalls [Hbus Hrepo]]].
  subst w'. repeat match goal with |- _ /\ _ => split; [assumption|] end.
  split; [rewrite Herr; reflexivity|].
  split; [rewrite Hcalls; reflexivity|].
  split; [rewrite Hbus; reflexivity|exact Hrepo].
Defined.

End WithoutDefaultTimeout.

(** * The receiver on a small store *)

Section Webhooks.

Import githubapp.

#[local] Existing Instance double.types.
#[local] Existing Instance double.deps.

(** A pull request event signed with the wrong secret. *)
Lemma wrong_signature_scenario :
  let request := double.pullRequestOpened "guess" in
  let st := double.start false in
  fst (GithubUpdateTenantWebhook "hook-1" request st)
  = Return (Err (ErrNew "payload signature check failed"))
  /\ snd (GithubUpdateTenantWebhook "hook-1" request st)
     = called (CallReadGithubWebhookById "hook-1") st.
Proof.
  intros request st.
  assert (H1 : fst (GithubUpdateTenantWebhook "hook-1" request st)
               = Return (Err (ErrNew "payload signature check failed")))
    by (vm_compute; reflexivity).
  split; [exact H1|].
  exact (GithubUpdateTenantWebhook_error_before_any_write (GD := double.deps)
           "hook-1" request st _ H1).
Defined.

(** A pull request event for pull request 7, signed with the secret of
    the webhook. *)
Lemma valid_payload_scenario :
  let request := double.pullRequestOpened "s3cret" in
  let st := double.start false in
  List.filter isPullRequestCall
    (newCalls st (snd (GithubUpdateTenantWebhook "hook-1" request st)))
  <> []
  /\ exists webhook signingSecret payload event,
       ReadGithubWebhookById "hook-1" (github st) = Ok webhook
       /\ Decrypt (SigningSecret webhook) "github_signing_secret"
          = Ok signingSecret
       /\ ValidatePayload request signingSecret = Ok payload
       /\ ParseWebHook (WebHookType request) payload
          = Ok (IsPullRequestEvent event).
Proof.
  intros request st.
  assert (H1 : List.filter isPullRequestCall
                 (newCalls st
                    (snd (GithubUpdateTenantWebhook "hook-1" request st)))
               <> []) by (vm_compute; discriminate).
  split; [exact H1|].
  exact (GithubUpdateTenantWebhook_pull_request_calls_need_valid_payload (GD := double.deps)
           "hook-1" request st H1).
Defined.

(** A signed event for pull request 8, which the store does not have:
    the lookup fails and the handler answers with a nil error. *)
Lemma unknown_pull_request_scenario :
  let request :=
    {| double.signature := "s3cret"; double.kind := "pull_request";
       double.body := Some ("octo", "hatchet", 8, "other") |} in
  let st := double.start false in
  let webhook := {| SigningSecret := "s3cret"; TenantID := "tenant-1" |} in
  let event :=
    {| ownerLogin := Some "octo"; repoName := "hatchet";
       pullRequest := (8, "other") |} in
  let st' := snd (GithubUpdateTenantWebhook "hook-1" request st) in
  ReadGithubWebhookById "hook-1" (github st) = Ok webhook
  /\ Decrypt (SigningSecret webhook) "github_signing_secret" = Ok "s3cret"
  /\ ValidatePayload request "s3cret" = Ok request
  /\ ParseWebHook (WebHookType request) request = Ok (IsPullRequestEvent event)
  /\ ownerLogin event = Some "octo"
  /\ GetPullRequest "tenant-1" "octo" "hatchet" 8 (github st)
     = Err (ErrNew "NotFound")
  /\ fst (GithubUpdateTenantWebhook "hook-1" request st) = Return (Ok tt)
  /\ newCalls st st'
     = [CallReadGithubWebhookById "hook-1";
        CallGetPullRequest "tenant-1" "octo" "hatchet" 8]
  /\ github st' = github st.
Proof.
  intros request st webhook event st'.
  assert (H1 : ReadGithubWebhookById "hook-1" (github st) = Ok webhook)
    by reflexivity.
  assert (H2 : Decrypt (SigningSecret webhook) "github_signing_secret"
               = Ok "s3cret") by reflexivity.
  assert (H3 : ValidatePayload request "s3cret" = Ok request) by reflexivity.
  assert (H4 : ParseWebHook (WebHookType request) request
               = Ok (IsPullRequestEvent event)) by reflexivity.
  assert (H5 : ownerLogin event = Some "octo") by reflexivity.
  assert (H6 : GetPullRequest "tenant-1" "octo" "hatchet" 8 (github st)
               = Err (ErrNew "NotFound")) by reflexivity.
  destruct (GithubUpdateTenantWebhook_drops_lookup_error (GD := double.deps)
              "hook-1" request st webhook "s3cret" request event "octo"
              (ErrNew "NotFound") H1 H2 H3 H4 H5 H6)
    as [_ [Hnil [Hcalls Hstore]]].
  repeat match goal with |- _ /\ _ => split; [assumption|] end. exact Hstore.
Defined.

(** The signed event for pull request 7: the row is updated with the
    head branch and the title of the event. *)
Lemma pull_request_updated_scenario :
  let request := double.pullRequestOpened "s3cret" in
  let st := double.start false in
  let webhook := {| SigningSecret := "s3cret"; TenantID := "tenant-1" |} in
  let event :=
    {| ownerLogin := Some "octo"; repoName := "hatchet";
       pullRequest := (7, "ready") |} in
  let opts :=
    {| HeadBranch := Some "feature"; BaseBranch := Some "main";
       Title := Some "ready"; State := Some "open" |} in
  let st' := snd (GithubUpdateTenantWebhook "hook-1" request st) in
  ReadGithubWebhookById "hook-1" (github st) = Ok webhook
  /\ Decrypt (SigningSecret webhook) "github_signing_secret" = Ok "s3cret"
  /\ ValidatePayload request "s3cret" = Ok request
  /\ ParseWebHook (WebHookType request) request = Ok (IsPullRequestEvent event)
  /\ ownerLogin event = Some "octo"
  /\ GetPullRequest "tenant-1" "octo" "hatchet" 7 (github st)
     = Ok {| pr_ID := "pr-7" |}
  /\ fst (GithubUpdateTenantWebhook "hook-1" request st) = Return (Ok tt)
  /\ newCalls st st'
     = [CallReadGithubWebhookById "hook-1";
        CallGetPullRequest "tenant-1" "octo" "hatchet" 7;
        CallUpdatePullRequest "tenant-1" "pr-7" opts]
  /\ double.pullRequests (github st')
     = [{| double.id := "pr-7"; double.tenant := "tenant-1";
           double.number := 7; double.head := "feature";
           double.title := "ready" |}].
Proof.
  intros request st webhook event opts st'.
  assert (H1 : ReadGithubWebhookById "hook-1" (github st) = Ok webhook)
    by reflexivity.
  assert (H2 : Decrypt (SigningSecret webhook) "github_signing_secret"
               = Ok "s3cret") by reflexivity.
  assert (H3 : ValidatePayload request "s3cret" = Ok request) by reflexivity.
  assert (H4 : ParseWebHook (WebHookType request) request
               = Ok (IsPullRequestEvent event)) by reflexivity.
  assert (H5 : ownerLogin event = Some "octo") by reflexivity.
  assert (H6 : GetPullRequest "tenant-1" "octo" "hatchet" 7 (github st)
               = Ok {| pr_ID := "pr-7" |}) by reflexivity.
  destruct (GithubUpdateTenantWebhook_updates_pull_request (GD := double.deps)
              "hook-1" request st webhook "s3cret" request event "octo"
              {| pr_ID := "pr-7" |} H1 H2 H3 H4 H5 H6)
    as [Hnil [Hcalls Hstore]].
  repeat match goal with |- _ /\ _ => split; [assumption|] end.
  subst st'. rewrite Hstore. reflexivity.
Defined.

(** A signed pull request event whose repository has no owner
    login. *)
Lemma without_owner_login_scenario :
  let request :=
    {| double.signature := "s3cret"; double.kind := "pull_request";
       double.body := Some ("", "hatchet", 7, "ready") |} in
  let st := double.start false in
  let webhook := {| SigningSecret := "s3cret"; TenantID := "tenant-1" |} in
  let event :=
    {| ownerLogin := None; repoName := "hatchet";
       pullRequest := (7, "ready") |} in
  ReadGithubWebhookById "hook-1" (github st) = Ok webhook
  /\ Decrypt (SigningSecret webhook) "github_signing_secret" = Ok "s3cret"
  /\ ValidatePayload request "s3cret" = Ok request
  /\ ParseWebHook (WebHookType request) request = Ok (IsPullRequestEvent event)
  /\ ownerLogin event = None
  /\ GithubUpdateTenantWebhook "hook-1" request st
     = (Panic "invalid memory address or nil pointer dereference",
        called (CallReadGithubWebhookById "hook-1") st).
Proof.
  intros request st webhook event.
  assert (H1 : ReadGithubWebhookById "hook-1" (github st) = Ok webhook)
    by reflexivity.
  assert (H2 : Decrypt (SigningSecret webhook) "github_signing_secret"
               = Ok "s3cret") by reflexivity.
  assert (H3 : ValidatePayload request "s3cret" = Ok request) by reflexivity.
  assert (H4 : ParseWebHook (WebHookType request) request
               = Ok (IsPullRequestEvent event)) by reflexivity.
  assert (H5 : ownerLogin event = None) by reflexivity.
  repeat match goal with |- _ /\ _ => split; [assumption|] end.
  exact (GithubUpdateTenantWebhook_without_owner_login (GD := double.deps)
           "hook-1" request st webhook "s3cret" request event
           H1 H2 H3 H4 H5).
Defined.

(** The update fails on a store that is read-only; the handler still
    answers with a nil error. *)
Example update_error_is_dropped :
  let out :=
    GithubUpdateTenantWebhook "hook-1" (double.pullRequestOpened "s3cret")
      (double.start true) in
  fst (UpdatePullRequest "tenant-1" "pr-7"
         {| HeadBranch := Some "feature"; BaseBranch := Some "main";
            Title := Some "ready"; State := Some "open" |}
         (github (double.start true)))
  = Err (ErrNew "Transient")
  /\ fst out = Return (Ok tt)
  /\ github (snd out) = github (double.start true).
Proof. vm_compute. repeat split; reflexivity. Qed.

End Webhooks.

(** * The goroutine launched last completes first *)

Section LastFirst.

#[local] Existing Instance lastFirst.
#[local] Existing Instance specRepository.
#[local] Existing Instance scriptedBus.
#[local] Existing Instance scriptedCron.
#[local] Existing Instance decimalTime.
#[local] Existing Instance sixtySeconds.
#[local] Existing Instance specTaskTypes.

(** The finished message for [gk-q1] when the cancellation of the
    timeout completes before admission: the send comes right after the
    status write, before any call of admission. *)
Example finished_cancel_first :
  let out := handleGroupKeyRunFinished (demo.finished "gk-q1") demo.healthy in
  fst out = Return (Ok tt)
  /\ position isCancelTimeoutSend (newEvents demo.healthy (snd out))
     = Some 1%nat
  /\ nth_error (newEvents demo.healthy (snd out)) 2
     = Some (EvGetWorkflowVersionById demo.tenant "wv-cip").
Proof.
  split; [vm_compute; reflexivity|]. split; vm_compute; reflexivity.
Qed.

(** On a bus that refuses the first send, the cancellation of the
    timeout fails first and its error is the one returned; admission
    still runs, and r1 is cancelled. *)
Example finished_cancel_fails_first :
  let out := handleGroupKeyRunFinished (demo.finished "gk-q1") demo.flaky in
  fst out
  = Return (Err (ErrWrap
      "could not add cancel group key run timeout task to task queue"
      (ErrNew "Transient")))
  /\ nth_error (newEvents demo.flaky (snd out)) 7
     = Some (cancelSend demo.tenant {| db.sr_ID := "s2" |})
  /\ nth_error (newEvents demo.flaky (snd out)) 8
     = Some (cancelSend demo.tenant {| db.sr_ID := "s1" |}).
Proof.
  split; [vm_compute; reflexivity|]. split; vm_compute; reflexivity.
Qed.

End LastFirst.
